(** * Bar/QR code detection: the capture, selection, detection and
      throughput-accounting core, embedded from the Python sources

    - [Performance]  : [src/utils/performance.py]   (class PerformanceMonitor)
    - [Camera]       : [src/core/camera.py]         (classes CameraManager,
                                                     FPSCounter, ROISelector)
    - [Detector]     : [src/core/opencv_detector.py] (class OpenCVDetector)
    - [Exporter]     : [src/core/exporter.py]       (class ResultExporter)

    Conventions.  Python [int] is [Z].  Wall-clock readings ([time.time()])
    and the float coordinates handed back by the decoders are read as exact
    rationals ([Q]); every reading of the clock is an explicit argument.
    A Python [str] is the list of its code points. *)

From Stdlib Require Import String Ascii.
From Stdlib Require Import ZArith QArith Qround List Bool Lia Arith.
From Stdlib Require Import Sorted Permutation.
Import ListNotations.

Local Open Scope Z_scope.

(* ================================================================== *)
(** ** Python list helpers shared by the three modules                  *)
(* ================================================================== *)

(** [l[-n:]] for a positive [n]: the last [n] items, or all of [l] when it
    is shorter. *)
Definition slice_last {A : Type} (n : nat) (l : list A) : list A :=
  skipn (length l - n) l.

(* ================================================================== *)
(** ** utils/performance.py                                             *)
(* ================================================================== *)

Module Performance.

(** The instance attributes of [PerformanceMonitor].  [lock] is the
    [threading.Lock] of the instance: [true] while it is held.
    ([monitoring_thread] is only ever [None] and is left out.) *)
Record PerformanceMonitor : Type := mkMonitor {
  start_time      : Q;
  frame_times     : list Q;
  last_frame_time : Q;
  frame_count     : Z;
  detection_count : Z;
  monitoring      : bool;
  lock            : bool
}.

Definition set_start_time (v : Q) (s : PerformanceMonitor) :=
  mkMonitor v (frame_times s) (last_frame_time s) (frame_count s)
            (detection_count s) (monitoring s) (lock s).
Definition set_frame_times (v : list Q) (s : PerformanceMonitor) :=
  mkMonitor (start_time s) v (last_frame_time s) (frame_count s)
            (detection_count s) (monitoring s) (lock s).
Definition set_last_frame_time (v : Q) (s : PerformanceMonitor) :=
  mkMonitor (start_time s) (frame_times s) v (frame_count s)
            (detection_count s) (monitoring s) (lock s).
Definition set_frame_count (v : Z) (s : PerformanceMonitor) :=
  mkMonitor (start_time s) (frame_times s) (last_frame_time s) v
            (detection_count s) (monitoring s) (lock s).
Definition set_detection_count (v : Z) (s : PerformanceMonitor) :=
  mkMonitor (start_time s) (frame_times s) (last_frame_time s) (frame_count s)
            v (monitoring s) (lock s).
Definition set_monitoring (v : bool) (s : PerformanceMonitor) :=
  mkMonitor (start_time s) (frame_times s) (last_frame_time s) (frame_count s)
            (detection_count s) v (lock s).
Definition set_lock (v : bool) (s : PerformanceMonitor) :=
  mkMonitor (start_time s) (frame_times s) (last_frame_time s) (frame_count s)
            (detection_count s) (monitoring s) v.

(** A method call either returns a value and leaves the instance in a new
    state, or blocks for ever on the instance's lock. *)
Inductive outcome (A : Type) : Type :=
| Returns (a : A) (self : PerformanceMonitor)
| Blocks.
Arguments Returns {A} a self.
Arguments Blocks {A}.

Definition M (A : Type) : Type := PerformanceMonitor -> outcome A.

Definition ret {A : Type} (a : A) : M A := fun self => Returns a self.

Definition bind {A B : Type} (m : M A) (k : A -> M B) : M B :=
  fun self =>
    match m self with
    | Returns a self' => k a self'
    | Blocks => Blocks
    end.

Definition gets {A : Type} (f : PerformanceMonitor -> A) : M A :=
  fun self => Returns (f self) self.

Definition modify (f : PerformanceMonitor -> PerformanceMonitor) : M unit :=
  fun self => Returns tt (f self).

Notation "x <- m ;; k" := (bind m (fun x => k))
  (at level 61, m at next level, right associativity).
Notation "m ;;; k" := (bind m (fun _ => k))
  (at level 61, right associativity).

(** [with self.lock: body].  [threading.Lock] is not re-entrant: acquiring
    it while it is held waits for a release, and when the holder is the
    caller itself no release can come.  Leaving the block, by falling off
    its end or by [return], releases the lock. *)
Definition with_lock {A : Type} (body : M A) : M A :=
  fun self =>
    if lock self then Blocks
    else match body (set_lock true self) with
         | Returns a self' => Returns a (set_lock false self')
         | Blocks => Blocks
         end.

(** [__init__]; [t0] and [t1] are its two readings of the clock. *)
Definition init (t0 t1 : Q) : PerformanceMonitor :=
  mkMonitor t0 [] t1 0 0 false false.

Definition start_monitoring : M unit := modify (set_monitoring true).
Definition stop_monitoring : M unit := modify (set_monitoring false).

(** [update_fps]; [current_time] is its reading of the clock. *)
Definition update_fps (current_time : Q) : M unit :=
  with_lock (
    modify (fun self => set_frame_times (frame_times self ++ [current_time]) self) ;;;
    modify (fun self => set_frame_count (frame_count self + 1) self) ;;;
    modify (fun self =>
      if (60 <? length (frame_times self))%nat
      then set_frame_times (slice_last 60 (frame_times self)) self
      else self)) ;;;
  modify (set_last_frame_time current_time).

Definition record_detection_time (detection_time : Q) : M unit :=
  with_lock (modify (fun self => set_detection_count (detection_count self + 1) self)).

(** The value [get_current_fps] computes from the window. *)
Definition window_fps (times : list Q) : Q :=
  if (length times <? 2)%nat then 0%Q
  else
    let time_span := (last times 0 - hd 0 times)%Q in
    if Qle_bool time_span 0 then 0%Q
    else (inject_Z (Z.of_nat (length times) - 1) / time_span)%Q.

Definition get_current_fps : M Q :=
  with_lock (gets (fun self => window_fps (frame_times self))).

(** The nested dictionary that [get_performance_summary] builds. *)
Inductive value : Type :=
| VFloat (q : Q)
| VInt (z : Z).

Definition dict (V : Type) : Type := list (string * V).

Fixpoint dict_get {V : Type} (k : string) (d : dict V) : option V :=
  match d with
  | [] => None
  | (k', v) :: d' => if String.eqb k k' then Some v else dict_get k d'
  end.

Definition dict_get2 (k1 k2 : string) (d : dict (dict value)) : option value :=
  match dict_get k1 d with
  | Some inner => dict_get k2 inner
  | None => None
  end.

Definition summary_of (fps : Q) (self : PerformanceMonitor) : dict (dict value) :=
  [ ("fps"%string,       [ ("current"%string, VFloat fps) ]);
    ("detection"%string, [ ("total_detections"%string, VInt (detection_count self)) ]) ].

Definition get_performance_summary : M (dict (dict value)) :=
  with_lock (
    fps <- get_current_fps ;;
    gets (summary_of fps)).

(** [reset_stats]; [now] is its reading of the clock. *)
Definition reset_stats (now : Q) : M unit :=
  with_lock (
    modify (set_start_time now) ;;;
    modify (set_frame_times []) ;;;
    modify (set_frame_count 0) ;;;
    modify (set_detection_count 0)).

Definition get_current_metrics : M (dict (dict value)) := get_performance_summary.

(** A run of [update_fps] calls, one per clock reading. *)
Fixpoint run_updates (ts : list Q) : M unit :=
  match ts with
  | [] => ret tt
  | t :: ts' => update_fps t ;;; run_updates ts'
  end.

(** [n] clock readings at the fixed spacing [d], the first one at [t]. *)
Definition regular_times (t d : Q) (n : nat) : list Q :=
  map (fun i => (t + inject_Z (Z.of_nat i) * d)%Q) (seq 0 n).

(** The calls a client can make, and the monitor states that sequences
    of returning calls produce from a new monitor. *)
Inductive call : Type :=
| CallStartMonitoring
| CallStopMonitoring
| CallUpdateFps (current_time : Q)
| CallRecordDetectionTime (detection_time : Q)
| CallGetCurrentFps
| CallGetPerformanceSummary
| CallResetStats (now : Q).

Definition run_call (c : call) : M unit :=
  match c with
  | CallStartMonitoring => start_monitoring
  | CallStopMonitoring => stop_monitoring
  | CallUpdateFps t => update_fps t
  | CallRecordDetectionTime t => record_detection_time t
  | CallGetCurrentFps => get_current_fps ;;; ret tt
  | CallGetPerformanceSummary => get_performance_summary ;;; ret tt
  | CallResetStats t => reset_stats t
  end.

Inductive reachable : PerformanceMonitor -> Prop :=
| reach_new (t0 t1 : Q) : reachable (init t0 t1)
| reach_call (c : call) (self self' : PerformanceMonitor) :
    reachable self -> run_call c self = Returns tt self' -> reachable self'.

(** A sequence of calls, made one after the other. *)
Fixpoint run_calls (cs : list call) : M unit :=
  match cs with
  | [] => ret tt
  | c :: cs' => run_call c ;;; run_calls cs'
  end.

Definition is_summary_call (c : call) : bool :=
  match c with CallGetPerformanceSummary => true | _ => false end.

Definition is_reset_call (c : call) : bool :=
  match c with CallResetStats _ => true | _ => false end.

Definition is_monitoring_call (c : call) : bool :=
  match c with
  | CallStartMonitoring | CallStopMonitoring => true
  | _ => false
  end.

(** The clock readings of the [update_fps] calls of a sequence, and the
    number of its [record_detection_time] calls. *)
Fixpoint update_times (cs : list call) : list Q :=
  match cs with
  | [] => []
  | CallUpdateFps t :: cs' => t :: update_times cs'
  | _ :: cs' => update_times cs'
  end.

Fixpoint detections_recorded (cs : list call) : nat :=
  match cs with
  | [] => 0
  | CallRecordDetectionTime _ :: cs' => S (detections_recorded cs')
  | _ :: cs' => detections_recorded cs'
  end.

(** The window [w] after frames at the readings [ts]. *)
Definition window_after (w : list Q) (ts : list Q) : list Q :=
  match ts with
  | [] => w
  | _ :: _ => slice_last 60 (w ++ ts)
  end.

(** The same outcome, with the instance changed by [f]. *)
Definition outcome_map {A : Type} (f : PerformanceMonitor -> PerformanceMonitor)
    (o : outcome A) : outcome A :=
  match o with
  | Returns a self => Returns a (f self)
  | Blocks => Blocks
  end.

(** A monitor after three frames, at seconds 1, 2 and 3, and two
    detections. *)
Definition monitor_after_three_frames : PerformanceMonitor :=
  mkMonitor 0 [1%Q; 2%Q; 3%Q] 3 3 2 false false.

End Performance.

(* ================================================================== *)
(** ** core/camera.py                                                   *)
(* ================================================================== *)

Module Camera.

(** *** The capture device, as the program sees it

    A [cv2.VideoCapture] object is known to the program through
    [isOpened()] only; [release()] closes it.  What the driver answers to
    an open, a property write or a read is not decided by the program and
    is an argument of the operations below. *)
Record VideoCapture : Type := mkCapture {
  cap_index  : Z;
  cap_opened : bool
}.

Definition release (c : VideoCapture) : VideoCapture :=
  mkCapture (cap_index c) false.

(** [cv2.VideoCapture(index)]: raises, or yields an object that is opened
    or not. *)
Inductive open_outcome : Type :=
| OpenRaises
| OpenYields (opened : bool).

(** [cap.read()]: raises, or yields [(ret, frame)]; [ReadFalse] is
    [ret == False]. *)
Inductive read_outcome (frame : Type) : Type :=
| ReadRaises
| ReadFalse
| ReadFrame (f : frame).
Arguments ReadRaises {frame}.
Arguments ReadFalse {frame}.
Arguments ReadFrame {frame} f.

(** *** class FPSCounter *)
Record FPSCounter : Type := mkFPSCounter {
  fc_frame_count : Z;
  fc_start_time  : Q;
  fc_fps         : Q;
  fc_last_update : Q
}.

Definition FPSCounter_init (t0 t1 : Q) : FPSCounter :=
  mkFPSCounter 0 t0 0 t1.

Definition FPSCounter_update (current_time : Q) (c : FPSCounter) : FPSCounter :=
  let frame_count := fc_frame_count c + 1 in
  if Qle_bool 1 (current_time - fc_last_update c) then
    let elapsed_time := (current_time - fc_start_time c)%Q in
    let fps :=
      if Qle_bool elapsed_time 0 then fc_fps c
      else (inject_Z frame_count / elapsed_time)%Q in
    mkFPSCounter 0 current_time fps current_time
  else
    mkFPSCounter frame_count (fc_start_time c) (fc_fps c) (fc_last_update c).

Definition FPSCounter_get_fps (c : FPSCounter) : Q := fc_fps c.

Definition FPSCounter_reset (t0 t1 : Q) (c : FPSCounter) : FPSCounter :=
  mkFPSCounter 0 t0 0 t1.

(** *** class CameraManager *)

(** The [threading.Thread] created by [start_capture]. *)
Record Thread : Type := mkThread {
  daemon  : bool;
  started : bool
}.

Inductive exception : Type :=
| RuntimeError (msg : string).

Section CameraManager.

(** A captured frame and the per-frame callable are opaque here. *)
Variable frame : Type.
Variable callback : Type.

Record CameraManager : Type := mkCamera {
  camera_index   : Z;
  cap            : option VideoCapture;
  is_running     : bool;
  frame_queue    : list frame;          (* Queue(maxsize=2), oldest first *)
  capture_thread : option Thread;
  fps_counter    : FPSCounter;
  frame_callback : option callback;
  frame_width    : Z;
  frame_height   : Z;
  target_fps     : Z
}.

Definition set_cap (v : option VideoCapture) (s : CameraManager) :=
  mkCamera (camera_index s) v (is_running s) (frame_queue s) (capture_thread s)
           (fps_counter s) (frame_callback s) (frame_width s) (frame_height s)
           (target_fps s).
Definition set_is_running (v : bool) (s : CameraManager) :=
  mkCamera (camera_index s) (cap s) v (frame_queue s) (capture_thread s)
           (fps_counter s) (frame_callback s) (frame_width s) (frame_height s)
           (target_fps s).
Definition set_frame_queue (v : list frame) (s : CameraManager) :=
  mkCamera (camera_index s) (cap s) (is_running s) v (capture_thread s)
           (fps_counter s) (frame_callback s) (frame_width s) (frame_height s)
           (target_fps s).
Definition set_capture_thread (v : option Thread) (s : CameraManager) :=
  mkCamera (camera_index s) (cap s) (is_running s) (frame_queue s) v
           (fps_counter s) (frame_callback s) (frame_width s) (frame_height s)
           (target_fps s).
Definition set_fps_counter (v : FPSCounter) (s : CameraManager) :=
  mkCamera (camera_index s) (cap s) (is_running s) (frame_queue s)
           (capture_thread s) v (frame_callback s) (frame_width s)
           (frame_height s) (target_fps s).
Definition set_frame_callback (v : option callback) (s : CameraManager) :=
  mkCamera (camera_index s) (cap s) (is_running s) (frame_queue s)
           (capture_thread s) (fps_counter s) v (frame_width s)
           (frame_height s) (target_fps s).

(** [__init__(camera_index)]; [t0], [t1] are the clock readings of the
    [FPSCounter] it creates. *)
Definition init (camera_index : Z) (t0 t1 : Q) : CameraManager :=
  mkCamera camera_index None false [] None (FPSCounter_init t0 t1) None
           640 480 30.

(** [self.cap and self.cap.isOpened()] *)
Definition cap_is_open (self : CameraManager) : bool :=
  match cap self with
  | Some c => cap_opened c
  | None => false
  end.

(** What the driver answers for a device index: to
    [cv2.VideoCapture(index)], to the [cap.set] calls (does one of them
    raise), and to [cap.read()]. *)
Record driver : Type := mkDriver {
  drv_open       : Z -> open_outcome;
  drv_set_raises : Z -> bool;
  drv_read       : Z -> read_outcome frame
}.

(** [initialize_camera].  The log-level calls around the body touch no
    attribute and are left out.  The result is the returned boolean and
    the instance afterwards; the handler [except Exception: return False]
    leaves no path that raises. *)
Definition initialize_camera (drv : driver) (self : CameraManager)
  : bool * CameraManager :=
  match drv_open drv (camera_index self) with
  | OpenRaises => (false, self)
  | OpenYields opened =>
      let c := mkCapture (camera_index self) opened in
      let self := set_cap (Some c) self in
      if negb (cap_opened c) then (false, self)
      else if drv_set_raises drv (camera_index self) then (false, self)
      else
        match drv_read drv (camera_index self) with
        | ReadRaises => (false, self)
        | ReadFalse => (false, set_cap (Some (release c)) self)
        | ReadFrame _ => (true, self)
        end
  end.

(** A call that may raise to its caller. *)
Inductive call_result : Type :=
| Done (self : CameraManager)
| Raised (e : exception) (self : CameraManager).

(** [start_capture(frame_callback)] *)
Definition start_capture (drv : driver) (cb : option callback)
    (self : CameraManager) : call_result :=
  let proceed (self : CameraManager) :=
    let self := set_frame_callback cb self in
    let self := set_is_running true self in
    let self := set_capture_thread (Some (mkThread false false)) self in
    let self := set_capture_thread (Some (mkThread true false)) self in
    Done (set_capture_thread (Some (mkThread true true)) self) in
  if negb (cap_is_open self) then
    let '(ok, self) := initialize_camera drv self in
    if negb ok then Raised (RuntimeError "Failed to initialize camera") self
    else proceed self
  else proceed self.

(** [stop_capture]; the bounded [join] changes no attribute. *)
Definition stop_capture (self : CameraManager) : CameraManager :=
  let self := set_is_running false self in
  match cap self with
  | Some _ => set_cap None self
  | None => self
  end.

(** *** The acquisition loop

    One [tick] is what one pass of [while self.is_running] meets:
    whether another thread has cleared [is_running] before the test, the
    answer of [cap.read()], the clock reading of the FPS counter, and
    whether the callback raises. *)
Record tick : Type := mkTick {
  stop_requested  : bool;
  tick_read       : read_outcome frame;
  tick_clock      : Q;
  callback_raises : bool
}.

Inductive loop_exit : Type :=
| FlagCleared          (* the [while] test failed *)
| ReadFailed           (* [not ret]: break *)
| LoopError            (* outer [except Exception]: break *)
| StillLooping.        (* the ticks given are used up *)

(** [frame_queue.full()], [get_nowait()], [put_nowait(frame)] on a queue of
    at most two items. *)
Definition queue_full (q : list frame) : bool := (2 <=? length q)%nat.

Definition enqueue_latest (f : frame) (q : list frame) : list frame :=
  let q := if queue_full q then tl q else q in
  if queue_full q then q else q ++ [f].

Fixpoint _capture_loop (ticks : list tick) (self : CameraManager)
  : loop_exit * CameraManager :=
  match ticks with
  | [] => (StillLooping, self)
  | t :: rest =>
      let self := if stop_requested t then set_is_running false self else self in
      if negb (is_running self) then (FlagCleared, self)
      else
        match tick_read t with
        | ReadRaises => (LoopError, self)
        | ReadFalse => (ReadFailed, self)
        | ReadFrame f =>
            let self := set_fps_counter
                          (FPSCounter_update (tick_clock t) (fps_counter self)) self in
            let self := set_frame_queue (enqueue_latest f (frame_queue self)) self in
            (* the callback's failure is caught and printed *)
            (* time.sleep(1.0 / self.target_fps): the division raises for
               0 and the sleep raises for a negative length *)
            if target_fps self <=? 0 then (LoopError, self)
            else _capture_loop rest self
        end
  end.

Definition get_latest_frame (self : CameraManager) : option frame * CameraManager :=
  match frame_queue self with
  | [] => (None, self)
  | f :: q => (Some f, set_frame_queue q self)
  end.

Definition get_fps (self : CameraManager) : Q := FPSCounter_get_fps (fps_counter self).

Definition is_camera_active (self : CameraManager) : bool :=
  is_running self && cap_is_open self.

End CameraManager.

Arguments mkCamera {frame callback}.
Arguments camera_index {frame callback}.
Arguments cap {frame callback}.
Arguments is_running {frame callback}.
Arguments frame_queue {frame callback}.
Arguments capture_thread {frame callback}.
Arguments fps_counter {frame callback}.
Arguments frame_callback {frame callback}.
Arguments target_fps {frame callback}.
Arguments init {frame callback}.
Arguments cap_is_open {frame callback}.
Arguments initialize_camera {frame callback}.
Arguments start_capture {frame callback}.
Arguments stop_capture {frame callback}.
Arguments _capture_loop {frame callback}.
Arguments is_camera_active {frame callback}.
Arguments Done {frame callback}.
Arguments Raised {frame callback}.
Arguments mkTick {frame}.
Arguments mkDriver {frame}.
Arguments drv_open {frame}.
Arguments drv_set_raises {frame}.
Arguments drv_read {frame}.
Arguments set_cap {frame callback}.
Arguments set_is_running {frame callback}.
Arguments get_latest_frame {frame callback}.
Arguments get_fps {frame callback}.
Arguments set_frame_queue {frame callback}.
Arguments set_fps_counter {frame callback}.
Arguments set_capture_thread {frame callback}.
Arguments set_frame_callback {frame callback}.
Arguments enqueue_latest {frame}.
Arguments queue_full {frame}.

(** Whether the device at [index] fails [initialize_camera]: the open
    raises or yields an object that is not opened, a property write
    raises, or the test read raises or comes back with [ret == False]. *)
Definition device_fails {frame : Type} (drv : driver frame) (index : Z) : bool :=
  match drv_open drv index with
  | OpenRaises => true
  | OpenYields false => true
  | OpenYields true =>
      drv_set_raises drv index ||
      match drv_read drv index with
      | ReadFrame _ => false
      | _ => true
      end
  end.

(** [list_available_cameras]: indices 0 to 9 are probed in turn; an index
    is kept when its capture opens and one read succeeds, and an
    exception at an index skips it.  No attribute of the manager is
    touched. *)
Fixpoint probe_cameras {frame : Type} (drv : driver frame) (indices : list Z)
    (available_cameras : list Z) : list Z :=
  match indices with
  | [] => available_cameras
  | i :: rest =>
      let available_cameras :=
        match drv_open drv i with
        | OpenRaises => available_cameras
        | OpenYields opened =>
            if opened then
              match drv_read drv i with
              | ReadFrame _ => available_cameras ++ [i]
              | ReadFalse => available_cameras
              | ReadRaises => available_cameras
              end
            else available_cameras
        end in
      probe_cameras drv rest available_cameras
  end.

(** [range(n)] *)
Definition range (n : nat) : list Z := map Z.of_nat (seq 0 n).

Definition list_available_cameras {frame : Type} (drv : driver frame) : list Z :=
  probe_cameras drv (range 10) [].

Definition has_available_cameras {frame : Type} (drv : driver frame) : bool :=
  (0 <? length (list_available_cameras drv))%nat.

(** Whether the probe of index [i] succeeds: the capture opens and one
    read delivers a frame. *)
Definition camera_works {frame : Type} (drv : driver frame) (i : Z) : bool :=
  match drv_open drv i with
  | OpenYields true =>
      match drv_read drv i with
      | ReadFrame _ => true
      | _ => false
      end
  | _ => false
  end.

(** The frames that the successful reads of a run of ticks deliver. *)
Fixpoint frames_read {frame : Type} (ticks : list (tick frame)) : list frame :=
  match ticks with
  | [] => []
  | t :: rest =>
      match tick_read frame t with
      | ReadFrame f => f :: frames_read rest
      | _ => frames_read rest
      end
  end.

(** A run of [FPSCounter.update] calls, one per clock reading. *)
Definition FPSCounter_updates (ts : list Q) (c : FPSCounter) : FPSCounter :=
  fold_left (fun c t => FPSCounter_update t c) ts c.

(** A driver on which every index opens and every read delivers a
    frame. *)
Definition working_device : driver unit :=
  mkDriver (fun _ => OpenYields true) (fun _ => false) (fun _ => ReadFrame tt).

(** Two drivers for the examples: one on which no index can be opened,
    and one on which every index opens and every read comes back with
    [ret == False]. *)
Definition no_device : driver unit :=
  mkDriver (fun _ => OpenYields false) (fun _ => false) (fun _ => ReadFalse).

Definition dead_device : driver unit :=
  mkDriver (fun _ => OpenYields true) (fun _ => false) (fun _ => ReadFalse).

(** A new manager for device index -1. *)
Definition camera_minus_one : CameraManager unit unit := init (-1) 0 0.

(** *** class ROISelector *)

Definition EVENT_MOUSEMOVE : Z := 0.
Definition EVENT_LBUTTONDOWN : Z := 1.
Definition EVENT_LBUTTONUP : Z := 4.

Definition point : Type := (Z * Z)%type.
Definition region : Type := (Z * Z * Z * Z)%type.

Record ROISelector : Type := mkROISelector {
  start_point : option point;
  end_point   : option point;
  selecting   : bool;
  roi         : option region
}.

Definition ROISelector_init : ROISelector :=
  mkROISelector None None false None.

(** [mouse_callback(event, x, y, flags, param)]; [flags] and [param] are
    not read.  A tuple of two numbers is truthy whatever the numbers are,
    so [if self.start_point and self.end_point] tests for [None] only. *)
Definition mouse_callback (event x y flags : Z) (self : ROISelector) : ROISelector :=
  if event =? EVENT_LBUTTONDOWN then
    mkROISelector (Some (x, y)) (end_point self) true (roi self)
  else if (event =? EVENT_MOUSEMOVE) && selecting self then
    mkROISelector (start_point self) (Some (x, y)) (selecting self) (roi self)
  else if event =? EVENT_LBUTTONUP then
    let self := mkROISelector (start_point self) (Some (x, y)) false (roi self) in
    match start_point self, end_point self with
    | Some (x1, y1), Some (x2, y2) =>
        let x := Z.min x1 x2 in
        let y := Z.min y1 y2 in
        let w := Z.abs (x2 - x1) in
        let h := Z.abs (y2 - y1) in
        mkROISelector (start_point self) (end_point self) (selecting self)
                      (Some (x, y, w, h))
    | _, _ => self
    end
  else self.

(** A whole drag: button down at [a], the pointer moved through [moves],
    button up at [b]. *)
Definition drag (a b : point) (moves : list point) (self : ROISelector)
  : ROISelector :=
  let self := mouse_callback EVENT_LBUTTONDOWN (fst a) (snd a) 0 self in
  let self := fold_left
                (fun s m => mouse_callback EVENT_MOUSEMOVE (fst m) (snd m) 0 s)
                moves self in
  mouse_callback EVENT_LBUTTONUP (fst b) (snd b) 0 self.

Definition get_roi (self : ROISelector) : option region := roi self.

Definition reset (self : ROISelector) : ROISelector :=
  mkROISelector None None false None.

(** The selector states that calls of [mouse_callback] and [reset] can
    produce from a new selector. *)
Inductive reachable : ROISelector -> Prop :=
| reach_init : reachable ROISelector_init
| reach_mouse (event x y flags : Z) (self : ROISelector) :
    reachable self -> reachable (mouse_callback event x y flags self)
| reach_reset (self : ROISelector) :
    reachable self -> reachable (reset self).

(** The region spanned by two corner points, as the button-up branch
    computes it. *)
Definition span_region (a b : point) : region :=
  (Z.min (fst a) (fst b), Z.min (snd a) (snd b),
   Z.abs (fst b - fst a), Z.abs (snd b - snd a)).

End Camera.

(* ================================================================== *)
(** ** core/opencv_detector.py                                          *)
(* ================================================================== *)

Module Detector.

(** *** Strings *)

Definition pystr : Type := list N.

Definition str (s : string) : pystr :=
  map N_of_ascii (list_ascii_of_string s).

Fixpoint pystr_eqb (a b : pystr) : bool :=
  match a, b with
  | [], [] => true
  | x :: a', y :: b' => N.eqb x y && pystr_eqb a' b'
  | _, _ => false
  end.

(** [str.isspace] on one code point. *)
Definition is_space (c : N) : bool :=
  ((9 <=? c) && (c <=? 13) || (28 <=? c) && (c <=? 32)
   || (c =? 133) || (c =? 160) || (c =? 5760)
   || (8192 <=? c) && (c <=? 8202)
   || (c =? 8232) || (c =? 8233) || (c =? 8239) || (c =? 8287)
   || (c =? 12288))%N.

Fixpoint lstrip (s : pystr) : pystr :=
  match s with
  | [] => []
  | c :: s' => if is_space c then lstrip s' else s
  end.

(** [s.strip()] *)
Definition strip (s : pystr) : pystr := rev (lstrip (rev (lstrip s))).

(** Truthiness of a [str]: it is not empty. *)
Definition truthy (s : pystr) : bool :=
  match s with [] => false | _ :: _ => true end.

(** *** Results *)

Definition point : Type := (Z * Z)%type.
Definition rectangle : Type := (Z * Z * Z * Z)%type.   (* (x, y, width, height) *)

Record DetectionResult : Type := mkResult {
  data           : pystr;
  type           : pystr;
  rect           : rectangle;
  polygon        : list point;
  confidence     : Q;
  detection_time : Q
}.

(** *** What the decoders hand back *)

Definition fpoint : Type := (Q * Q)%type.

(** [int(p)] for a float: truncation towards zero. *)
Definition int (q : Q) : Z := Z.quot (Qnum q) (Zpos (Qden q)).

(** [qr_detector.detectAndDecode(image)]: raises, or yields [data] and
    [points] ([None], or an array whose item 0 is the list of corners). *)
Inductive single_outcome : Type :=
| SingleRaises
| SingleDecoded (data : pystr) (points : option (list (list fpoint))).

(** [qr_detector.detectAndDecodeMulti(image)]: raises, or yields
    [success], [decoded_info] and [points_array]. *)
Inductive multi_outcome : Type :=
| MultiRaises
| MultiDecoded (success : bool) (decoded_info : list pystr)
               (points_array : list (list fpoint)).

(** One symbol found by [pyzbar.decode].  [bc_data] is
    [barcode.data.decode("utf-8")], [None] when the bytes are not UTF-8
    and the call raises. *)
Record Barcode : Type := mkBarcode {
  bc_data    : option pystr;
  bc_type    : pystr;
  bc_rect    : rectangle;
  bc_polygon : list point
}.

(** [from pyzbar import pyzbar; pyzbar.decode(image)]: the import fails,
    the call raises, or it yields the symbols found. *)
Inductive pyzbar_outcome : Type :=
| PyzbarImportError
| PyzbarRaises
| PyzbarDecoded (barcodes : list Barcode).

(** [min([...])] and [max([...])]; [None] stands for the [ValueError]
    raised on an empty list. *)
Definition list_min (l : list Z) : option Z :=
  match l with
  | [] => None
  | z :: l' => Some (fold_left Z.min l' z)
  end.

Definition list_max (l : list Z) : option Z :=
  match l with
  | [] => None
  | z :: l' => Some (fold_left Z.max l' z)
  end.

(** The four assignments [x = min(..); y = min(..); w = max(..) - x;
    h = max(..) - y] over a polygon. *)
Definition bounding_rect (polygon : list point) : option rectangle :=
  match list_min (map fst polygon), list_min (map snd polygon),
        list_max (map fst polygon), list_max (map snd polygon) with
  | Some x, Some y, Some mx, Some my => Some (x, y, mx - x, my - y)
  | _, _, _, _ => None
  end.

(** [any(r.data == d for r in results)] *)
Definition any_data (d : pystr) (results : list DetectionResult) : bool :=
  existsb (fun r => pystr_eqb (data r) d) results.

(** The state of one [detect_codes] call: the [results] list built so
    far and the number of clock readings taken. *)
Definition progress : Type := (list DetectionResult * nat)%type.

(** A block of statements inside a [try]: it runs to its end, or an
    exception leaves it; the results appended before stay appended. *)
Inductive block : Type :=
| Completed (p : progress)
| Excepted (p : progress).

Definition progress_of (b : block) : progress :=
  match b with Completed p => p | Excepted p => p end.

Record OpenCVDetector : Type := mkDetector {
  detection_history : list DetectionResult
}.

Section Backends.

(** The image type and the back-ends are opaque capability providers. *)
Variable image : Type.
(** [image[y:y+h, x:x+w]] *)
Variable crop : image -> rectangle -> image.
Variable detectAndDecode : image -> single_outcome.
Variable detectAndDecodeMulti : image -> multi_outcome.
Variable pyzbar_decode : image -> pyzbar_outcome.
(** [now k] is the [k]-th reading of [time.time()] during the call. *)
Variable now : nat -> Q.

(** [[(int(p[0]) + roi_offset[0], int(p[1]) + roi_offset[1]) for p in points]] *)
Definition offset_polygon (roi_offset : point) (points : list fpoint) : list point :=
  map (fun p => (int (fst p) + fst roi_offset, int (snd p) + snd roi_offset)) points.

(** Lines 47-61 and 70-84: build one QR result from a payload and its
    corner points, and append it. *)
Definition append_qr (roi_offset : point) (start_time : Q)
    (d : pystr) (points : list fpoint) (p : progress) : block :=
  let '(results, k) := p in
  let polygon := offset_polygon roi_offset points in
  match bounding_rect polygon with
  | None => Excepted p
  | Some r =>
      let detection_time := (now k - start_time)%Q in
      Completed (results ++ [mkResult d (str "QRCODE") r polygon (9 # 10) detection_time],
                 S k)
  end.

(** Lines 45-61: the single-result decoder. *)
Definition decode_single (img : image) (roi_offset : point) (start_time : Q)
    (p : progress) : block :=
  match detectAndDecode img with
  | SingleRaises => Excepted p
  | SingleDecoded d points =>
      match truthy d, points with
      | true, Some pts =>
          match pts with
          | [] => Excepted p                      (* points[0] *)
          | p0 :: _ => append_qr roi_offset start_time d p0 p
          end
      | _, _ => Completed p
      end
  end.

(** Lines 65-84: the loop over [zip(decoded_info, points_array)]. *)
Fixpoint multi_loop (roi_offset : point) (start_time : Q)
    (items : list (pystr * list fpoint)) (p : progress) : block :=
  match items with
  | [] => Completed p
  | (d, points) :: rest =>
      if truthy d && (0 <? length (strip d))%nat then
        if any_data d (fst p) then multi_loop roi_offset start_time rest p
        else
          match append_qr roi_offset start_time d points p with
          | Completed p' => multi_loop roi_offset start_time rest p'
          | Excepted p' => Excepted p'
          end
      else multi_loop roi_offset start_time rest p
  end.

(** Lines 63-84: the multi-result decoder. *)
Definition decode_multi (img : image) (roi_offset : point) (start_time : Q)
    (p : progress) : block :=
  match detectAndDecodeMulti img with
  | MultiRaises => Excepted p
  | MultiDecoded success decoded_info points_array =>
      if success
      then multi_loop roi_offset start_time (combine decoded_info points_array) p
      else Completed p
  end.

(** Lines 44-86: the first [try] block. *)
Definition qr_block (img : image) (roi_offset : point) (start_time : Q)
    (p : progress) : progress :=
  match decode_single img roi_offset start_time p with
  | Completed p1 => progress_of (decode_multi img roi_offset start_time p1)
  | Excepted p1 => p1
  end.

(** Lines 91-108: the loop over the symbols found by pyzbar. *)
Fixpoint barcode_loop (start_time : Q) (barcodes : list Barcode) (p : progress)
  : block :=
  match barcodes with
  | [] => Completed p
  | barcode :: rest =>
      match bc_data barcode with
      | None => Excepted p
      | Some barcode_data =>
          let '(results, k) := p in
          let barcode_type := bc_type barcode in
          let '(x, y, w, h) := bc_rect barcode in
          let polygon :=
            match bc_polygon barcode with
            | [] => [(x, y); (x + w, y); (x + w, y + h); (x, y + h)]
            | _ :: _ => bc_polygon barcode
            end in
          let detection_time := (now k - start_time)%Q in
          if negb (any_data barcode_data results) then
            barcode_loop start_time rest
              (results ++ [mkResult barcode_data barcode_type (x, y, w, h)
                                    polygon (9 # 10) detection_time],
               S k)
          else barcode_loop start_time rest (results, S k)
      end
  end.

(** Lines 88-112: the second [try] block. *)
Definition barcode_block (img : image) (start_time : Q) (p : progress) : progress :=
  match pyzbar_decode img with
  | PyzbarImportError => p
  | PyzbarRaises => p
  | PyzbarDecoded barcodes => progress_of (barcode_loop start_time barcodes p)
  end.

(** [detect_codes(image, roi)]: the returned list and the detector
    afterwards.  A tuple of four numbers is truthy, so [if roi] tests for
    [None] only. *)
Definition detect_codes (img : image) (roi : option rectangle)
    (self : OpenCVDetector) : list DetectionResult * OpenCVDetector :=
  let start_time := now 0 in
  let '(img, roi_offset) :=
    match roi with
    | Some (x, y, w, h) => (crop img (x, y, w, h), (x, y))
    | None => (img, (0, 0))
    end in
  let p := ([], 1%nat) in
  let p := qr_block img roi_offset start_time p in
  let p := barcode_block img start_time p in
  let results := fst p in
  (results, mkDetector (detection_history self ++ results)).

End Backends.

Arguments decode_single {image}.
Arguments decode_multi {image}.
Arguments qr_block {image}.
Arguments barcode_block {image}.
Arguments detect_codes {image}.

Definition clear_history (self : OpenCVDetector) : OpenCVDetector :=
  mkDetector [].

(** What "expressed in full-frame coordinates" asks of a result whose
    symbol the back-end located, in the decoded sub-image, at [local_rect]
    with corners [local_polygon]: the origin of the region is added to the
    position of the rectangle and to every corner. *)
Definition shift_point (origin : point) (p : point) : point :=
  (fst p + fst origin, snd p + snd origin).

Definition shift_rect (origin : point) (r : rectangle) : rectangle :=
  let '(x, y, w, h) := r in (x + fst origin, y + snd origin, w, h).

Definition in_full_frame (origin : point) (local_rect : rectangle)
    (local_polygon : list point) (r : DetectionResult) : Prop :=
  rect r = shift_rect origin local_rect /\
  polygon r = map (shift_point origin) local_polygon.

(** The image that is decoded and the offset that is applied, for a call
    with region [roi] (lines 36-41). *)
Definition region_image {image : Type} (crop : image -> rectangle -> image)
    (img : image) (roi : option rectangle) : image :=
  match roi with
  | Some r => crop img r
  | None => img
  end.

Definition region_origin (roi : option rectangle) : point :=
  match roi with
  | Some (x, y, _, _) => (x, y)
  | None => (0, 0)
  end.

(** A QR result as lines 47-61 and 70-84 build it, for the payload [d]
    with corner points [points], the [k]-th clock reading being the one
    taken for it. *)
Definition qr_result_of (now : nat -> Q) (off : point) (t0 : Q)
    (d : pystr) (points : list fpoint) (k : nat) (r : DetectionResult) : Prop :=
  data r = d /\
  type r = str "QRCODE" /\
  polygon r = offset_polygon off points /\
  bounding_rect (polygon r) = Some (rect r) /\
  confidence r = 9 # 10 /\
  detection_time r = (now k - t0)%Q.

(** A barcode result as lines 92-107 build it from the symbol [b] whose
    bytes decode to [d]. *)
Definition barcode_result_of (now : nat -> Q) (t0 : Q)
    (b : Barcode) (d : pystr) (k : nat) (r : DetectionResult) : Prop :=
  data r = d /\
  type r = bc_type b /\
  rect r = bc_rect b /\
  confidence r = 9 # 10 /\
  detection_time r = (now k - t0)%Q.

(** The payload [d] with corners [points] is what the single-result
    decoder reports for [img]; is one of the pairs the multi-result decoder
    reports; the symbol [b] is one of those pyzbar reports. *)
Definition reported_by_single {image : Type}
    (detectAndDecode : image -> single_outcome) (img : image)
    (d : pystr) (points : list fpoint) : Prop :=
  exists rest, detectAndDecode img = SingleDecoded d (Some (points :: rest)).

Definition reported_by_multi {image : Type}
    (detectAndDecodeMulti : image -> multi_outcome) (img : image)
    (d : pystr) (points : list fpoint) : Prop :=
  exists infos points_array,
    detectAndDecodeMulti img = MultiDecoded true infos points_array /\
    In (d, points) (combine infos points_array).

Definition reported_by_pyzbar {image : Type}
    (pyzbar_decode : image -> pyzbar_outcome) (img : image) (b : Barcode) : Prop :=
  exists barcodes, pyzbar_decode img = PyzbarDecoded barcodes /\ In b barcodes.

(** A result of a call is accounted for when it is the QR result of a
    payload that one of the QR decoders reports, or the barcode result of
    a symbol that pyzbar reports. *)
Definition accounted_for {image : Type}
    (detectAndDecode : image -> single_outcome)
    (detectAndDecodeMulti : image -> multi_outcome)
    (pyzbar_decode : image -> pyzbar_outcome) (now : nat -> Q)
    (img : image) (off : point) (t0 : Q) (r : DetectionResult) : Prop :=
  (exists d points k,
     (reported_by_single detectAndDecode img d points \/
      reported_by_multi detectAndDecodeMulti img d points) /\
     truthy d = true /\
     qr_result_of now off t0 d points k r) \/
  (exists b d k,
     reported_by_pyzbar pyzbar_decode img b /\
     bc_data b = Some d /\
     barcode_result_of now t0 b d k r).

(** The clock readings behind the detection times of the results built
    so far all come before the next one. *)
Definition timed (now : nat -> Q) (p : progress) : Prop :=
  (1 <= snd p)%nat /\
  Forall (fun r => exists j, (1 <= j < snd p)%nat /\
                             detection_time r = (now j - now 0%nat)%Q) (fst p) /\
  StronglySorted Qle (map detection_time (fst p)).

(** Back-ends that find nothing. *)
Definition single_nothing {image : Type} (img : image) : single_outcome :=
  SingleDecoded [] None.
Definition multi_nothing {image : Type} (img : image) : multi_outcome :=
  MultiDecoded false [] [].
Definition pyzbar_nothing {image : Type} (img : image) : pyzbar_outcome :=
  PyzbarDecoded [].

(** *** get_detection_statistics

    The values of the statistics dictionary: a Python [int], a float, or
    the dictionary of per-type counts. *)
Inductive stat : Type :=
| StatInt (z : Z)
| StatFloat (q : Q)
| StatCounts (counts : list (pystr * Z)).

Definition pystr_eq_dec : forall a b : pystr, {a = b} + {a <> b} :=
  list_eq_dec N.eq_dec.

(** [a <= b] on strings: code point by code point. *)
Fixpoint pystr_leb (a b : pystr) : bool :=
  match a, b with
  | [], _ => true
  | _ :: _, [] => false
  | x :: a', y :: b' =>
      if (x <? y)%N then true
      else if (x =? y)%N then pystr_leb a' b'
      else false
  end.

Fixpoint insert_sorted (s : pystr) (l : list pystr) : list pystr :=
  match l with
  | [] => [s]
  | h :: t => if pystr_leb s h then s :: l else h :: insert_sorted s t
  end.

Definition sort_strings (l : list pystr) : list pystr :=
  fold_right insert_sorted [] l.

(** The dictionary zipped from [np.unique(types, return_counts=True)]:
    the distinct values in sorted order, each with the number of times it
    comes up. *)
Definition np_unique_counts (l : list pystr) : list (pystr * Z) :=
  map (fun k => (k, Z.of_nat (count_occ pystr_eq_dec l k)))
      (sort_strings (nodup pystr_eq_dec l)).

(** [np.max] and [np.min] of a non-empty list: comparisons only, so
    they are exact on floats. *)
Definition q_max (a b : Q) : Q := if Qle_bool a b then b else a.
Definition q_min (a b : Q) : Q := if Qle_bool a b then a else b.

Definition np_max (l : list Q) : Q := fold_left q_max (tl l) (hd 0%Q l).
Definition np_min (l : list Q) : Q := fold_left q_min (tl l) (hd 0%Q l).

(** [np.mean] adds and divides in float64: every addition and the
    division round, in an order that numpy chooses, so that its result is
    not the mean of the rationals (the mean of three times 0.1 is
    0.10000000000000002).  The statistics take it as it is. *)
Section Statistics.

Variable np_mean : list Q -> Q.

Definition get_detection_statistics (self : OpenCVDetector)
  : list (string * stat) :=
  match detection_history self with
  | [] => [("total_detections"%string, StatInt 0)]
  | _ :: _ =>
      let types := map type (detection_history self) in
      let confidences := map confidence (detection_history self) in
      let times := map detection_time (detection_history self) in
      [ ("total_detections"%string,
           StatInt (Z.of_nat (length (detection_history self))));
        ("code_types"%string, StatCounts (np_unique_counts types));
        ("average_confidence"%string, StatFloat (np_mean confidences));
        ("average_detection_time"%string, StatFloat (np_mean times));
        ("max_detection_time"%string, StatFloat (np_max times));
        ("min_detection_time"%string, StatFloat (np_min times)) ]
  end.

End Statistics.

(** A mean for the examples: the one of the rationals, without
    rounding. *)
Definition rational_mean (l : list Q) : Q :=
  (fold_right Qplus 0%Q l / inject_Z (Z.of_nat (length l)))%Q.

(** Looking a key up in a dictionary. *)
Fixpoint lookup {V : Type} (k : string) (d : list (string * V)) : option V :=
  match d with
  | [] => None
  | (k', v) :: d' => if String.eqb k k' then Some v else lookup k d'
  end.

(** The detectors that calls of [detect_codes], with whatever back-ends
    and clock, and of [clear_history] produce from a new detector. *)
Inductive detector_reachable : OpenCVDetector -> Prop :=
| reach_new_detector : detector_reachable (mkDetector [])
| reach_detect_codes (image : Type) (crop : image -> rectangle -> image)
    (detectAndDecode : image -> single_outcome)
    (detectAndDecodeMulti : image -> multi_outcome)
    (pyzbar_decode : image -> pyzbar_outcome) (now : nat -> Q)
    (img : image) (roi : option rectangle) (self : OpenCVDetector) :
    detector_reachable self ->
    detector_reachable
      (snd (detect_codes crop detectAndDecode detectAndDecodeMulti
                         pyzbar_decode now img roi self))
| reach_clear_history (self : OpenCVDetector) :
    detector_reachable self -> detector_reachable (clear_history self).

(** *** draw_detections

    The drawing calls made on the image, in order.  The text metrics of
    [cv2.getTextSize] and the rendering of [f"{confidence:.1%}"] are not
    decided by the program and are arguments. *)
Definition colour : Type := (Z * Z * Z)%type.

Inductive drawing : Type :=
| Polylines (pts : list point) (is_closed : bool) (c : colour) (thickness : Z)
| Rectangle (pt1 pt2 : point) (c : colour) (thickness : Z)
| PutText (text : pystr) (org : point) (font_scale : Q) (c : colour)
          (thickness : Z).

(** Line 153: the payload as it is shown. *)
Definition data_display (d : pystr) : pystr :=
  if (length d <=? 80)%nat then d else firstn 77 d ++ str "...".

Definition line_height : Z := 25.
Definition padding : Z := 10.

(** Lines 171-181: the top of the label block for a rectangle at height
    [y], [h] high, with [n] label lines. *)
Definition total_height (n : nat) : Z := Z.of_nat n * line_height + 10.

Definition label_top (n : nat) (y h : Z) : Z :=
  if 0 <? y - total_height n then y - total_height n else y + h.

Definition label_colours : list colour :=
  [(255, 255, 0); (0, 255, 255); (255, 255, 255); (0, 255, 0)].

Section Drawing.

Variable text_width : pystr -> Z.
Variable format_percent : Q -> pystr.

Definition label_lines (result : DetectionResult) : list pystr :=
  [ str "Type: " ++ type result;
    str "Confidence: " ++ format_percent (confidence result);
    str "Content:";
    data_display (data result) ].

(** Lines 204-206: one [putText] per pair of a label line and a colour. *)
Fixpoint put_lines (x text_start_y : Z) (i : nat)
    (lines : list (pystr * colour)) : list drawing :=
  match lines with
  | [] => []
  | (line, c) :: rest =>
      PutText line (x, text_start_y + Z.of_nat i * line_height) (8 # 10) c 2
      :: put_lines x text_start_y (S i) rest
  end.

(** The body of the loop, lines 144-206. *)
Definition draw_one (result : DetectionResult) : list drawing :=
  let '(x, y, w, h) := rect result in
  let lines := label_lines result in
  let max_width := fold_left Z.max (tl (map text_width lines))
                             (hd 0 (map text_width lines)) in
  let bg_y := label_top (length lines) y h in
  let text_start_y := bg_y + line_height in
  [ Polylines (polygon result) true (0, 255, 0) 3;
    Rectangle (x, y) (x + w, y + h) (255, 0, 0) 3;
    Rectangle (x - padding, bg_y)
              (x + max_width + padding * 2, bg_y + total_height (length lines))
              (0, 0, 0) (-1);
    Rectangle (x - padding, bg_y)
              (x + max_width + padding * 2, bg_y + total_height (length lines))
              (255, 255, 255) 2 ]
  ++ put_lines x text_start_y 0 (combine lines label_colours).

Definition draw_detections (results : list DetectionResult) : list drawing :=
  flat_map draw_one results.

End Drawing.

(** The texts written, and the vertical positions they are written at. *)
Fixpoint texts_drawn (ds : list drawing) : list (pystr * Z) :=
  match ds with
  | [] => []
  | PutText text org _ _ _ :: rest => (text, snd org) :: texts_drawn rest
  | _ :: rest => texts_drawn rest
  end.

(** The payloads of the results built so far are pairwise distinct. *)
Definition distinct (p : progress) : Prop := NoDup (map data (fst p)).

(** The corners as the QR decoder located them in the image it was
    given. *)
Definition local_polygon (points : list fpoint) : list point :=
  map (fun p => (int (fst p), int (snd p))) points.

(** A QR result is in full-frame coordinates when, for a payload and
    corner points that one of the QR decoders reported for the decoded
    image, it carries that payload, its polygon is those corners with the
    origin of the region added, and its rectangle is their bounding box
    with the origin added. *)
Definition qr_placed {image : Type}
    (detectAndDecode : image -> single_outcome)
    (detectAndDecodeMulti : image -> multi_outcome)
    (img : image) (off : point) (r : DetectionResult) : Prop :=
  exists (d : pystr) (points : list fpoint) (local_rect : rectangle),
    (reported_by_single detectAndDecode img d points \/
     reported_by_multi detectAndDecodeMulti img d points) /\
    data r = d /\
    bounding_rect (local_polygon points) = Some local_rect /\
    in_full_frame off local_rect (local_polygon points) r.

(** A result built from a pyzbar symbol carries the symbol's rectangle
    and corners as pyzbar gave them, nothing added. *)
Definition barcode_verbatim (barcodes : list Barcode) (r : DetectionResult) : Prop :=
  exists b, In b barcodes /\ rect r = bc_rect b /\
    (bc_polygon b <> [] -> polygon r = bc_polygon b).

(** *** Inputs used in the examples

    The image is a token; cropping returns it; the clock ticks once per
    reading. *)
Definition crop_token (img : unit) (r : rectangle) : unit := img.
Definition ticking_clock (k : nat) : Q := inject_Z (Z.of_nat k).

(** The QR decoders find nothing; pyzbar finds one EAN-13 symbol at
    (10, 20), 30 wide and 40 high, in the image it is given. *)
Definition single_finds_nothing (img : unit) : single_outcome :=
  SingleDecoded [] None.
Definition multi_finds_nothing (img : unit) : multi_outcome :=
  MultiDecoded false [] [].
Definition pyzbar_finds_ean13 (img : unit) : pyzbar_outcome :=
  PyzbarDecoded
    [mkBarcode (Some (str "4006381333931")) (str "EAN13") (10, 20, 30, 40) []].

(** The three back-ends all find the QR payload ["HELLO"]. *)
Definition hello_corners : list fpoint :=
  [(5 # 1, 5 # 1); (25 # 1, 5 # 1); (25 # 1, 25 # 1); (5 # 1, 25 # 1)]%Q.
Definition single_finds_hello (img : unit) : single_outcome :=
  SingleDecoded (str "HELLO") (Some [hello_corners]).
Definition multi_finds_hello (img : unit) : multi_outcome :=
  MultiDecoded true [str "HELLO"] [hello_corners].
Definition pyzbar_finds_hello (img : unit) : pyzbar_outcome :=
  PyzbarDecoded
    [mkBarcode (Some (str "HELLO")) (str "QRCODE") (5, 5, 20, 20)
               [(5, 5); (5, 25); (25, 25); (25, 5)]].

End Detector.

(* ================================================================== *)
(** ** core/exporter.py                                                 *)
(* ================================================================== *)

Module Exporter.
Import Detector.

(** An entry of the history: a Python dict with string keys. *)
Definition entry : Type := list (string * pystr).

Record ResultExporter : Type := mkExporter {
  results_history : list entry
}.

Definition init : ResultExporter := mkExporter [].

Inductive exception : Type :=
| KeyError (key : string).

(** [any(r['data'] == d for r in history)]: entries are gone through
    until one matches; an entry without the key raises [KeyError], for
    which [None] stands. *)
Fixpoint any_entry (d : pystr) (history : list entry) : option bool :=
  match history with
  | [] => Some false
  | r :: rest =>
      match lookup "data" r with
      | None => None
      | Some d' => if pystr_eqb d' d then Some true else any_entry d rest
      end
  end.

Inductive call_result : Type :=
| Done (self : ResultExporter)
| Raised (e : exception) (self : ResultExporter).

(** [add_results(results, source, timestamp)]; [source] and [timestamp]
    are not read. *)
Fixpoint add_results (results : list DetectionResult) (self : ResultExporter)
  : call_result :=
  match results with
  | [] => Done self
  | result :: rest =>
      match any_entry (data result) (results_history self) with
      | None => Raised (KeyError "data") self
      | Some true => add_results rest self
      | Some false =>
          add_results rest
            (mkExporter (results_history self ++ [[("data"%string, data result)]]))
      end
  end.

Definition clear_history (self : ResultExporter) : ResultExporter :=
  mkExporter [].

(** [item.get('data', '')] *)
Definition get_data (item : entry) : pystr :=
  match lookup "data" item with
  | Some d => d
  | None => []
  end.

(** *** export_to_excel

    The workbook as the sequence of cell writes of each sheet; fonts,
    fills and column widths do not bear on the values and are left out.
    Whether [openpyxl] can be imported, whether the directory can be made
    and whether the file can be saved are not decided by the program. *)
Inductive cell : Type :=
| CellInt (z : Z)
| CellStr (s : pystr).

Definition write : Type := (Z * Z * cell)%type.      (* row, column, value *)

Record worksheet : Type := mkSheet {
  title  : pystr;
  writes : list write
}.

Record environment : Type := mkEnvironment {
  openpyxl_imports : bool;
  makedirs_succeeds : bool;
  save_succeeds : bool;
  now_text : pystr          (* datetime.now().strftime("%Y-%m-%d %H:%M:%S") *)
}.

(** What openpyxl does with a string written to a cell
    ([Cell.check_string]): the value is cut to 32767 characters, and if
    what is left holds a control character other than tab, line feed and
    carriage return, [IllegalCharacterError] is raised, for which [None]
    stands. *)
Definition max_cell_length : nat := Z.to_nat 32767.
Arguments max_cell_length : simpl never.

Definition illegal_character (c : N) : bool :=
  ((c <=? 8) || (11 <=? c) && (c <=? 12) || (14 <=? c) && (c <=? 31))%N.

Definition writable (value : pystr) : bool :=
  negb (existsb illegal_character (firstn max_cell_length value)).

Definition check_string (value : pystr) : option pystr :=
  if writable value then Some (firstn max_cell_length value) else None.

(** [ws.cell(row=row, column=col, value=value)] for a string. *)
Definition str_cell (row col : Z) (value : pystr) : option write :=
  match check_string value with
  | Some v => Some (row, col, CellStr v)
  | None => None
  end.

(** A run of cell writes: it stops at the first one that raises. *)
Fixpoint sequence (ws : list (option write)) : option (list write) :=
  match ws with
  | [] => Some []
  | None :: _ => None
  | Some w :: rest =>
      match sequence rest with
      | Some done => Some (w :: done)
      | None => None
      end
  end.

(** Lines 66-70: [enumerate(headers, 1)]. *)
Fixpoint header_writes (col : Z) (headers : list pystr) : list (option write) :=
  match headers with
  | [] => []
  | header :: rest => str_cell 1 col header :: header_writes (col + 1) rest
  end.

(** Lines 73-75: [enumerate(data_to_export, 2)]. *)
Fixpoint data_writes (row : Z) (data_to_export : list entry)
  : list (option write) :=
  match data_to_export with
  | [] => []
  | item :: rest =>
      Some (row, 1, CellInt (row - 1)) :: str_cell row 2 (get_data item)
      :: data_writes (row + 1) rest
  end.

(** Lines 51-99: the two sheets, when no cell write raises. *)
Definition build_workbook (now : pystr) (data_to_export : list entry)
  : option (list worksheet) :=
  match sequence (header_writes 1 [str "S.No."; str "Content"]
                  ++ data_writes 2 data_to_export),
        sequence [ str_cell 1 1 (str "Metric"); str_cell 1 2 (str "Value");
                   str_cell 2 1 (str "Total Detections");
                   Some (2, 2, CellInt (Z.of_nat (length data_to_export)));
                   str_cell 3 1 (str "Date/Time"); str_cell 3 2 now ] with
  | Some results_writes, Some summary_writes =>
      Some [ mkSheet (str "Detection_Results") results_writes;
             mkSheet (str "Summary") summary_writes ]
  | _, _ => None
  end.

(** [export_to_excel(filename, results)]: the returned boolean and the
    workbook saved, if one is.  Every exception is caught and reported as
    [False]. *)
Definition export_to_excel (env : environment) (results : option (list entry))
    (self : ResultExporter) : bool * option (list worksheet) :=
  if negb (openpyxl_imports env) then (false, None)
  else
    let data_to_export :=
      match results with
      | Some rs => rs
      | None => results_history self
      end in
    match data_to_export with
    | [] => (false, None)
    | _ :: _ =>
        if negb (makedirs_succeeds env) then (false, None)
        else
          match build_workbook (now_text env) data_to_export with
          | None => (false, None)
          | Some wb =>
              if negb (save_succeeds env) then (false, None)
              else (true, Some wb)
          end
    end.

(** What the Content cell of an entry holds. *)
Definition cell_text (item : entry) : pystr :=
  firstn max_cell_length (get_data item).

(** The values written to one column of the rows below the header. *)
Definition column_values (col : Z) (ws : list write) : list cell :=
  map (fun w => snd w)
      (filter (fun w => (snd (fst w) =? col) && (1 <? fst (fst w))) ws).

(** The payloads stored. *)
Definition payloads (self : ResultExporter) : list pystr :=
  map get_data (results_history self).

(** Every entry has its ['data'] key and no payload is stored twice. *)
Definition well_formed (history : list entry) : Prop :=
  Forall (fun e => lookup "data" e <> None) history /\
  NoDup (map get_data history).

(** The exporters that calls of [add_results] and [clear_history]
    produce from a new one. *)
Inductive reachable : ResultExporter -> Prop :=
| reach_new : reachable init
| reach_add (results : list DetectionResult) (self self' : ResultExporter) :
    reachable self -> add_results results self = Done self' -> reachable self'
| reach_clear (self : ResultExporter) :
    reachable self -> reachable (clear_history self).

(** An environment in which nothing fails. *)
Definition fine_environment : environment :=
  mkEnvironment true true true (str "2025-07-01 12:00:00").

End Exporter.

(* ================================================================== *)
(** * Properties                                                        *)
(* ================================================================== *)

(** ** List slices *)

Lemma slice_last_length {A : Type} (n : nat) (l : list A) :
  length (slice_last n l) = Nat.min n (length l).
Proof.
  unfold slice_last. rewrite length_skipn. lia.
Qed.

Lemma slice_last_short {A : Type} (n : nat) (l : list A) :
  (length l <= n)%nat -> slice_last n l = l.
Proof.
  intros H. unfold slice_last.
  replace (length l - n)%nat with 0%nat by lia. reflexivity.
Qed.

Lemma skipn_app_le {A : Type} (k : nat) (l1 l2 : list A) :
  (k <= length l1)%nat -> skipn k (l1 ++ l2) = skipn k l1 ++ l2.
Proof.
  intros H. rewrite skipn_app.
  replace (k - length l1)%nat with 0%nat by lia. reflexivity.
Qed.

(** Truncating, appending and truncating again keeps the same items as
    appending first. *)
Lemma slice_last_app_absorb {A : Type} (n : nat) (l1 l2 : list A) :
  slice_last n (slice_last n l1 ++ l2) = slice_last n (l1 ++ l2).
Proof.
  unfold slice_last at 1 3.
  rewrite length_app, slice_last_length, length_app.
  destruct (Nat.le_ge_cases (length l1) n) as [Hle | Hge].
  - rewrite (slice_last_short n l1 Hle).
    replace (Nat.min n (length l1)) with (length l1) by lia. reflexivity.
  - replace (Nat.min n (length l1)) with n by lia.
    unfold slice_last.
    destruct (Nat.le_ge_cases (length l2) n) as [H2 | H2].
    + rewrite (skipn_app_le (n + length l2 - n)) by (rewrite length_skipn; lia).
      rewrite (skipn_app_le (length l1 + length l2 - n)) by lia.
      f_equal. rewrite skipn_skipn. f_equal. lia.
    + rewrite !skipn_app, !length_skipn.
      rewrite (skipn_all2 (skipn (length l1 - n) l1))
        by (rewrite length_skipn; lia).
      rewrite (skipn_all2 l1) by lia.
      simpl. f_equal. lia.
Qed.

Lemma slice_last_app_exact {A : Type} (n : nat) (l1 l2 : list A) :
  length l2 = n -> slice_last n (l1 ++ l2) = l2.
Proof.
  intros H. unfold slice_last. rewrite length_app, H.
  replace (length l1 + n - n)%nat with (length l1 + 0)%nat by lia.
  rewrite skipn_app, Nat.add_0_r, skipn_all, Nat.sub_diag. reflexivity.
Qed.

(** ** PerformanceMonitor *)

Module PerformanceFacts.
Import Performance.

Lemma set_lock_roundtrip (self : PerformanceMonitor) :
  lock self = false -> set_lock false (set_lock true self) = self.
Proof.
  destruct self; simpl; intros ->; reflexivity.
Qed.

Lemma with_lock_releases {A : Type} (body : M A) (a : A)
    (self self' : PerformanceMonitor) :
  with_lock body self = Returns a self' -> lock self' = false.
Proof.
  unfold with_lock. destruct (lock self); [discriminate |].
  destruct (body _); [| discriminate].
  intros E. inversion E. reflexivity.
Qed.

(** Between calls the lock is free: the hypothesis [lock self = false]
    of the statements below holds of every state a client can observe. *)
Lemma reachable_lock_free (self : PerformanceMonitor) :
  reachable self -> lock self = false.
Proof.
  induction 1 as [t0 t1 | c self self' _ IH Hrun]; [reflexivity |].
  destruct c; simpl in Hrun.
  - inversion Hrun. exact IH.
  - inversion Hrun. exact IH.
  - unfold update_fps, bind in Hrun.
    destruct (with_lock _ self) as [u s1 |] eqn:E; [| discriminate].
    apply with_lock_releases in E. inversion Hrun. exact E.
  - exact (with_lock_releases _ _ _ _ Hrun).
  - unfold bind in Hrun.
    destruct (get_current_fps self) as [q s1 |] eqn:E; [| discriminate].
    apply with_lock_releases in E. inversion Hrun. subst. exact E.
  - unfold bind in Hrun.
    destruct (get_performance_summary self) as [q s1 |] eqn:E; [| discriminate].
    apply with_lock_releases in E. inversion Hrun. subst. exact E.
  - exact (with_lock_releases _ _ _ _ Hrun).
Qed.

(** One [update_fps] call on a free lock, spelled out. *)
Lemma update_fps_step (t : Q) (self : PerformanceMonitor) :
  lock self = false ->
  update_fps t self =
    Returns tt (mkMonitor (start_time self)
                          (slice_last 60 (frame_times self ++ [t]))
                          t (frame_count self + 1) (detection_count self)
                          (monitoring self) false).
Proof.
  intros Hl. unfold update_fps, bind, with_lock, modify. rewrite Hl. simpl.
  destruct (60 <? length (frame_times self ++ [t]))%nat eqn:E; simpl.
  - reflexivity.
  - apply Nat.ltb_ge in E. rewrite (slice_last_short 60) by exact E.
    reflexivity.
Qed.

(** A run of [update_fps] calls on a free lock returns, and its effect
    on the window and the counters is the following. *)
Lemma run_updates_effect (ts : list Q) :
  forall self : PerformanceMonitor,
    lock self = false ->
    exists self',
      run_updates ts self = Returns tt self' /\
      lock self' = false /\
      frame_count self' = frame_count self + Z.of_nat (length ts) /\
      detection_count self' = detection_count self /\
      monitoring self' = monitoring self /\
      (ts = [] -> self' = self) /\
      (ts <> [] -> frame_times self' = slice_last 60 (frame_times self ++ ts)).
Proof.
  induction ts as [| t ts IH]; intros self Hl.
  - exists self. simpl. unfold ret. repeat split; try lia; try congruence.
  - simpl run_updates. unfold bind at 1. rewrite (update_fps_step t self Hl).
    set (self1 := mkMonitor _ _ _ _ _ _ _).
    destruct (IH self1 eq_refl) as (self' & Hrun & Hl' & Hfc & Hdc & Hm & Hnil & Hcons).
    exists self'. rewrite Hrun. repeat split; try assumption.
    + rewrite Hfc. simpl. lia.
    + discriminate.
    + intros _. destruct ts as [| t' ts'].
      * rewrite (Hnil eq_refl). reflexivity.
      * rewrite Hcons by discriminate. simpl frame_times.
        rewrite slice_last_app_absorb, <- app_assoc. reflexivity.
Qed.


(** C8.  In every sequence of [update_fps] calls made on a free lock,
    after each call (the [k]-th, for every [k] from 1 to the length of the
    sequence) the calls made so far have returned, the rolling window
    holds at most 60 timestamps, it consists of the newest 60 of the old
    window followed by the readings so far (the oldest are the ones
    dropped), and the frame counter has grown by exactly [k], one per
    call. *)
Theorem update_fps_window_capped_counter_incremented
    (self : PerformanceMonitor) (ts : list Q) (k : nat) :
  lock self = false ->
  (1 <= k <= length ts)%nat ->
  exists self',
    run_updates (firstn k ts) self = Returns tt self' /\
    (length (frame_times self') <= 60)%nat /\
    frame_times self' = slice_last 60 (frame_times self ++ firstn k ts) /\
    frame_count self' = frame_count self + Z.of_nat k.
Proof.
  intros Hl Hk.
  destruct (run_updates_effect (firstn k ts) self Hl)
    as (self' & Hrun & _ & Hfc & _ & _ & _ & Hwin).
  assert (Hlen : length (firstn k ts) = k) by (rewrite length_firstn; lia).
  assert (Hne : firstn k ts <> []).
  { intros E. rewrite E in Hlen. simpl in Hlen. lia. }
  exists self'. split; [exact Hrun |].
  rewrite (Hwin Hne), Hfc, Hlen, slice_last_length.
  repeat split; lia.
Qed.

Lemma update_fps_window_capped_counter_incremented_witness :
  exists self',
    run_updates (firstn 2 [1%Q; 2%Q; 3%Q]) (init 0 0) = Returns tt self' /\
    (length (frame_times self') <= 60)%nat /\
    frame_times self' =
      slice_last 60 (frame_times (init 0 0) ++ firstn 2 [1%Q; 2%Q; 3%Q]) /\
    frame_count self' = frame_count (init 0 0) + Z.of_nat 2.
Proof.
  apply (update_fps_window_capped_counter_incremented (init 0 0) [1%Q; 2%Q; 3%Q] 2).
  - reflexivity.
  - simpl. lia.
Defined.

(** C9.  On a free lock [reset_stats] returns; afterwards the window is
    empty, the frame counter and the detection counter are zero, and the
    monitoring flag is the one from before.  (The start time is the new
    clock reading; the last frame time is untouched.) *)
Theorem reset_stats_clears_window_and_counters
    (now : Q) (self : PerformanceMonitor) :
  lock self = false ->
  exists self',
    reset_stats now self = Returns tt self' /\
    frame_times self' = [] /\
    frame_count self' = 0 /\
    detection_count self' = 0 /\
    monitoring self' = monitoring self /\
    start_time self' = now /\
    last_frame_time self' = last_frame_time self /\
    lock self' = false.
Proof.
  intros Hl. unfold reset_stats, with_lock, bind, modify. rewrite Hl. simpl.
  eexists. split; [reflexivity |]. simpl. repeat split.
Qed.

Lemma reset_stats_clears_window_and_counters_witness :
  exists self',
    reset_stats 5 (mkMonitor 0 [1%Q; 2%Q] 2 2 7 true false) = Returns tt self' /\
    frame_times self' = [] /\
    frame_count self' = 0 /\
    detection_count self' = 0 /\
    monitoring self' = true /\
    start_time self' = 5%Q /\
    last_frame_time self' = 2%Q /\
    lock self' = false.
Proof.
  apply (reset_stats_clears_window_and_counters 5
           (mkMonitor 0 [1%Q; 2%Q] 2 2 7 true false)).
  reflexivity.
Defined.


(** The window value on a free lock. *)
Lemma get_current_fps_returns (self : PerformanceMonitor) :
  lock self = false ->
  get_current_fps self = Returns (window_fps (frame_times self)) self.
Proof.
  intros Hl. unfold get_current_fps, with_lock, gets. rewrite Hl.
  simpl. rewrite set_lock_roundtrip by exact Hl. reflexivity.
Qed.

Lemma Qle_bool_false_of_pos (q : Q) : (0 < q)%Q -> Qle_bool q 0 = false.
Proof.
  intros H. destruct (Qle_bool q 0) eqn:E; [| reflexivity].
  apply Qle_bool_iff in E. exfalso. exact (Qlt_not_le _ _ H E).
Qed.

Lemma hd_map_seq (f : nat -> Q) (a j : nat) :
  hd 0%Q (map f (seq a (S j))) = f a.
Proof. reflexivity. Qed.

Lemma last_map_seq (f : nat -> Q) (a j : nat) :
  last (map f (seq a (S j))) 0%Q = f (a + j)%nat.
Proof.
  rewrite seq_S, map_app. simpl. apply last_last.
Qed.

(** At a fixed positive spacing [d] the windowed rate is [1/d], however
    many readings (at least two) were recorded. *)
Lemma window_fps_regular (t d : Q) (n : nat) :
  (2 <= n)%nat -> (0 < d)%Q ->
  (window_fps (slice_last 60 (regular_times t d n)) == 1 / d)%Q.
Proof.
  intros Hn Hd.
  unfold slice_last, regular_times.
  rewrite length_map, length_seq, skipn_map, skipn_seq. simpl (0 + _)%nat.
  remember (n - 60)%nat as a eqn:Ea.
  destruct (n - a)%nat as [| j] eqn:Ej; [lia |].
  destruct j as [| j]; [lia |].
  unfold window_fps. rewrite length_map, length_seq.
  replace (S (S j) <? 2)%nat with false by (symmetry; apply Nat.ltb_ge; lia).
  rewrite last_map_seq, hd_map_seq.
  set (span := (_ - _)%Q).
  assert (Hspan : (span == inject_Z (Z.of_nat (S j)) * d)%Q).
  { unfold span. rewrite Nat2Z.inj_add, inject_Z_plus. ring. }
  assert (Hj : (0 < inject_Z (Z.of_nat (S j)))%Q).
  { change 0%Q with (inject_Z 0). rewrite <- Zlt_Qlt. lia. }
  assert (Hpos : (0 < span)%Q).
  { rewrite Hspan. apply Qmult_lt_0_compat; assumption. }
  rewrite (Qle_bool_false_of_pos span Hpos).
  replace (Z.of_nat (S (S j)) - 1) with (Z.of_nat (S j)) by lia.
  assert (Hd0 : ~ (d == 0)%Q).
  { intros E. rewrite E in Hd. exact (Qlt_irrefl _ Hd). }
  assert (Hj0 : ~ (inject_Z (Z.of_nat (S j)) == 0)%Q).
  { intros E. rewrite E in Hj. exact (Qlt_irrefl _ Hj). }
  rewrite Hspan. field. split; [| exact Hd0].
  intros E. pose proof (Qmult_lt_0_compat _ _ Hj Hd) as Hprod.
  rewrite E in Hprod. exact (Qlt_irrefl _ Hprod).
Qed.

(** C7.  On a free lock [get_current_fps] returns, leaving the monitor
    as it was: 0 when the window holds fewer than two samples, and
    [(count - 1) / (newest - oldest)] when it holds at least two with the
    newest later than the oldest.  After 60 [update_fps] calls spaced by
    one tenth of a second the value is 10. *)
Theorem get_current_fps_windowed_rate (self : PerformanceMonitor) :
  lock self = false ->
  ((length (frame_times self) < 2)%nat ->
     get_current_fps self = Returns 0%Q self) /\
  ((2 <= length (frame_times self))%nat ->
   (hd 0 (frame_times self) < last (frame_times self) 0)%Q ->
     get_current_fps self =
       Returns (inject_Z (Z.of_nat (length (frame_times self)) - 1)
                / (last (frame_times self) 0 - hd 0 (frame_times self)))%Q self) /\
  (forall t : Q, exists self' fps,
     run_updates (regular_times t (1 # 10) 60) self = Returns tt self' /\
     get_current_fps self' = Returns fps self' /\
     (fps == 10)%Q).
Proof.
  intros Hl. split; [| split].
  - intros Hlen. rewrite get_current_fps_returns by exact Hl.
    unfold window_fps.
    replace (length (frame_times self) <? 2)%nat with true
      by (symmetry; apply Nat.ltb_lt; exact Hlen).
    reflexivity.
  - intros Hlen Hlt. rewrite get_current_fps_returns by exact Hl.
    unfold window_fps.
    replace (length (frame_times self) <? 2)%nat with false
      by (symmetry; apply Nat.ltb_ge; exact Hlen).
    rewrite Qle_bool_false_of_pos; [reflexivity |].
    unfold Qminus. rewrite <- Qlt_minus_iff. exact Hlt.
  - intros t.
    destruct (run_updates_effect (regular_times t (1 # 10) 60) self Hl)
      as (self' & Hrun & Hl' & _ & _ & _ & _ & Hwin).
    exists self', (window_fps (frame_times self')).
    split; [exact Hrun |]. split; [apply get_current_fps_returns; exact Hl' |].
    rewrite Hwin by discriminate.
    rewrite slice_last_app_exact by reflexivity.
    rewrite <- (slice_last_short 60 (regular_times t (1 # 10) 60)) by (simpl; lia).
    rewrite window_fps_regular by (try lia; reflexivity).
    reflexivity.
Qed.


Lemma get_current_fps_windowed_rate_witness :
  lock monitor_after_three_frames = false /\
  get_current_fps monitor_after_three_frames =
    Returns (inject_Z (Z.of_nat 3 - 1) / (3 - 1))%Q monitor_after_three_frames.
Proof.
  split; [reflexivity |].
  apply (proj1 (proj2 (get_current_fps_windowed_rate
                         monitor_after_three_frames eq_refl))).
  - simpl. lia.
  - reflexivity.
Defined.

(** The monitor of the example is what three [update_fps] calls and two
    [record_detection_time] calls make of a new monitor. *)
Lemma monitor_after_three_frames_reached :
  (update_fps 1 ;;; record_detection_time 0 ;;; update_fps 2 ;;;
   record_detection_time 0 ;;; update_fps 3) (init 0 0)
  = Returns tt monitor_after_three_frames.
Proof. reflexivity. Qed.

(** [get_performance_summary] takes the lock and, holding it, calls
    [get_current_fps], which takes the same lock: the call never returns,
    whatever the state. *)
Lemma get_performance_summary_blocks (self : PerformanceMonitor) :
  get_performance_summary self = Blocks.
Proof.
  unfold get_performance_summary, with_lock.
  destruct (lock self); reflexivity.
Qed.

(** C3, on a new monitor and on one that has seen frames.  The call
    [get_performance_summary] does not return: it takes the lock and,
    still holding it, calls [get_current_fps], which waits for the same
    lock.  This is so in every state, while [get_current_fps] called on
    its own, on a free lock, does return. *)
Theorem get_performance_summary_never_returns :
  get_performance_summary (init 0 0) = Blocks /\
  get_performance_summary monitor_after_three_frames = Blocks /\
  (forall self : PerformanceMonitor, get_performance_summary self = Blocks) /\
  (forall self : PerformanceMonitor,
     lock self = false ->
     get_current_fps self = Returns (window_fps (frame_times self)) self).
Proof.
  split; [apply get_performance_summary_blocks |].
  split; [apply get_performance_summary_blocks |].
  split; [exact get_performance_summary_blocks |].
  exact get_current_fps_returns.
Qed.

(** ** PerformanceMonitor: further properties *)

Lemma slice_last_app_long {A : Type} (n : nat) (l1 l2 : list A) :
  (n <= length l2)%nat -> slice_last n (l1 ++ l2) = slice_last n l2.
Proof.
  intros H. unfold slice_last. rewrite length_app, skipn_app.
  rewrite (skipn_all2 l1) by lia. simpl. f_equal. lia.
Qed.

Lemma window_after_cons (w : list Q) (t : Q) (ts : list Q) :
  window_after w (t :: ts) = window_after (slice_last 60 (w ++ [t])) ts.
Proof.
  destruct ts as [| t' ts]; simpl; [reflexivity |].
  rewrite slice_last_app_absorb, <- app_assoc. reflexivity.
Qed.

(** What one call other than [get_performance_summary] does on a free
    lock. *)
Lemma run_call_effect (c : call) (self : PerformanceMonitor) :
  lock self = false ->
  is_summary_call c = false ->
  exists self',
    run_call c self = Returns tt self' /\
    lock self' = false /\
    (is_reset_call c = false ->
       frame_times self' = window_after (frame_times self) (update_times [c]) /\
       frame_count self'
         = frame_count self + Z.of_nat (length (update_times [c])) /\
       detection_count self'
         = detection_count self + Z.of_nat (detections_recorded [c])).
Proof.
  intros Hl Hs. destruct c; try discriminate Hs.
  - eexists. split; [reflexivity |]. simpl. repeat split; try lia; try assumption; reflexivity.
  - eexists. split; [reflexivity |]. simpl. repeat split; try lia; try assumption; reflexivity.
  - simpl run_call. rewrite (update_fps_step current_time self Hl).
    eexists. split; [reflexivity |]. simpl. repeat split; lia.
  - simpl. unfold record_detection_time, with_lock, modify. rewrite Hl.
    eexists. split; [reflexivity |]. simpl. repeat split; lia.
  - simpl. unfold bind. rewrite (get_current_fps_returns self Hl).
    eexists. split; [reflexivity |]. simpl. repeat split; try lia; try assumption; reflexivity.
  - simpl. unfold reset_stats, with_lock, bind, modify. rewrite Hl.
    eexists. split; [reflexivity |]. simpl. split; [reflexivity | discriminate].
Qed.

Lemma run_calls_blocks_at_summary (cs : list call) :
  forall self : PerformanceMonitor,
    lock self = false ->
    existsb is_summary_call cs = true ->
    run_calls cs self = Blocks.
Proof.
  induction cs as [| c cs IH]; intros self Hl Hs; [discriminate |].
  simpl in Hs. simpl run_calls. unfold bind at 1.
  destruct (is_summary_call c) eqn:Ec.
  - destruct c; try discriminate Ec. simpl. unfold bind.
    rewrite get_performance_summary_blocks. reflexivity.
  - destruct (run_call_effect c self Hl Ec) as (self' & -> & Hl' & _).
    apply IH; assumption.
Qed.

(** X1.  On a free lock a sequence of calls returns exactly when it holds
    no [get_performance_summary] call: a sequence without one runs to its
    end and leaves the lock free, and a sequence with one blocks for ever.
    [get_current_metrics], which only forwards to it, blocks as well. *)
Theorem call_sequence_returns_iff_no_summary_call
    (cs : list call) (self : PerformanceMonitor) :
  lock self = false ->
  (existsb is_summary_call cs = false ->
     exists self', run_calls cs self = Returns tt self' /\ lock self' = false) /\
  (existsb is_summary_call cs = true -> run_calls cs self = Blocks) /\
  get_current_metrics self = Blocks.
Proof.
  intros Hl. split; [| split].
  - revert self Hl. induction cs as [| c cs IH]; intros self Hl Hs.
    + exists self. split; [reflexivity | exact Hl].
    + simpl in Hs. apply orb_false_iff in Hs. destruct Hs as [Hc Hs].
      destruct (run_call_effect c self Hl Hc) as (self1 & E1 & Hl1 & _).
      destruct (IH self1 Hl1 Hs) as (self' & E' & Hl').
      exists self'. simpl run_calls. unfold bind at 1. rewrite E1.
      split; assumption.
  - apply run_calls_blocks_at_summary. exact Hl.
  - apply get_performance_summary_blocks.
Qed.

Lemma call_sequence_returns_iff_no_summary_call_witness :
  lock (init 0 0) = false /\
  run_calls [CallUpdateFps 1; CallGetPerformanceSummary; CallUpdateFps 2]
            (init 0 0) = Blocks.
Proof.
  split; [reflexivity |].
  apply (proj1 (proj2 (call_sequence_returns_iff_no_summary_call
           [CallUpdateFps 1; CallGetPerformanceSummary; CallUpdateFps 2]
           (init 0 0) eq_refl))).
  reflexivity.
Defined.

Lemma update_times_app_one (c : call) (cs : list call) :
  update_times (c :: cs) = update_times [c] ++ update_times cs /\
  detections_recorded (c :: cs)
    = (detections_recorded [c] + detections_recorded cs)%nat.
Proof.
  destruct c; simpl; split; reflexivity.
Qed.

Lemma window_after_app (w : list Q) (ts1 ts2 : list Q) :
  (length ts1 <= 1)%nat ->
  window_after w (ts1 ++ ts2) = window_after (window_after w ts1) ts2.
Proof.
  destruct ts1 as [| t [| t' ts1]]; simpl; intros H; try lia.
  - reflexivity.
  - apply (window_after_cons w t ts2).
Qed.

(** X2.  In a sequence of calls without [reset_stats] and without
    [get_performance_summary], made on a free lock, the frame counter
    grows by the number of [update_fps] calls and the detection counter by
    the number of [record_detection_time] calls, in whatever order they
    come; and the window is the one the [update_fps] readings alone
    produce: recording a detection, reading the rate or toggling
    monitoring never touches it. *)
Theorem counters_count_calls (cs : list call) :
  forall self : PerformanceMonitor,
    lock self = false ->
    existsb is_summary_call cs = false ->
    existsb is_reset_call cs = false ->
    exists self',
      run_calls cs self = Returns tt self' /\
      frame_count self' = frame_count self + Z.of_nat (length (update_times cs)) /\
      detection_count self'
        = detection_count self + Z.of_nat (detections_recorded cs) /\
      frame_times self' = window_after (frame_times self) (update_times cs).
Proof.
  induction cs as [| c cs IH]; intros self Hl Hs Hr.
  - exists self. simpl. repeat split; lia.
  - simpl in Hs, Hr. apply orb_false_iff in Hs, Hr.
    destruct Hs as [Hc Hs]. destruct Hr as [Hrc Hr].
    destruct (run_call_effect c self Hl Hc) as (self1 & E1 & Hl1 & Hfx).
    destruct (Hfx Hrc) as (Hw1 & Hf1 & Hd1).
    destruct (IH self1 Hl1 Hs Hr) as (self' & E' & Hf' & Hd' & Hw').
    exists self'. simpl run_calls. unfold bind at 1. rewrite E1.
    split; [exact E' |].
    destruct (update_times_app_one c cs) as [-> ->].
    rewrite length_app, Hf', Hd', Hw', Hf1, Hd1, Hw1.
    repeat split; try lia.
    symmetry. apply window_after_app. destruct c; simpl; lia.
Qed.

Lemma counters_count_calls_witness :
  exists self',
    run_calls [CallRecordDetectionTime 0; CallUpdateFps 1; CallStartMonitoring;
               CallUpdateFps 2; CallGetCurrentFps; CallRecordDetectionTime 0]
              (init 0 0) = Returns tt self' /\
    frame_count self' = 2 /\ detection_count self' = 2 /\
    frame_times self' = [1%Q; 2%Q].
Proof.
  destruct (counters_count_calls
              [CallRecordDetectionTime 0; CallUpdateFps 1; CallStartMonitoring;
               CallUpdateFps 2; CallGetCurrentFps; CallRecordDetectionTime 0]
              (init 0 0) eq_refl eq_refl eq_refl)
    as (self' & E & Hf & Hd & Hw).
  exists self'. repeat split; assumption.
Defined.

Lemma window_fps_nonneg (times : list Q) : (0 <= window_fps times)%Q.
Proof.
  unfold window_fps.
  destruct (length times <? 2)%nat eqn:El; [apply Qle_refl |].
  destruct (Qle_bool _ 0) eqn:Es; [apply Qle_refl |].
  apply Nat.ltb_ge in El.
  assert (Hs : (0 < last times 0 - hd 0 times)%Q).
  { apply Qnot_le_lt. intros H. apply Qle_bool_iff in H. congruence. }
  apply Qlt_le_weak, Qlt_shift_div_l; [exact Hs |].
  rewrite Qmult_0_l. change 0%Q with (inject_Z 0). rewrite <- Zlt_Qlt. lia.
Qed.

Lemma window_fps_zero_iff (times : list Q) :
  (window_fps times == 0)%Q <->
  ((length times < 2)%nat \/ (last times 0 <= hd 0 times)%Q).
Proof.
  unfold window_fps.
  destruct (length times <? 2)%nat eqn:El.
  - apply Nat.ltb_lt in El. split; [left; exact El | reflexivity].
  - apply Nat.ltb_ge in El.
    destruct (Qle_bool _ 0) eqn:Es.
    + apply Qle_bool_iff in Es. split; [| reflexivity].
      intros _. right. apply Qle_minus_iff in Es.
      setoid_replace (0 + - (last times 0 - hd 0 times))%Q
        with (hd 0 times + - last times 0)%Q in Es by ring.
      apply Qle_minus_iff. exact Es.
    + assert (Hs : (0 < last times 0 - hd 0 times)%Q).
      { apply Qnot_le_lt. intros H. apply Qle_bool_iff in H. congruence. }
      split.
      * intros E. exfalso.
        assert (Hp : (0 < inject_Z (Z.of_nat (length times) - 1)
                          / (last times 0 - hd 0 times))%Q).
        { apply Qlt_shift_div_l; [exact Hs |].
          rewrite Qmult_0_l. change 0%Q with (inject_Z 0).
          rewrite <- Zlt_Qlt. lia. }
        rewrite E in Hp. exact (Qlt_irrefl _ Hp).
      * intros [H | H]; [lia |]. exfalso.
        apply (Qlt_irrefl 0). eapply Qlt_le_trans; [exact Hs |].
        apply Qle_minus_iff in H. apply Qle_minus_iff.
        setoid_replace (0 + - (last times 0 - hd 0 times))%Q
          with (hd 0 times + - last times 0)%Q by ring.
        exact H.
Qed.

(** X3.  On a free lock [get_current_fps] never returns a negative rate,
    whatever the timestamps in the window are (a clock that stepped back
    included); and the rate is zero exactly when the window holds fewer
    than two samples or its newest timestamp is not later than its
    oldest. *)
Theorem get_current_fps_never_negative (self : PerformanceMonitor) :
  lock self = false ->
  exists fps,
    get_current_fps self = Returns fps self /\
    (0 <= fps)%Q /\
    ((fps == 0)%Q <->
       ((length (frame_times self) < 2)%nat \/
        (last (frame_times self) 0 <= hd 0 (frame_times self))%Q)).
Proof.
  intros Hl. exists (window_fps (frame_times self)).
  split; [apply get_current_fps_returns; exact Hl |].
  split; [apply window_fps_nonneg | apply window_fps_zero_iff].
Qed.

Lemma get_current_fps_never_negative_witness :
  exists fps,
    get_current_fps (mkMonitor 0 [5%Q; 4%Q; 3%Q] 3 3 0 false false)
      = Returns fps (mkMonitor 0 [5%Q; 4%Q; 3%Q] 3 3 0 false false) /\
    (fps == 0)%Q.
Proof.
  destruct (get_current_fps_never_negative
              (mkMonitor 0 [5%Q; 4%Q; 3%Q] 3 3 0 false false) eq_refl)
    as (fps & E & _ & Hz).
  exists fps. split; [exact E |].
  apply Hz. right. simpl. discriminate.
Defined.

(** X4.  The window forgets: once 60 or more frames have been recorded,
    the window is the last 60 readings, whatever the monitor held before;
    two monitors fed the same 60 or more readings report the same rate. *)
Theorem window_depends_on_last_sixty_readings
    (ts : list Q) (self1 self2 : PerformanceMonitor) :
  lock self1 = false -> lock self2 = false ->
  (60 <= length ts)%nat ->
  exists self1' self2' fps,
    run_updates ts self1 = Returns tt self1' /\
    run_updates ts self2 = Returns tt self2' /\
    frame_times self1' = slice_last 60 ts /\
    frame_times self2' = slice_last 60 ts /\
    get_current_fps self1' = Returns fps self1' /\
    get_current_fps self2' = Returns fps self2'.
Proof.
  intros Hl1 Hl2 Hlen.
  destruct (run_updates_effect ts self1 Hl1)
    as (s1 & E1 & Hf1 & _ & _ & _ & _ & Hw1).
  destruct (run_updates_effect ts self2 Hl2)
    as (s2 & E2 & Hf2 & _ & _ & _ & _ & Hw2).
  assert (Hne : ts <> []) by (destruct ts; [simpl in Hlen; lia | discriminate]).
  rewrite slice_last_app_long in Hw1, Hw2 by exact Hlen.
  exists s1, s2, (window_fps (slice_last 60 ts)).
  repeat split; try assumption; try (apply Hw1; exact Hne);
    try (apply Hw2; exact Hne).
  - rewrite <- (Hw1 Hne). apply get_current_fps_returns. exact Hf1.
  - rewrite <- (Hw2 Hne). apply get_current_fps_returns. exact Hf2.
Qed.

Lemma window_depends_on_last_sixty_readings_witness :
  exists self1' self2',
    run_updates (regular_times 0 1 61) (init 0 0) = Returns tt self1' /\
    run_updates (regular_times 0 1 61) monitor_after_three_frames
      = Returns tt self2' /\
    frame_times self1' = frame_times self2'.
Proof.
  destruct (window_depends_on_last_sixty_readings (regular_times 0 1 61)
              (init 0 0) monitor_after_three_frames eq_refl eq_refl)
    as (s1 & s2 & fps & E1 & E2 & H1 & H2 & _).
  - simpl. lia.
  - exists s1, s2. repeat split; try assumption. congruence.
Defined.

Lemma run_call_monitoring_flag (b : bool) (c : call) (self : PerformanceMonitor) :
  is_monitoring_call c = false ->
  run_call c (set_monitoring b self)
  = outcome_map (set_monitoring b) (run_call c self).
Proof.
  intros Hc. destruct c; try discriminate Hc; simpl;
    unfold update_fps, record_detection_time, get_current_fps,
      get_performance_summary, reset_stats, bind, with_lock, gets, modify, ret;
    simpl; destruct (lock self); try reflexivity; simpl;
    repeat match goal with
           | |- context [(?a <? ?b)%nat] => destruct (a <? b)%nat
           end;
    reflexivity.
Qed.

(** X5.  The monitoring flag is advisory: no method reads it.  A sequence
    of calls that does not toggle the flag has the same outcome, the same
    window and the same counters whether the flag is set or not; the flag
    itself is carried through unchanged. *)
Theorem monitoring_flag_is_not_read (b : bool) (cs : list call) :
  forall self : PerformanceMonitor,
    existsb is_monitoring_call cs = false ->
    run_calls cs (set_monitoring b self)
    = outcome_map (set_monitoring b) (run_calls cs self).
Proof.
  induction cs as [| c cs IH]; intros self Hc; [reflexivity |].
  simpl in Hc. apply orb_false_iff in Hc. destruct Hc as [Hc Hcs].
  simpl run_calls. unfold bind.
  rewrite (run_call_monitoring_flag b c self Hc).
  destruct (run_call c self) as [u self1 |]; simpl; [| reflexivity].
  apply IH. exact Hcs.
Qed.

Lemma monitoring_flag_is_not_read_witness :
  run_calls [CallUpdateFps 1; CallUpdateFps 3; CallGetCurrentFps]
            (set_monitoring true (init 0 0))
  = outcome_map (set_monitoring true)
      (run_calls [CallUpdateFps 1; CallUpdateFps 3; CallGetCurrentFps] (init 0 0)).
Proof.
  apply (monitoring_flag_is_not_read true
           [CallUpdateFps 1; CallUpdateFps 3; CallGetCurrentFps] (init 0 0)).
  reflexivity.
Defined.

(** X6.  Frames arriving at a fixed spacing [d] into an empty window (a
    new monitor, or one just reset) give the rate [1/d] from the second
    frame on, however many frames follow: the rate is windowed, it is not
    an average over the whole run. *)
Theorem regular_frames_give_reciprocal_spacing
    (t d : Q) (n : nat) (self : PerformanceMonitor) :
  lock self = false ->
  frame_times self = [] ->
  (2 <= n)%nat -> (0 < d)%Q ->
  exists self' fps,
    run_updates (regular_times t d n) self = Returns tt self' /\
    get_current_fps self' = Returns fps self' /\
    (fps == 1 / d)%Q.
Proof.
  intros Hl Hw Hn Hd.
  destruct (run_updates_effect (regular_times t d n) self Hl)
    as (self' & E & Hl' & _ & _ & _ & _ & Hwin).
  exists self', (window_fps (frame_times self')).
  split; [exact E |]. split; [apply get_current_fps_returns; exact Hl' |].
  rewrite Hwin, Hw.
  - simpl app. apply window_fps_regular; assumption.
  - destruct n as [| n]; [lia | discriminate].
Qed.

Lemma regular_frames_give_reciprocal_spacing_witness :
  exists self' fps,
    run_updates (regular_times 0 (1 # 30) 100) (init 0 0) = Returns tt self' /\
    get_current_fps self' = Returns fps self' /\
    (fps == 1 / (1 # 30))%Q.
Proof.
  apply (regular_frames_give_reciprocal_spacing 0 (1 # 30) 100 (init 0 0)).
  - reflexivity.
  - reflexivity.
  - lia.
  - reflexivity.
Defined.

End PerformanceFacts.

(** ** CameraManager *)

Module CameraFacts.
Import Camera.

Section Manager.
Variables frame callback : Type.

Lemma initialize_camera_result
    (drv : driver frame) (self : CameraManager frame callback) :
  fst (initialize_camera drv self) = negb (device_fails drv (camera_index self)).
Proof.
  unfold initialize_camera, device_fails.
  destruct (drv_open drv (camera_index self)) as [| [|]]; simpl; try reflexivity.
  destruct (drv_set_raises drv (camera_index self)); simpl; try reflexivity.
  destruct (drv_read drv (camera_index self)); reflexivity.
Qed.

(** C4, as the code has it.  When the capture object for the device
    index comes back not opened, or it opens and the one test read comes
    back with [ret == False], [initialize_camera] returns [False]; the
    component is then not initialized and not active (its [cap] is not an
    opened capture: the device opened for the test read has been
    released), and [cap] still refers to that closed capture object; no
    other attribute has changed. *)
Theorem initialize_camera_failure_leaves_closed_capture
    (drv : driver frame) (self : CameraManager frame callback) :
  drv_open drv (camera_index self) = OpenYields false \/
  (drv_open drv (camera_index self) = OpenYields true /\
   drv_set_raises drv (camera_index self) = false /\
   drv_read drv (camera_index self) = ReadFalse) ->
  let self' := snd (initialize_camera drv self) in
  fst (initialize_camera drv self) = false /\
  cap_is_open self' = false /\
  is_camera_active self' = false /\
  cap self' = Some (mkCapture (camera_index self) false) /\
  self' = set_cap (Some (mkCapture (camera_index self) false)) self.
Proof.
  intros H. unfold initialize_camera, is_camera_active.
  destruct H as [Ho | (Ho & Hs & Hr)].
  - rewrite Ho. simpl. rewrite andb_false_r. repeat split.
  - rewrite Ho. simpl. rewrite Hs. simpl. rewrite Hr. simpl.
    rewrite andb_false_r. repeat split.
Qed.

(** Any run of the acquisition loop that meets a read which raises or
    comes back with [ret == False] has ended by then. *)
Lemma capture_loop_ends_at_failed_read
    (pre : list (tick frame)) (t : tick frame) (rest : list (tick frame)) :
  (forall f, tick_read _ t <> ReadFrame f) ->
  forall self : CameraManager frame callback,
    fst (_capture_loop (pre ++ t :: rest) self) <> StillLooping.
Proof.
  intros Ht. induction pre as [| u pre IH]; intros self; simpl.
  - destruct (negb _); [discriminate |].
    destruct (tick_read _ t) as [| | f]; try discriminate.
    exfalso. exact (Ht f eq_refl).
  - destruct (negb _); [discriminate |].
    destruct (tick_read _ u); try discriminate.
    destruct (_ <=? 0); [discriminate | apply IH].
Qed.

(** C5, as the code has it.  On a device that fails, [initialize_camera]
    reports the failure as the boolean [False]; [start_capture] called
    while no opened capture is held raises
    [RuntimeError("Failed to initialize camera")] to its caller, with the
    capture flag and the thread attribute as [initialize_camera] left
    them; and a read failure inside the acquisition loop ends the loop:
    when the flag is set and the read comes back with [ret == False], the
    loop breaks there with the component unchanged, and no run of the
    loop goes on past such a read. *)
Theorem start_capture_raises_when_initialization_fails
    (drv : driver frame) (cb : option callback) (self : CameraManager frame callback) :
  device_fails drv (camera_index self) = true ->
  fst (initialize_camera drv self) = false /\
  (cap_is_open self = false ->
     start_capture drv cb self
     = Raised (RuntimeError "Failed to initialize camera")
              (snd (initialize_camera drv self)) /\
     is_running (snd (initialize_camera drv self)) = is_running self /\
     capture_thread (snd (initialize_camera drv self)) = capture_thread self) /\
  (forall (t : tick frame) (rest : list (tick frame)),
     is_running self = true ->
     stop_requested _ t = false ->
     tick_read _ t = ReadFalse ->
     _capture_loop (t :: rest) self = (ReadFailed, self)) /\
  (forall (pre : list (tick frame)) (t : tick frame) (rest : list (tick frame)),
     tick_read _ t = ReadFalse ->
     fst (_capture_loop (pre ++ t :: rest) self) <> StillLooping).
Proof.
  intros Hf.
  assert (Hi : fst (initialize_camera drv self) = false).
  { rewrite initialize_camera_result, Hf. reflexivity. }
  split; [exact Hi |]. split; [| split].
  - intros Hc. unfold start_capture. rewrite Hc. simpl.
    destruct (initialize_camera drv self) as [ok self'] eqn:E.
    simpl in Hi. subst ok. simpl. split; [reflexivity |].
    unfold initialize_camera in E.
    destruct (drv_open drv (camera_index self)) as [| [|]]; simpl in E.
    + inversion E; subst; split; reflexivity.
    + destruct (drv_set_raises drv (camera_index self)); simpl in E;
        [inversion E; subst; split; reflexivity |].
      destruct (drv_read drv (camera_index self));
        inversion E; subst; split; reflexivity.
    + inversion E; subst; split; reflexivity.
  - intros t rest Hr Hs Ht. simpl. rewrite Hs, Hr, Ht. reflexivity.
  - intros pre t rest Ht. apply capture_loop_ends_at_failed_read.
    intros f E. rewrite Ht in E. discriminate.
Qed.

End Manager.

(** C4 fails as stated: on device index -1, which cannot be opened, the
    failed [initialize_camera] leaves the capture object in [cap]. *)
Lemma initialize_camera_failure_retains_capture :
  fst (initialize_camera no_device camera_minus_one) = false /\
  cap (snd (initialize_camera no_device camera_minus_one))
    = Some (mkCapture (-1) false) /\
  cap (snd (initialize_camera no_device camera_minus_one)) <> None.
Proof.
  repeat split. discriminate.
Qed.

Lemma initialize_camera_failure_leaves_closed_capture_witness :
  (drv_open dead_device (camera_index camera_minus_one) = OpenYields true /\
   drv_set_raises dead_device (camera_index camera_minus_one) = false /\
   drv_read dead_device (camera_index camera_minus_one) = ReadFalse) /\
  initialize_camera dead_device camera_minus_one
  = (false, set_cap (Some (mkCapture (-1) false)) camera_minus_one).
Proof.
  split; [repeat split |].
  pose proof (initialize_camera_failure_leaves_closed_capture unit unit
                dead_device camera_minus_one
                (or_intror (conj eq_refl (conj eq_refl eq_refl)))) as H.
  cbv zeta in H. destruct H as (H1 & _ & _ & _ & H5).
  rewrite (surjective_pairing (initialize_camera dead_device camera_minus_one)).
  rewrite H1, H5. reflexivity.
Defined.

(** C5 fails as stated: [start_capture] on a new manager whose device
    cannot be opened raises to the caller. *)
Lemma start_capture_raises_on_missing_device :
  start_capture no_device None camera_minus_one
  = Raised (RuntimeError "Failed to initialize camera")
           (set_cap (Some (mkCapture (-1) false)) camera_minus_one).
Proof. reflexivity. Qed.

Lemma start_capture_raises_when_initialization_fails_witness :
  device_fails no_device (camera_index camera_minus_one) = true /\
  cap_is_open camera_minus_one = false /\
  start_capture no_device None camera_minus_one
  = Raised (RuntimeError "Failed to initialize camera")
           (snd (initialize_camera no_device camera_minus_one)).
Proof.
  split; [reflexivity |]. split; [reflexivity |].
  apply (proj1 (proj2 (start_capture_raises_when_initialization_fails unit unit
                         no_device None camera_minus_one eq_refl))).
  reflexivity.
Defined.

(** ** CameraManager: further properties *)

Section ManagerLifecycle.
Variables frame callback : Type.

Lemma enqueue_latest_slice (f : frame) (q : list frame) :
  (length q <= 2)%nat -> enqueue_latest f q = slice_last 2 (q ++ [f]).
Proof.
  destruct q as [| a [| b [| c q]]]; simpl; intros H; try reflexivity; lia.
Qed.

(** What one pass of the loop does when it goes on to the next. *)
Lemma capture_loop_step (t : tick frame) (rest : list (tick frame))
    (self : CameraManager frame callback) :
  fst (_capture_loop (t :: rest) self) = StillLooping ->
  exists f,
    tick_read _ t = ReadFrame f /\
    stop_requested _ t = false /\ is_running self = true /\
    _capture_loop (t :: rest) self
    = _capture_loop rest
        (set_frame_queue (enqueue_latest f (frame_queue self))
           (set_fps_counter
              (FPSCounter_update (tick_clock _ t) (fps_counter self)) self)).
Proof.
  simpl. destruct (stop_requested _ t); simpl; [discriminate |].
  destruct (is_running self); simpl; [| discriminate].
  destruct (tick_read _ t) as [| | f]; simpl; try discriminate.
  destruct (target_fps self <=? 0); simpl; [discriminate |].
  intros _. exists f. repeat split.
Qed.

(** The queue after a run of the loop. *)
Lemma capture_loop_queue_contents (ticks : list (tick frame)) :
  forall self : CameraManager frame callback,
    (length (frame_queue self) <= 2)%nat ->
    (length (frame_queue (snd (_capture_loop ticks self))) <= 2)%nat /\
    (fst (_capture_loop ticks self) = StillLooping ->
     frame_queue (snd (_capture_loop ticks self))
     = slice_last 2 (frame_queue self ++ frames_read ticks)).
Proof.
  induction ticks as [| t rest IH]; intros self Hq.
  - simpl. split; [exact Hq |]. intros _.
    rewrite app_nil_r, slice_last_short by exact Hq. reflexivity.
  - split.
    + simpl. destruct (stop_requested _ t); simpl; [exact Hq |].
      destruct (is_running self); simpl; [| exact Hq].
      destruct (tick_read _ t) as [| | f]; simpl; try exact Hq.
      destruct (target_fps self <=? 0); simpl.
      * rewrite enqueue_latest_slice, slice_last_length by exact Hq. lia.
      * apply IH. simpl.
        rewrite enqueue_latest_slice, slice_last_length by exact Hq. lia.
    + intros He.
      destruct (capture_loop_step t rest self He) as (f & Hr & _ & _ & E).
      rewrite E in He |- *.
      match type of E with _ = _capture_loop rest ?s => set (self1 := s) in * end.
      assert (Hq1 : (length (frame_queue self1) <= 2)%nat).
      { unfold self1. simpl.
        rewrite enqueue_latest_slice, slice_last_length by exact Hq. lia. }
      rewrite (proj2 (IH self1 Hq1) He).
      unfold self1. simpl frame_queue. simpl frames_read. rewrite Hr.
      rewrite enqueue_latest_slice by exact Hq.
      rewrite slice_last_app_absorb, <- app_assoc. reflexivity.
Qed.

(** X7.  The acquisition loop keeps the frame queue within its capacity
    of two: whatever the ticks, a queue of at most two frames is still
    one afterwards; and while the loop runs on, the queue holds the
    newest two of the frames queued before and read since, the older
    ones having been evicted. *)
Theorem capture_loop_queue_holds_newest_two (ticks : list (tick frame)) :
  forall self : CameraManager frame callback,
    (length (frame_queue self) <= 2)%nat ->
    (length (frame_queue (snd (_capture_loop ticks self))) <= 2)%nat /\
    (fst (_capture_loop ticks self) = StillLooping ->
     frame_queue (snd (_capture_loop ticks self))
     = slice_last 2 (frame_queue self ++ frames_read ticks)).
Proof.
  exact (capture_loop_queue_contents ticks).
Qed.

(** X8.  [get_latest_frame] hands out the oldest frame still queued, not
    the newest: after a run of the loop that read at least two frames,
    the last two being [f1] then [f2], it returns [f1] and leaves [f2]
    queued. *)
Theorem get_latest_frame_returns_older_of_two
    (ticks : list (tick frame)) (self : CameraManager frame callback)
    (earlier : list frame) (f1 f2 : frame) :
  (length (frame_queue self) <= 2)%nat ->
  fst (_capture_loop ticks self) = StillLooping ->
  frames_read ticks = earlier ++ [f1; f2] ->
  let after := snd (_capture_loop ticks self) in
  fst (get_latest_frame after) = Some f1 /\
  frame_queue (snd (get_latest_frame after)) = [f2] /\
  fst (get_latest_frame (snd (get_latest_frame after))) = Some f2.
Proof.
  intros Hq He Hf after.
  assert (Hqueue : frame_queue after = [f1; f2]).
  { unfold after.
    rewrite (proj2 (capture_loop_queue_contents ticks self Hq) He), Hf.
    rewrite app_assoc. apply slice_last_app_exact. reflexivity. }
  unfold get_latest_frame. rewrite Hqueue. simpl. repeat split.
Qed.

Ltac loop_leaf :=
  simpl;
  split; [reflexivity |];
  split; [reflexivity |];
  split;
  [ intros [E | E]; try discriminate E
  | intros E; try discriminate E ];
  try reflexivity; try assumption;
  try (split; [assumption |];
       unfold is_camera_active, cap_is_open; simpl;
       match goal with H : is_running _ = true |- _ => rewrite H end;
       reflexivity).

(** X9.  The loop itself never clears the running flag and never touches
    the capture: when it ends on a failed read or on an error, the flag
    is still set and [is_camera_active] answers what the capture alone
    says, so a manager whose loop has died on an opened device still
    reports itself active; only a stop request leaves the flag cleared. *)
Theorem capture_loop_failure_leaves_flag_set (ticks : list (tick frame)) :
  forall self : CameraManager frame callback,
    let ended := _capture_loop ticks self in
    cap (snd ended) = cap self /\
    capture_thread (snd ended) = capture_thread self /\
    (fst ended = ReadFailed \/ fst ended = LoopError ->
       is_running (snd ended) = true /\
       is_camera_active (snd ended) = cap_is_open self) /\
    (fst ended = FlagCleared -> is_running (snd ended) = false).
Proof.
  induction ticks as [| t rest IH]; intros self; cbv zeta.
  - loop_leaf.
  - simpl.
    destruct (stop_requested _ t); simpl; [loop_leaf |].
    destruct (is_running self) eqn:Hr; simpl; [| loop_leaf].
    destruct (tick_read _ t) as [| | f]; simpl; [loop_leaf | loop_leaf |].
    destruct (target_fps self <=? 0); simpl; [loop_leaf |].
    match goal with |- context [_capture_loop rest ?s] =>
      specialize (IH s); cbv zeta in IH; simpl in IH;
      destruct IH as (Hc & Ht & Hfail & Hflag)
    end.
    split; [exact Hc |]. split; [exact Ht |]. split; [exact Hfail | exact Hflag].
Qed.


(** X11.  [start_capture] raises exactly when no opened capture is held
    and the device fails to initialize; in every other case it returns
    with the running flag set, the callback stored, a started daemon
    thread recorded and an opened capture held, so that the manager
    reports itself active. *)
Theorem start_capture_raises_iff_closed_and_device_fails
    (drv : driver frame) (cb : option callback)
    (self : CameraManager frame callback) :
  (cap_is_open self = false /\ device_fails drv (camera_index self) = true ->
     exists e self', start_capture drv cb self = Raised e self') /\
  (cap_is_open self = true \/ device_fails drv (camera_index self) = false ->
     exists self',
       start_capture drv cb self = Done self' /\
       is_running self' = true /\
       frame_callback self' = cb /\
       capture_thread self' = Some (mkThread true true) /\
       is_camera_active self' = true).
Proof.
  split.
  - intros [Hc Hf]. unfold start_capture. rewrite Hc. simpl.
    pose proof (initialize_camera_result frame callback drv self) as Hi.
    rewrite Hf in Hi. simpl in Hi.
    destruct (initialize_camera drv self) as [ok self1]. simpl in Hi.
    subst ok. simpl. eexists. eexists. reflexivity.
  - intros H. unfold start_capture.
    destruct (cap_is_open self) eqn:Hc; simpl.
    + eexists. split; [reflexivity |].
      unfold is_camera_active, cap_is_open in *. simpl.
      rewrite Hc. repeat split.
    + destruct H as [H | Hf]; [discriminate |].
      pose proof (initialize_camera_result frame callback drv self) as Hi.
      rewrite Hf in Hi. simpl in Hi.
      unfold initialize_camera, device_fails in *.
      destruct (drv_open drv (camera_index self)) as [| [|]];
        simpl in *; try discriminate.
      destruct (drv_set_raises drv (camera_index self));
        simpl in *; try discriminate.
      destruct (drv_read drv (camera_index self));
        simpl in *; try discriminate.
      eexists. split; [reflexivity |]. repeat split.
Qed.

End ManagerLifecycle.

Lemma capture_loop_queue_holds_newest_two_witness :
  frame_queue
    (snd (_capture_loop
            [mkTick false (ReadFrame 1) 0 false;
             mkTick false (ReadFrame 2) 0 true;
             mkTick false (ReadFrame 3) 0 false]
            (set_is_running true (init (callback := unit) 0 0 0))))
  = [2; 3].
Proof.
  refine (proj2 (capture_loop_queue_holds_newest_two Z unit
            [mkTick false (ReadFrame 1) 0 false;
             mkTick false (ReadFrame 2) 0 true;
             mkTick false (ReadFrame 3) 0 false]
            (set_is_running true (init 0 0 0)) _) _).
  - simpl. lia.
  - reflexivity.
Defined.

Lemma get_latest_frame_returns_older_of_two_witness :
  fst (get_latest_frame
         (snd (_capture_loop
                 [mkTick false (ReadFrame 1) 0 false;
                  mkTick false (ReadFrame 2) 0 false;
                  mkTick false (ReadFrame 3) 0 false]
                 (set_is_running true (init (callback := unit) 0 0 0)))))
  = Some 2.
Proof.
  refine (proj1 (get_latest_frame_returns_older_of_two Z unit
            [mkTick false (ReadFrame 1) 0 false;
             mkTick false (ReadFrame 2) 0 false;
             mkTick false (ReadFrame 3) 0 false]
            (set_is_running true (init 0 0 0)) [1] 2 3 _ _ _)).
  - simpl. lia.
  - reflexivity.
  - reflexivity.
Defined.

Lemma start_capture_raises_iff_closed_and_device_fails_witness :
  exists self',
    start_capture working_device (Some tt) camera_minus_one = Done self' /\
    is_camera_active self' = true.
Proof.
  destruct (proj2 (start_capture_raises_iff_closed_and_device_fails unit unit
                     working_device (Some tt) camera_minus_one)
                  (or_intror eq_refl))
    as (self' & E & _ & _ & _ & Ha).
  exists self'. split; assumption.
Defined.

Section ManagerInitialization.
Variables frame callback : Type.

(** X12.  [initialize_camera] returns [True] exactly when the device
    does not fail; the manager then holds an opened capture for its
    index and nothing else has changed.  From there [start_capture] does
    not consult the driver again and cannot raise, whatever the device
    would now answer, and a [stop_capture] after it leaves the manager
    inactive with no capture. *)
Theorem initialize_then_start_never_raises
    (drv drv' : driver frame) (cb : option callback)
    (self : CameraManager frame callback) :
  (fst (initialize_camera drv self) = true <->
   device_fails drv (camera_index self) = false) /\
  (fst (initialize_camera drv self) = true ->
   snd (initialize_camera drv self)
     = set_cap (Some (mkCapture (camera_index self) true)) self /\
   exists started,
     start_capture drv' cb (snd (initialize_camera drv self)) = Done started /\
     cap started = Some (mkCapture (camera_index self) true) /\
     is_camera_active started = true /\
     is_camera_active (stop_capture started) = false /\
     cap (stop_capture started) = None).
Proof.
  split.
  - rewrite initialize_camera_result. destruct (device_fails _ _); simpl;
      split; congruence.
  - unfold initialize_camera.
    destruct (drv_open drv (camera_index self)) as [| [|]];
      simpl; try discriminate.
    destruct (drv_set_raises drv (camera_index self)); simpl; try discriminate.
    destruct (drv_read drv (camera_index self)); simpl; try discriminate.
    intros _. split; [reflexivity |].
    eexists. split; [reflexivity |]. repeat split.
Qed.

Lemma probe_cameras_filter (drv : driver frame) (indices : list Z) :
  forall available : list Z,
    probe_cameras drv indices available
    = available ++ filter (camera_works drv) indices.
Proof.
  induction indices as [| i rest IH]; intros available; simpl.
  - rewrite app_nil_r. reflexivity.
  - rewrite IH. unfold camera_works.
    destruct (drv_open drv i) as [| [|]]; try reflexivity.
    destruct (drv_read drv i); try reflexivity.
    rewrite <- app_assoc. reflexivity.
Qed.

Lemma filter_strongly_sorted (f : Z -> bool) (l : list Z) :
  StronglySorted Z.lt l -> StronglySorted Z.lt (filter f l).
Proof.
  induction 1 as [| a l Hs IH Ha]; simpl; [constructor |].
  destruct (f a); [| exact IH].
  constructor; [exact IH |].
  rewrite Forall_forall in *. intros x Hx.
  apply filter_In in Hx. apply Ha. tauto.
Qed.

Lemma range_strongly_sorted (n : nat) : StronglySorted Z.lt (range n).
Proof.
  unfold range. generalize 0%nat.
  induction n as [| n IH]; intros start; simpl; constructor.
  - apply IH.
  - rewrite Forall_forall. intros x Hx.
    apply in_map_iff in Hx. destruct Hx as (k & <- & Hk).
    apply in_seq in Hk. lia.
Qed.

Lemma in_range (n : nat) (i : Z) : In i (range n) <-> 0 <= i < Z.of_nat n.
Proof.
  unfold range. rewrite in_map_iff. split.
  - intros (k & <- & Hk). apply in_seq in Hk. lia.
  - intros H. exists (Z.to_nat i). split; [lia |]. apply in_seq. lia.
Qed.

(** X13.  [list_available_cameras] lists exactly the indices from 0 to 9
    whose capture opens and whose test read delivers a frame, in
    increasing order; an index of 10 or more is never listed, an index
    whose probe raises is skipped; [has_available_cameras] tells whether
    the list is non-empty; and every listed index is one on which
    [initialize_camera] succeeds, unless a property write raises. *)
Theorem list_available_cameras_lists_working_indices (drv : driver frame) :
  (forall i : Z,
     In i (list_available_cameras drv) <->
     0 <= i < 10 /\ camera_works drv i = true) /\
  StronglySorted Z.lt (list_available_cameras drv) /\
  (has_available_cameras drv = true <->
   exists i, In i (list_available_cameras drv)) /\
  (forall self : CameraManager frame callback,
     In (camera_index self) (list_available_cameras drv) ->
     drv_set_raises drv (camera_index self) = false ->
     fst (initialize_camera drv self) = true).
Proof.
  unfold has_available_cameras, list_available_cameras.
  rewrite probe_cameras_filter, app_nil_l.
  split; [| split; [| split]].
  - intros i. rewrite filter_In, in_range. simpl. tauto.
  - apply filter_strongly_sorted, range_strongly_sorted.
  - destruct (filter (camera_works drv) (range 10)) as [| i l]; simpl.
    + split; [discriminate | intros [i []]].
    + split; [| reflexivity]. intros _. exists i. left. reflexivity.
  - intros self Hin Hset. apply filter_In in Hin. destruct Hin as [_ Hw].
    rewrite initialize_camera_result. unfold device_fails, camera_works in *.
    destruct (drv_open drv (camera_index self)) as [| [|]]; try discriminate.
    rewrite Hset. simpl.
    destruct (drv_read drv (camera_index self)); try discriminate.
    reflexivity.
Qed.

End ManagerInitialization.

Lemma initialize_then_start_never_raises_witness :
  exists started,
    start_capture no_device (Some tt)
      (snd (initialize_camera working_device camera_minus_one)) = Done started /\
    is_camera_active started = true.
Proof.
  destruct (proj2 (initialize_then_start_never_raises unit unit
                     working_device no_device (Some tt) camera_minus_one)
                  eq_refl)
    as (_ & started & E & _ & Ha & _).
  exists started. split; assumption.
Defined.

Lemma list_available_cameras_lists_working_indices_witness :
  In 3 (list_available_cameras working_device) /\
  ~ In 10 (list_available_cameras working_device).
Proof.
  pose proof (proj1 (list_available_cameras_lists_working_indices unit unit
                       working_device)) as H.
  split.
  - apply H. split; [lia | reflexivity].
  - intros Hin. apply H in Hin. lia.
Defined.

(** ** FPSCounter *)

Lemma FPSCounter_update_within_second (t : Q) (c : FPSCounter) :
  (t - fc_last_update c < 1)%Q ->
  FPSCounter_update t c
  = mkFPSCounter (fc_frame_count c + 1) (fc_start_time c) (fc_fps c)
                 (fc_last_update c).
Proof.
  intros H. unfold FPSCounter_update.
  destruct (Qle_bool 1 (t - fc_last_update c)) eqn:E; [| reflexivity].
  apply Qle_bool_iff in E. exfalso. exact (Qlt_not_le _ _ H E).
Qed.

(** X14.  The FPS counter reports a new value at most once a second:
    however many frames come while less than one second has passed since
    the last measurement, the reported rate stays what it was and the
    frames are only counted. *)
Theorem fps_counter_unchanged_within_second (ts : list Q) :
  forall c : FPSCounter,
    Forall (fun t => (t - fc_last_update c < 1)%Q) ts ->
    FPSCounter_get_fps (FPSCounter_updates ts c) = FPSCounter_get_fps c /\
    fc_frame_count (FPSCounter_updates ts c)
      = fc_frame_count c + Z.of_nat (length ts) /\
    fc_last_update (FPSCounter_updates ts c) = fc_last_update c /\
    fc_start_time (FPSCounter_updates ts c) = fc_start_time c.
Proof.
  unfold FPSCounter_updates, FPSCounter_get_fps.
  induction ts as [| t ts IH]; intros c Hall; simpl.
  - repeat split; lia.
  - inversion Hall as [| t' ts' Ht Hts]; subst.
    rewrite (FPSCounter_update_within_second t c Ht).
    destruct (IH (mkFPSCounter (fc_frame_count c + 1) (fc_start_time c)
                               (fc_fps c) (fc_last_update c)) Hts)
      as (H1 & H2 & H3 & H4).
    simpl in *. repeat split; try assumption. lia.
Qed.

Lemma fps_counter_unchanged_within_second_witness :
  FPSCounter_get_fps
    (FPSCounter_updates [(1 # 10)%Q; (2 # 10)%Q; (9 # 10)%Q]
                        (FPSCounter_init 0 0)) = 0%Q.
Proof.
  apply (fps_counter_unchanged_within_second
           [(1 # 10)%Q; (2 # 10)%Q; (9 # 10)%Q] (FPSCounter_init 0 0)).
  repeat constructor.
Defined.

(** X15.  Whatever the clock readings, a counter that starts with a
    rate and a frame count that are not negative keeps them so: the rate
    that [get_fps] reports is never negative, even when the clock steps
    back. *)
Theorem fps_counter_rate_never_negative (ts : list Q) :
  forall c : FPSCounter,
    (0 <= fc_fps c)%Q -> 0 <= fc_frame_count c ->
    (0 <= FPSCounter_get_fps (FPSCounter_updates ts c))%Q /\
    0 <= fc_frame_count (FPSCounter_updates ts c).
Proof.
  unfold FPSCounter_updates, FPSCounter_get_fps.
  induction ts as [| t ts IH]; intros c Hf Hn; simpl; [split; assumption |].
  apply IH.
  - unfold FPSCounter_update.
    destruct (Qle_bool 1 (t - fc_last_update c)); simpl; [| exact Hf].
    destruct (Qle_bool (t - fc_start_time c) 0) eqn:E; [exact Hf |].
    assert (Hs : (0 < t - fc_start_time c)%Q).
    { apply Qnot_le_lt. intros H. apply Qle_bool_iff in H. congruence. }
    apply Qlt_le_weak, Qlt_shift_div_l; [exact Hs |].
    rewrite Qmult_0_l. change 0%Q with (inject_Z 0). rewrite <- Zlt_Qlt. lia.
  - unfold FPSCounter_update.
    destruct (Qle_bool 1 (t - fc_last_update c)); simpl; lia.
Qed.

Lemma fps_counter_rate_never_negative_witness :
  (0 <= FPSCounter_get_fps
          (FPSCounter_updates [2%Q; 1%Q; 5%Q] (FPSCounter_init 0 0)))%Q.
Proof.
  apply (fps_counter_rate_never_negative [2%Q; 1%Q; 5%Q] (FPSCounter_init 0 0)).
  - discriminate.
  - simpl. lia.
Defined.

(** ** ROISelector *)

Lemma moves_keep_anchor (moves : list point) :
  forall self : ROISelector,
    start_point
      (fold_left (fun s m => mouse_callback EVENT_MOUSEMOVE (fst m) (snd m) 0 s)
                 moves self)
    = start_point self.
Proof.
  induction moves as [| m moves IH]; intros self; simpl; [reflexivity |].
  rewrite IH. unfold mouse_callback. simpl.
  destruct (selecting self); reflexivity.
Qed.

Lemma drag_commits (a b : point) (moves : list point) (self : ROISelector) :
  roi (drag a b moves self)
  = Some (Z.min (fst a) (fst b), Z.min (snd a) (snd b),
          Z.abs (fst b - fst a), Z.abs (snd b - snd a)).
Proof.
  unfold drag. cbv zeta.
  set (down := mouse_callback EVENT_LBUTTONDOWN (fst a) (snd a) 0 self).
  pose proof (moves_keep_anchor moves down) as Hs.
  remember (fold_left
              (fun s m => mouse_callback EVENT_MOUSEMOVE (fst m) (snd m) 0 s)
              moves down) as moved eqn:Em.
  unfold mouse_callback at 1. simpl. rewrite Hs. subst down.
  destruct a as [ax ay]. reflexivity.
Qed.

(** C6.  A drag from [(x1, y1)] to [(x2, y2)], through any pointer moves
    and from any state of the selector, commits the region
    [(min x1 x2, min y1 y2, |x2 - x1|, |y2 - y1|)]; its width and height
    are not negative; the drag in the opposite direction commits the same
    region; and the drags (50,50) to (10,10) and (10,10) to (50,50) both
    commit (10, 10, 40, 40). *)
Theorem drag_commits_normalized_region
    (x1 y1 x2 y2 : Z) (moves moves' : list point) (self self' : ROISelector) :
  roi (drag (x1, y1) (x2, y2) moves self)
    = Some (Z.min x1 x2, Z.min y1 y2, Z.abs (x2 - x1), Z.abs (y2 - y1)) /\
  0 <= Z.abs (x2 - x1) /\ 0 <= Z.abs (y2 - y1) /\
  roi (drag (x2, y2) (x1, y1) moves' self')
    = roi (drag (x1, y1) (x2, y2) moves self) /\
  roi (drag (50, 50) (10, 10) moves self) = Some (10, 10, 40, 40) /\
  roi (drag (10, 10) (50, 50) moves self) = Some (10, 10, 40, 40).
Proof.
  rewrite !drag_commits. simpl fst. simpl snd.
  repeat split; try apply Z.abs_nonneg.
  f_equal. f_equal; [f_equal; [f_equal |] |]; lia.
Qed.

Lemma reachable_without_anchor (self : ROISelector) :
  reachable self -> start_point self = None -> roi self = None.
Proof.
  intros H. induction H as [| event x y flags self H IH | self H IH].
  - reflexivity.
  - unfold mouse_callback.
    destruct (event =? EVENT_LBUTTONDOWN); [discriminate |].
    destruct ((event =? EVENT_MOUSEMOVE) && selecting self); [exact IH |].
    destruct (event =? EVENT_LBUTTONUP); [| exact IH].
    simpl. destruct (start_point self) as [[x1 y1] |]; simpl.
    + discriminate.
    + exact IH.
  - reflexivity.
Qed.

(** C10.  A button-up event at [(x, y)] delivered while no anchor point
    is recorded does not fail and commits nothing: the committed region
    is what it was, which for every selector state that can arise from a
    new selector means absent; the live end point becomes [(x, y)], the
    selecting flag is cleared and the anchor stays absent. *)
Theorem button_up_without_anchor_commits_nothing
    (x y flags : Z) (self : ROISelector) :
  start_point self = None ->
  let self' := mouse_callback EVENT_LBUTTONUP x y flags self in
  roi self' = roi self /\
  (reachable self -> roi self' = None) /\
  end_point self' = Some (x, y) /\
  selecting self' = false /\
  start_point self' = None.
Proof.
  intros Hs. unfold mouse_callback. simpl. rewrite Hs. simpl.
  repeat split. intros Hr. exact (reachable_without_anchor self Hr Hs).
Qed.

Lemma button_up_without_anchor_commits_nothing_witness :
  start_point ROISelector_init = None /\
  reachable ROISelector_init /\
  mouse_callback EVENT_LBUTTONUP 30 40 0 ROISelector_init
  = mkROISelector None (Some (30, 40)) false None.
Proof.
  split; [reflexivity |]. split; [constructor |].
  pose proof (button_up_without_anchor_commits_nothing 30 40 0
                ROISelector_init eq_refl) as H.
  cbv zeta in H. destruct H as (_ & H2 & H3 & H4 & H5).
  specialize (H2 reach_init).
  destruct (mouse_callback EVENT_LBUTTONUP 30 40 0 ROISelector_init).
  simpl in *. subst. reflexivity.
Defined.

(** ** ROISelector: further properties *)

Lemma moves_ignored_outside_drag (moves : list point) (self : ROISelector) :
  selecting self = false ->
  fold_left (fun s m => mouse_callback EVENT_MOUSEMOVE (fst m) (snd m) 0 s)
            moves self = self.
Proof.
  intros Hs. induction moves as [| m moves IH]; simpl; [reflexivity |].
  unfold mouse_callback at 2. simpl. rewrite Hs. simpl. exact IH.
Qed.

Lemma moves_inside_drag (moves : list point) :
  forall self : ROISelector,
    selecting self = true ->
    fold_left (fun s m => mouse_callback EVENT_MOUSEMOVE (fst m) (snd m) 0 s)
              moves self
    = mkROISelector (start_point self)
        (match moves with
         | [] => end_point self
         | _ :: _ => Some (last moves (0, 0))
         end)
        true (roi self).
Proof.
  induction moves as [| m moves IH]; intros self Hs; simpl fold_left.
  - destruct self; simpl in *. subst. reflexivity.
  - rewrite IH.
    + unfold mouse_callback. simpl. rewrite Hs. simpl.
      destruct m as [mx my]. destruct moves as [| m' moves]; reflexivity.
    + unfold mouse_callback. simpl. rewrite Hs. reflexivity.
Qed.

(** X16.  Pointer moves never commit a region.  While no drag is in
    progress any number of moves leaves the selector exactly as it was;
    during a drag they only replace the live end point, which ends up at
    the last position, and the anchor and the committed region stay what
    they were. *)
Theorem pointer_moves_never_commit (moves : list point) (self : ROISelector) :
  let moved :=
    fold_left (fun s m => mouse_callback EVENT_MOUSEMOVE (fst m) (snd m) 0 s)
              moves self in
  roi moved = roi self /\
  start_point moved = start_point self /\
  selecting moved = selecting self /\
  (selecting self = false -> moved = self) /\
  (selecting self = true -> moves <> [] ->
   end_point moved = Some (last moves (0, 0))).
Proof.
  cbv zeta. destruct (selecting self) eqn:Hs.
  - rewrite (moves_inside_drag moves self Hs). simpl.
    repeat split; try discriminate.
    intros _ Hne. destruct moves; [congruence | reflexivity].
  - rewrite (moves_ignored_outside_drag moves self Hs).
    repeat split; try assumption. discriminate.
Qed.

Lemma pointer_moves_never_commit_witness :
  fold_left (fun s m => mouse_callback EVENT_MOUSEMOVE (fst m) (snd m) 0 s)
            [(1, 1); (2, 2)] (drag (50, 50) (10, 10) [] ROISelector_init)
  = drag (50, 50) (10, 10) [] ROISelector_init.
Proof.
  apply (proj1 (proj2 (proj2 (proj2
           (pointer_moves_never_commit [(1, 1); (2, 2)]
              (drag (50, 50) (10, 10) [] ROISelector_init)))))).
  reflexivity.
Defined.

Lemma button_up_commits_from_anchor (a : point) (x y flags : Z)
    (self : ROISelector) :
  start_point self = Some a ->
  mouse_callback EVENT_LBUTTONUP x y flags self
  = mkROISelector (Some a) (Some (x, y)) false (Some (span_region a (x, y))).
Proof.
  intros Hs. unfold mouse_callback. simpl. rewrite Hs.
  destruct a as [ax ay]. reflexivity.
Qed.

(** X17.  Every selector state that mouse events and resets can produce
    from a new selector satisfies: a committed region has a width and a
    height that are not negative; a region is committed only when both an
    anchor and an end point are recorded; and whenever no drag is in
    progress and both points are recorded, the committed region is
    exactly the rectangle they span, so the rectangle drawn from the two
    points and the region handed out by [get_roi] agree. *)
Theorem reachable_selector_invariants (self : ROISelector) :
  reachable self ->
  (forall x y w h, get_roi self = Some (x, y, w, h) -> 0 <= w /\ 0 <= h) /\
  (get_roi self <> None -> start_point self <> None /\ end_point self <> None) /\
  (selecting self = false ->
   forall a b, start_point self = Some a -> end_point self = Some b ->
               get_roi self = Some (span_region a b)).
Proof.
  unfold get_roi.
  induction 1 as [| event x y flags self Hr (IH1 & IH2 & IH3) | self Hr IH].
  - simpl. repeat split; try discriminate; congruence.
  - unfold mouse_callback.
    destruct (event =? EVENT_LBUTTONDOWN).
    { simpl. split; [exact IH1 |]. split; [| discriminate].
      intros Hn. split; [discriminate | apply IH2; exact Hn]. }
    destruct ((event =? EVENT_MOUSEMOVE) && selecting self) eqn:Em.
    { simpl. apply andb_true_iff in Em. destruct Em as [_ Hsel].
      split; [exact IH1 |]. split.
      - intros Hn. split; [apply IH2; exact Hn | discriminate].
      - rewrite Hsel. discriminate. }
    destruct (event =? EVENT_LBUTTONUP);
      [| split; [exact IH1 | split; [exact IH2 | exact IH3]]].
    destruct (start_point self) as [[x1 y1] |] eqn:Hs; simpl.
    + split; [| split].
      * intros x0 y0 w h E. inversion E; subst. split; apply Z.abs_nonneg.
      * intros _. split; discriminate.
      * intros _ a b Ea Eb. inversion Ea; inversion Eb; subst. reflexivity.
    + split; [exact IH1 |]. split.
      * intros Hn. destruct (IH2 Hn) as [Hc _]. congruence.
      * intros _ a b Ea. discriminate Ea.
  - simpl. repeat split; try discriminate; congruence.
Qed.

Lemma drag_reachable (a b : point) (moves : list point) (self : ROISelector) :
  reachable self -> reachable (drag a b moves self).
Proof.
  intros Hr. unfold drag. cbv zeta. apply reach_mouse.
  assert (Hd : reachable (mouse_callback EVENT_LBUTTONDOWN (fst a) (snd a) 0 self))
    by (apply reach_mouse; exact Hr).
  revert Hd. generalize (mouse_callback EVENT_LBUTTONDOWN (fst a) (snd a) 0 self).
  induction moves as [| m moves IH]; intros s Hs; simpl; [exact Hs |].
  apply IH. apply reach_mouse. exact Hs.
Qed.

Lemma reachable_selector_invariants_witness :
  reachable (drag (50, 50) (10, 10) [(30, 30)] ROISelector_init) /\
  get_roi (drag (50, 50) (10, 10) [(30, 30)] ROISelector_init)
  = Some (span_region (50, 50) (10, 10)).
Proof.
  pose proof (drag_reachable (50, 50) (10, 10) [(30, 30)] ROISelector_init
                reach_init) as Hr.
  split; [exact Hr |].
  apply (proj2 (proj2 (reachable_selector_invariants _ Hr)));
    reflexivity.
Defined.

(** X18.  A button-up commits from the recorded anchor whether or not a
    drag is in progress: after a completed drag from [a] to [b], a later
    button-up at [p] with no button-down before it, and with any pointer
    moves in between, replaces the committed region by the rectangle
    spanned by the old anchor [a] and [p]. *)
Theorem stray_button_up_recommits_from_old_anchor
    (a b : point) (x y flags : Z) (moves later : list point)
    (self : ROISelector) :
  let dragged := drag a b moves self in
  let idle :=
    fold_left (fun s m => mouse_callback EVENT_MOUSEMOVE (fst m) (snd m) 0 s)
              later dragged in
  get_roi dragged = Some (span_region a b) /\
  idle = dragged /\
  mouse_callback EVENT_LBUTTONUP x y flags idle
  = mkROISelector (Some a) (Some (x, y)) false (Some (span_region a (x, y))).
Proof.
  cbv zeta.
  assert (Hd : drag a b moves self
               = mkROISelector (Some a) (Some b) false (Some (span_region a b))).
  { destruct a as [ax ay], b as [bx by']. unfold drag. cbv zeta.
    pose proof (moves_keep_anchor moves
                  (mouse_callback EVENT_LBUTTONDOWN ax ay 0 self)) as Hs.
    simpl start_point in Hs at 2. simpl fst. simpl snd.
    rewrite (button_up_commits_from_anchor (ax, ay) bx by' 0 _ Hs).
    reflexivity. }
  rewrite Hd. rewrite moves_ignored_outside_drag by reflexivity.
  split; [reflexivity |]. split; [reflexivity |].
  apply button_up_commits_from_anchor. reflexivity.
Qed.

End CameraFacts.

(** ** OpenCVDetector *)

Module DetectorFacts.
Import Detector.

Lemma pystr_eqb_eq (a b : pystr) : pystr_eqb a b = true <-> a = b.
Proof.
  revert b. induction a as [| x a IH]; intros [| y b]; simpl;
    try (split; [discriminate | discriminate]); [tauto |].
  rewrite andb_true_iff, N.eqb_eq, IH. split.
  - intros [-> ->]. reflexivity.
  - intros E. inversion E. tauto.
Qed.

Lemma any_data_true_iff (d : pystr) (results : list DetectionResult) :
  any_data d results = true <-> In d (map data results).
Proof.
  unfold any_data. rewrite existsb_exists, in_map_iff. split.
  - intros (r & Hin & He). exists r. apply pystr_eqb_eq in He. tauto.
  - intros (r & He & Hin). exists r. split; [exact Hin |].
    apply pystr_eqb_eq. exact He.
Qed.

Lemma any_data_false_iff (d : pystr) (results : list DetectionResult) :
  any_data d results = false <-> ~ In d (map data results).
Proof.
  rewrite <- any_data_true_iff. destruct (any_data d results); split;
    congruence.
Qed.

(** Appending a result whose payload is new keeps the payloads distinct. *)
Lemma NoDup_payload_snoc (results : list DetectionResult) (r : DetectionResult) :
  NoDup (map data results) ->
  ~ In (data r) (map data results) ->
  NoDup (map data (results ++ [r])).
Proof.
  intros Hnd Hnew. rewrite map_app. simpl.
  apply NoDup_app; [exact Hnd | repeat constructor; intros [] |].
  intros a Ha [<- | []]. exact (Hnew Ha).
Qed.

Section Merge.

Variable image : Type.
Variable crop : image -> rectangle -> image.
Variable detectAndDecode : image -> single_outcome.
Variable detectAndDecodeMulti : image -> multi_outcome.
Variable pyzbar_decode : image -> pyzbar_outcome.
Variable now : nat -> Q.

Lemma append_qr_distinct (off : point) (t0 : Q) (d : pystr)
    (points : list fpoint) (p : progress) :
  distinct p -> any_data d (fst p) = false ->
  distinct (progress_of (append_qr now off t0 d points p)).
Proof.
  intros Hd Hnew. destruct p as [results k]. unfold append_qr.
  destruct (bounding_rect _); simpl; [| exact Hd].
  apply NoDup_payload_snoc; [exact Hd |].
  apply any_data_false_iff. exact Hnew.
Qed.

Lemma multi_loop_distinct (off : point) (t0 : Q)
    (items : list (pystr * list fpoint)) :
  forall p, distinct p ->
    distinct (progress_of (multi_loop now off t0 items p)).
Proof.
  induction items as [| [d points] items IH]; intros p Hd; simpl.
  - exact Hd.
  - destruct (truthy d && _); [| apply IH; exact Hd].
    destruct (any_data d (fst p)) eqn:Ha; [apply IH; exact Hd |].
    pose proof (append_qr_distinct off t0 d points p Hd Ha) as Hq.
    destruct (append_qr now off t0 d points p) as [p' | p']; simpl in Hq.
    + apply IH. exact Hq.
    + exact Hq.
Qed.

Lemma barcode_loop_distinct (t0 : Q) (barcodes : list Barcode) :
  forall p, distinct p ->
    distinct (progress_of (barcode_loop now t0 barcodes p)).
Proof.
  induction barcodes as [| b barcodes IH]; intros p Hd; simpl.
  - exact Hd.
  - destruct (bc_data b) as [d |]; [| exact Hd].
    destruct p as [results k]. destruct (bc_rect b) as [[[x y] w] h].
    destruct (any_data d results) eqn:Ha; simpl.
    + apply IH. exact Hd.
    + apply IH. unfold distinct. simpl.
      apply NoDup_payload_snoc; [exact Hd |].
      apply any_data_false_iff. exact Ha.
Qed.

Lemma distinct_nil (k : nat) : distinct ([], k).
Proof. constructor. Qed.

Lemma qr_block_distinct (img : image) (off : point) (t0 : Q) (k : nat) :
  distinct (qr_block detectAndDecode detectAndDecodeMulti now img off t0 ([], k)).
Proof.
  unfold qr_block.
  assert (H1 : distinct (progress_of
            (decode_single detectAndDecode now img off t0 ([], k)))).
  { unfold decode_single.
    destruct (detectAndDecode img) as [| d [pts |]];
      try apply distinct_nil.
    - destruct (truthy d); [| apply distinct_nil].
      destruct pts as [| p0 pts]; [apply distinct_nil |].
      apply append_qr_distinct; [apply distinct_nil | reflexivity].
    - destruct (truthy d); apply distinct_nil. }
  destruct (decode_single _ _ _ _ _ _) as [p1 | p1]; simpl in H1; [| exact H1].
  unfold decode_multi.
  destruct (detectAndDecodeMulti img) as [| success infos pts]; [exact H1 |].
  destruct success; [| exact H1].
  apply multi_loop_distinct. exact H1.
Qed.

Lemma detect_codes_results (img : image) (roi : option rectangle)
    (self : OpenCVDetector) :
  exists (img' : image) (off : point),
    (img', off) = match roi with
                  | Some (x, y, w, h) => (crop img (x, y, w, h), (x, y))
                  | None => (img, (0, 0))
                  end /\
    fst (detect_codes crop detectAndDecode detectAndDecodeMulti pyzbar_decode
                      now img roi self)
    = fst (barcode_block pyzbar_decode now img' (now 0%nat)
             (qr_block detectAndDecode detectAndDecodeMulti now img' off
                       (now 0%nat) ([], 1%nat))).
Proof.
  unfold detect_codes.
  destruct roi as [[[[x y] w] h] |]; eexists; eexists; split; reflexivity.
Qed.

Lemma detect_codes_distinct (img : image) (roi : option rectangle)
    (self : OpenCVDetector) :
  NoDup (map data
    (fst (detect_codes crop detectAndDecode detectAndDecodeMulti pyzbar_decode
                       now img roi self))).
Proof.
  destruct (detect_codes_results img roi self) as (img' & off & _ & ->).
  unfold barcode_block.
  pose proof (qr_block_distinct img' off (now 0%nat) 1) as Hq.
  destruct (pyzbar_decode img'); try exact Hq.
  apply barcode_loop_distinct. exact Hq.
Qed.

(** *** One payload found by every back-end *)

Lemma bounding_rect_some (polygon : list point) :
  polygon <> [] -> exists r, bounding_rect polygon = Some r.
Proof.
  destruct polygon as [| q polygon]; [congruence |].
  intros _. unfold bounding_rect. simpl. eexists. reflexivity.
Qed.

Lemma combine_same_payload (d : pystr) (infos : list pystr) :
  Forall (eq d) infos ->
  forall pts : list (list fpoint),
    Forall (fun it => fst it = d) (combine infos pts).
Proof.
  induction 1 as [| d' infos Hd _ IH]; intros pts; simpl; [constructor |].
  destruct pts as [| q pts]; constructor; [symmetry; exact Hd | apply IH].
Qed.

Lemma multi_loop_same_payload (off : point) (t0 : Q) (d : pystr)
    (items : list (pystr * list fpoint)) (p : progress) :
  Forall (fun it => fst it = d) items ->
  any_data d (fst p) = true ->
  multi_loop now off t0 items p = Completed p.
Proof.
  intros Hall Hin. induction Hall as [| [d' points] items Hd _ IH]; simpl.
  - reflexivity.
  - simpl in Hd. subst d'. rewrite Hin.
    destruct (truthy d && _); exact IH.
Qed.

Lemma barcode_loop_same_payload (t0 : Q) (d : pystr) (barcodes : list Barcode) :
  Forall (fun b => bc_data b = Some d) barcodes ->
  forall (results : list DetectionResult) (k : nat),
    any_data d results = true ->
    fst (progress_of (barcode_loop now t0 barcodes (results, k))) = results.
Proof.
  induction 1 as [| b barcodes Hb _ IH]; intros results k Hin; simpl.
  - reflexivity.
  - rewrite Hb. destruct (bc_rect b) as [[[x y] w] h].
    rewrite Hin. simpl. apply IH. exact Hin.
Qed.

Lemma detect_codes_same_payload (img : image) (roi : option rectangle)
    (self : OpenCVDetector) (d : pystr) (corners : list fpoint)
    (more : list (list fpoint)) :
  d <> [] -> corners <> [] ->
  (forall i, detectAndDecode i = SingleDecoded d (Some (corners :: more))) ->
  (forall i success infos pts,
     detectAndDecodeMulti i = MultiDecoded success infos pts ->
     Forall (eq d) infos) ->
  (forall i barcodes,
     pyzbar_decode i = PyzbarDecoded barcodes ->
     Forall (fun b => bc_data b = Some d) barcodes) ->
  map data
    (fst (detect_codes crop detectAndDecode detectAndDecodeMulti pyzbar_decode
                       now img roi self)) = [d].
Proof.
  intros Hd Hc Hsingle Hmulti Hpyzbar.
  destruct (detect_codes_results img roi self) as (img' & off & _ & ->).
  assert (Hq : exists r k,
             qr_block detectAndDecode detectAndDecodeMulti now img' off
                      (now 0%nat) ([], 1%nat) = ([r], k) /\ data r = d).
  { unfold qr_block, decode_single. rewrite Hsingle.
    destruct d as [| c d]; [congruence |]. simpl truthy. cbv iota.
    unfold append_qr.
    destruct (bounding_rect_some (offset_polygon off corners)) as (r & ->).
    { unfold offset_polygon. destruct corners; [congruence | discriminate]. }
    simpl app. unfold decode_multi.
    destruct (detectAndDecodeMulti img') as [| success infos pts] eqn:Em.
    - eexists. eexists. split; reflexivity.
    - destruct success; [| eexists; eexists; split; reflexivity].
      rewrite (multi_loop_same_payload off (now 0%nat) (c :: d)).
      + eexists. eexists. split; reflexivity.
      + apply combine_same_payload. exact (Hmulti _ _ _ _ Em).
      + apply any_data_true_iff. left. reflexivity. }
  destruct Hq as (r & k & -> & Hr). unfold barcode_block.
  destruct (pyzbar_decode img') as [| | barcodes] eqn:Ep;
    try (simpl; rewrite Hr; reflexivity).
  rewrite (barcode_loop_same_payload (now 0%nat) d).
  - simpl. rewrite Hr. reflexivity.
  - exact (Hpyzbar _ _ Ep).
  - apply any_data_true_iff. left. exact Hr.
Qed.

(** C2.  Whatever the image, the region and the three back-ends hand
    back, the payloads of the batch returned by [detect_codes] are
    pairwise distinct; and when the single-result decoder finds a payload
    [d] and every payload the multi-result decoder and pyzbar find is [d]
    too, the batch holds exactly one result, with payload [d]. *)
Theorem detect_codes_batch_payload_unique (img : image)
    (roi : option rectangle) (self : OpenCVDetector) :
  let batch :=
    fst (detect_codes crop detectAndDecode detectAndDecodeMulti pyzbar_decode
                      now img roi self) in
  NoDup (map data batch) /\
  (forall (d : pystr) (corners : list fpoint) (more : list (list fpoint)),
     d <> [] -> corners <> [] ->
     (forall i, detectAndDecode i = SingleDecoded d (Some (corners :: more))) ->
     (forall i success infos pts,
        detectAndDecodeMulti i = MultiDecoded success infos pts ->
        Forall (eq d) infos) ->
     (forall i barcodes,
        pyzbar_decode i = PyzbarDecoded barcodes ->
        Forall (fun b => bc_data b = Some d) barcodes) ->
     map data batch = [d] /\ length batch = 1%nat).
Proof.
  cbv zeta. split; [apply detect_codes_distinct |].
  intros d corners more Hd Hc H1 H2 H3.
  pose proof (detect_codes_same_payload img roi self d corners more
                Hd Hc H1 H2 H3) as H.
  split; [exact H |].
  rewrite <- (length_map data), H. reflexivity.
Qed.

(** *** Coordinates *)

Lemma fold_min_shift (o : Z) (l : list Z) :
  forall a, fold_left Z.min (map (fun z => z + o) l) (a + o)
            = fold_left Z.min l a + o.
Proof.
  induction l as [| z l IH]; intros a; simpl; [reflexivity |].
  rewrite Z.add_min_distr_r. apply IH.
Qed.

Lemma fold_max_shift (o : Z) (l : list Z) :
  forall a, fold_left Z.max (map (fun z => z + o) l) (a + o)
            = fold_left Z.max l a + o.
Proof.
  induction l as [| z l IH]; intros a; simpl; [reflexivity |].
  rewrite Z.add_max_distr_r. apply IH.
Qed.

(** The bounding rectangle of a shifted polygon is the shifted bounding
    rectangle. *)
Lemma bounding_rect_shift (o : point) (poly : list point) :
  bounding_rect (map (shift_point o) poly)
  = option_map (shift_rect o) (bounding_rect poly).
Proof.
  destruct poly as [| [qx qy] poly]; [reflexivity |].
  unfold bounding_rect. simpl.
  replace (map fst (map (shift_point o) poly))
    with (map (fun z => z + fst o) (map fst poly))
    by (rewrite !map_map; reflexivity).
  replace (map snd (map (shift_point o) poly))
    with (map (fun z => z + snd o) (map snd poly))
    by (rewrite !map_map; reflexivity).
  rewrite !fold_min_shift, !fold_max_shift. simpl.
  repeat match goal with
         | |- context [?a + ?c - (?b + ?c)] =>
             replace (a + c - (b + c)) with (a - b) by lia
         end.
  reflexivity.
Qed.

Lemma barcode_loop_verbatim (t0 : Q) (barcodes : list Barcode) :
  forall (results : list DetectionResult) (k : nat) (P : DetectionResult -> Prop),
    (forall r, barcode_verbatim barcodes r -> P r) ->
    Forall P results ->
    Forall P (fst (progress_of (barcode_loop now t0 barcodes (results, k)))).
Proof.
  induction barcodes as [| b barcodes IH]; intros results k P HP Hr; simpl.
  - exact Hr.
  - destruct (bc_data b) as [d |] eqn:Ed; [| exact Hr].
    destruct (bc_rect b) as [[[x y] w] h] eqn:Er.
    assert (HP' : forall r, barcode_verbatim barcodes r -> P r).
    { intros r (b' & Hin & H). apply HP. exists b'. split; [right; exact Hin | exact H]. }
    destruct (any_data d results); simpl.
    + apply IH; assumption.
    + apply IH; [exact HP' |].
      apply Forall_app. split; [exact Hr |]. constructor; [| constructor].
      apply HP. exists b. split; [left; reflexivity |]. simpl. rewrite Er.
      split; [reflexivity |].
      intros Hne. destruct (bc_polygon b); [congruence | reflexivity].
Qed.

End Merge.

(** C1, at a region away from the origin.  With the region
    (100, 50, 200, 200) and a barcode that pyzbar locates at (10, 20),
    30 wide and 40 high, inside the cropped image, [detect_codes] returns
    one result whose rectangle is (10, 20, 30, 40) and whose corners are
    those of that rectangle: the coordinates of the cropped image, not
    the full-frame ones, which start at (110, 70). *)
Theorem detect_codes_barcode_keeps_region_coordinates :
  let batch :=
    fst (detect_codes crop_token single_finds_nothing multi_finds_nothing
                      pyzbar_finds_ean13 ticking_clock tt
                      (Some (100, 50, 200, 200)) (mkDetector [])) in
  map data batch = [str "4006381333931"] /\
  map rect batch = [(10, 20, 30, 40)] /\
  map polygon batch = [[(10, 20); (40, 20); (40, 60); (10, 60)]] /\
  shift_rect (100, 50) (10, 20, 30, 40) = (110, 70, 30, 40) /\
  Forall (fun r => ~ in_full_frame (100, 50) (10, 20, 30, 40)
                      [(10, 20); (40, 20); (40, 60); (10, 60)] r) batch.
Proof.
  cbv zeta. repeat split.
  constructor; [| constructor].
  intros [Hrect _]. simpl in Hrect. inversion Hrect.
Qed.

Lemma detect_codes_batch_payload_unique_witness :
  map data
    (fst (detect_codes crop_token single_finds_hello multi_finds_hello
                       pyzbar_finds_hello ticking_clock tt
                       (Some (100, 50, 200, 200)) (mkDetector [])))
  = [str "HELLO"].
Proof.
  refine (proj1 (proj2 (detect_codes_batch_payload_unique unit crop_token
            single_finds_hello multi_finds_hello pyzbar_finds_hello
            ticking_clock tt (Some (100, 50, 200, 200)) (mkDetector []))
            (str "HELLO") hello_corners [] _ _ _ _ _)).
  - discriminate.
  - discriminate.
  - reflexivity.
  - intros i success infos pts E. inversion E. repeat constructor.
  - intros i barcodes E. inversion E. repeat constructor.
Defined.

(** ** OpenCVDetector: further properties *)

Section Pipeline.

Variable image : Type.
Variable crop : image -> rectangle -> image.
Variable detectAndDecode : image -> single_outcome.
Variable detectAndDecodeMulti : image -> multi_outcome.
Variable pyzbar_decode : image -> pyzbar_outcome.
Variable now : nat -> Q.

Lemma detect_codes_unfold (img : image) (roi : option rectangle)
    (self : OpenCVDetector) :
  detect_codes crop detectAndDecode detectAndDecodeMulti pyzbar_decode
               now img roi self
  = (fst (barcode_block pyzbar_decode now (region_image crop img roi) (now 0%nat)
            (qr_block detectAndDecode detectAndDecodeMulti now
                      (region_image crop img roi) (region_origin roi)
                      (now 0%nat) ([], 1%nat))),
     mkDetector
       (detection_history self ++
        fst (barcode_block pyzbar_decode now (region_image crop img roi)
               (now 0%nat)
               (qr_block detectAndDecode detectAndDecodeMulti now
                         (region_image crop img roi) (region_origin roi)
                         (now 0%nat) ([], 1%nat))))).
Proof.
  unfold detect_codes, region_image, region_origin.
  destruct roi as [[[[x y] w] h] |]; reflexivity.
Qed.

(** What [append_qr] does: it raises on an empty polygon, and otherwise
    appends one QR result and takes one clock reading. *)
Lemma append_qr_cases (off : point) (t0 : Q) (d : pystr)
    (points : list fpoint) (results : list DetectionResult) (k : nat) :
  (points = [] /\
   append_qr now off t0 d points (results, k) = Excepted (results, k)) \/
  (points <> [] /\
   exists r, qr_result_of now off t0 d points k r /\
             append_qr now off t0 d points (results, k)
             = Completed (results ++ [r], S k)).
Proof.
  unfold append_qr. destruct points as [| q points].
  - left. split; reflexivity.
  - right. split; [discriminate |].
    destruct (bounding_rect_some (offset_polygon off (q :: points)))
      as (rc & E); [discriminate |].
    rewrite E. eexists. split; [| reflexivity].
    repeat split; try reflexivity. exact E.
Qed.

(** *** A proof rule for the whole pipeline

    A property of the state of a call that holds at the start, is kept
    when a QR result for a payload reported by one of the QR decoders is
    appended, is kept when a barcode result for a symbol reported by
    pyzbar is appended, and is kept when a clock reading is taken for a
    duplicate, holds when the call ends. *)
Section Rule.

Variable img : image.
Variable off : point.
Variable t0 : Q.
Variable Inv : progress -> Prop.

Hypothesis keep_qr :
  forall results k d points r,
    reported_by_single detectAndDecode img d points \/
    reported_by_multi detectAndDecodeMulti img d points ->
    truthy d = true ->
    any_data d results = false ->
    Inv (results, k) ->
    qr_result_of now off t0 d points k r ->
    Inv (results ++ [r], S k).

Hypothesis keep_barcode :
  forall results k b d r,
    reported_by_pyzbar pyzbar_decode img b ->
    bc_data b = Some d ->
    any_data d results = false ->
    Inv (results, k) ->
    barcode_result_of now t0 b d k r ->
    Inv (results ++ [r], S k).

Hypothesis keep_duplicate :
  forall results k, Inv (results, k) -> Inv (results, S k).

Lemma multi_loop_rule (infos : list pystr) (points_array : list (list fpoint))
    (items : list (pystr * list fpoint)) :
  detectAndDecodeMulti img = MultiDecoded true infos points_array ->
  incl items (combine infos points_array) ->
  forall p, Inv p -> Inv (progress_of (multi_loop now off t0 items p)).
Proof.
  intros Hm. induction items as [| [d points] items IH]; intros Hincl p Hp;
    simpl; [exact Hp |].
  assert (Hrest : incl items (combine infos points_array)).
  { intros x Hx. apply Hincl. right. exact Hx. }
  destruct (truthy d && _) eqn:Et; [| apply IH; assumption].
  apply andb_true_iff in Et. destruct Et as [Et _].
  destruct p as [results k]. simpl fst.
  destruct (any_data d results) eqn:Ea; [apply IH; assumption |].
  destruct (append_qr_cases off t0 d points results k)
    as [[_ ->] | (_ & r & Hr & ->)]; [exact Hp |].
  apply IH; [exact Hrest |].
  apply (keep_qr results k d points r); try assumption.
  right. exists infos, points_array. split; [exact Hm |].
  apply Hincl. left. reflexivity.
Qed.

Lemma qr_block_rule (k : nat) :
  Inv ([], k) ->
  Inv (qr_block detectAndDecode detectAndDecodeMulti now img off t0 ([], k)).
Proof.
  intros H0. unfold qr_block.
  assert (H1 : Inv (progress_of
            (decode_single detectAndDecode now img off t0 ([], k)))).
  { unfold decode_single.
    destruct (detectAndDecode img) as [| d [pts |]] eqn:Es; try exact H0.
    - destruct (truthy d) eqn:Et; [| exact H0].
      destruct pts as [| p0 pts]; [exact H0 |].
      destruct (append_qr_cases off t0 d p0 [] k)
        as [[_ ->] | (_ & r & Hr & ->)]; [exact H0 |].
      apply (keep_qr [] k d p0 r); try assumption; try reflexivity.
      left. exists pts. exact Es.
    - destruct (truthy d); exact H0. }
  destruct (decode_single _ _ _ _ _ _) as [p1 | p1]; simpl in H1; [| exact H1].
  unfold decode_multi.
  destruct (detectAndDecodeMulti img) as [| success infos pts] eqn:Em;
    [exact H1 |].
  destruct success; [| exact H1].
  apply (multi_loop_rule infos pts); [exact Em | apply incl_refl | exact H1].
Qed.

Lemma barcode_loop_rule (all : list Barcode) (barcodes : list Barcode) :
  pyzbar_decode img = PyzbarDecoded all ->
  incl barcodes all ->
  forall p, Inv p -> Inv (progress_of (barcode_loop now t0 barcodes p)).
Proof.
  intros Hall. induction barcodes as [| b barcodes IH]; intros Hincl p Hp;
    simpl; [exact Hp |].
  assert (Hrest : incl barcodes all).
  { intros x Hx. apply Hincl. right. exact Hx. }
  destruct (bc_data b) as [d |] eqn:Ed; [| exact Hp].
  destruct p as [results k]. destruct (bc_rect b) as [[[x y] w] h] eqn:Er.
  destruct (any_data d results) eqn:Ea; simpl.
  - apply IH; [exact Hrest |]. apply keep_duplicate. exact Hp.
  - apply IH; [exact Hrest |].
    apply (keep_barcode results k b d); try assumption.
    + exists all. split; [exact Hall |]. apply Hincl. left. reflexivity.
    + repeat split; simpl; try reflexivity. symmetry. exact Er.
Qed.

Lemma barcode_block_rule (p : progress) :
  Inv p -> Inv (barcode_block pyzbar_decode now img t0 p).
Proof.
  intros Hp. unfold barcode_block.
  destruct (pyzbar_decode img) as [| | barcodes] eqn:Ep; try exact Hp.
  apply (barcode_loop_rule barcodes); [exact Ep | apply incl_refl | exact Hp].
Qed.

Lemma pipeline_rule (k : nat) :
  Inv ([], k) ->
  Inv (barcode_block pyzbar_decode now img t0
         (qr_block detectAndDecode detectAndDecodeMulti now img off t0 ([], k))).
Proof.
  intros H0. apply barcode_block_rule, qr_block_rule. exact H0.
Qed.

End Rule.

End Pipeline.

Section Coordinates.

Variable image : Type.
Variable crop : image -> rectangle -> image.
Variable detectAndDecode : image -> single_outcome.
Variable detectAndDecodeMulti : image -> multi_outcome.
Variable pyzbar_decode : image -> pyzbar_outcome.
Variable now : nat -> Q.

Lemma offset_polygon_shift (off : point) (points : list fpoint) :
  offset_polygon off points = map (shift_point off) (local_polygon points).
Proof.
  unfold offset_polygon, local_polygon. rewrite map_map. reflexivity.
Qed.

(** The results of the OpenCV QR decoders, single and multi, have the
    origin of the region added to the corners the decoder reported and to
    their bounding box. *)
Lemma qr_block_placed (img : image) (off : point) (t0 : Q) (k : nat) :
  Forall (qr_placed detectAndDecode detectAndDecodeMulti img off)
    (fst (qr_block detectAndDecode detectAndDecodeMulti now img off t0 ([], k))).
Proof.
  apply (qr_block_rule image detectAndDecode detectAndDecodeMulti now img off t0
           (fun p => Forall (qr_placed detectAndDecode detectAndDecodeMulti
                               img off) (fst p))).
  - intros results k' d points r Hrep _ _ Hinv (Hd & _ & Hp & Hb & _).
    simpl in *. apply Forall_app. split; [exact Hinv |].
    constructor; [| constructor].
    rewrite Hp, offset_polygon_shift, bounding_rect_shift in Hb.
    destruct (bounding_rect (local_polygon points)) as [lr |] eqn:El;
      [| discriminate].
    simpl in Hb. inversion Hb as [Hrect].
    exists d, points, lr. split; [exact Hrep |]. split; [exact Hd |].
    split; [exact El |]. split; [symmetry; exact Hrect |].
    rewrite Hp. apply offset_polygon_shift.
  - constructor.
Qed.

(** Where the results of one call stand: those of the QR decoders are in
    full-frame coordinates, those of pyzbar carry the coordinates of the
    image that was decoded, which is the cropped one when a region is
    given. *)
Lemma detect_codes_coordinates (img : image) (roi : option rectangle)
    (self : OpenCVDetector) :
  Forall (fun r =>
            qr_placed detectAndDecode detectAndDecodeMulti
                      (region_image crop img roi) (region_origin roi) r \/
            exists barcodes,
              pyzbar_decode (region_image crop img roi) = PyzbarDecoded barcodes /\
              barcode_verbatim barcodes r)
    (fst (detect_codes crop detectAndDecode detectAndDecodeMulti pyzbar_decode
                       now img roi self)).
Proof.
  rewrite detect_codes_unfold. simpl fst.
  pose proof (qr_block_placed (region_image crop img roi) (region_origin roi)
                (now 0%nat) 1) as Hq.
  destruct (qr_block _ _ _ _ _ _ _) as [results k]. simpl in Hq.
  match goal with |- Forall ?P _ =>
    assert (Hleft : Forall P results)
      by (eapply Forall_impl; [| exact Hq]; intros r Hr; left; exact Hr)
  end.
  unfold barcode_block.
  destruct (pyzbar_decode (region_image crop img roi)) as [| | barcodes] eqn:Ep;
    try exact Hleft.
  apply barcode_loop_verbatim; [| exact Hleft].
  intros r Hr. right. exists barcodes. split; [reflexivity | exact Hr].
Qed.

End Coordinates.

Section Provenance.

Variable image : Type.
Variable crop : image -> rectangle -> image.
Variable detectAndDecode : image -> single_outcome.
Variable detectAndDecodeMulti : image -> multi_outcome.
Variable pyzbar_decode : image -> pyzbar_outcome.
Variable now : nat -> Q.

(** X19.  [detect_codes] invents nothing: every result of the batch is
    either the QR result of a non-empty payload that the single-result or
    the multi-result decoder reported for the decoded image, with type
    ["QRCODE"], or the result of a symbol that pyzbar reported, with that
    symbol's decoded bytes, its type and its rectangle; and every result
    carries the fixed confidence 9/10. *)
Theorem detect_codes_results_accounted_for (img : image)
    (roi : option rectangle) (self : OpenCVDetector) :
  let batch :=
    fst (detect_codes crop detectAndDecode detectAndDecodeMulti pyzbar_decode
                      now img roi self) in
  Forall (accounted_for detectAndDecode detectAndDecodeMulti pyzbar_decode now
            (region_image crop img roi) (region_origin roi) (now 0%nat)) batch /\
  Forall (fun r => confidence r = 9 # 10) batch.
Proof.
  cbv zeta. rewrite detect_codes_unfold. simpl fst.
  set (P := fun r =>
         accounted_for detectAndDecode detectAndDecodeMulti pyzbar_decode now
           (region_image crop img roi) (region_origin roi) (now 0%nat) r /\
         confidence r = 9 # 10).
  assert (H : Forall P
    (fst (barcode_block pyzbar_decode now (region_image crop img roi) (now 0%nat)
            (qr_block detectAndDecode detectAndDecodeMulti now
                      (region_image crop img roi) (region_origin roi)
                      (now 0%nat) ([], 1%nat))))).
  { apply (pipeline_rule image detectAndDecode detectAndDecodeMulti
             pyzbar_decode now (region_image crop img roi) (region_origin roi)
             (now 0%nat) (fun p => Forall P (fst p))).
    - intros results k d points r Hrep Ht _ Hinv Hr. simpl in *.
      apply Forall_app. split; [exact Hinv |].
      constructor; [| constructor]. split.
      + left. exists d, points, k. repeat split; try assumption; apply Hr.
      + apply Hr.
    - intros results k b d r Hrep Hd _ Hinv Hr. simpl in *.
      apply Forall_app. split; [exact Hinv |].
      constructor; [| constructor]. split.
      + right. exists b, d, k. repeat split; try assumption; apply Hr.
      + apply Hr.
    - intros results k Hinv. exact Hinv.
    - constructor. }
  split; (eapply Forall_impl; [| exact H]); intros r [H1 H2]; assumption.
Qed.

Lemma Qle_sorted_snoc (l : list Q) (x : Q) :
  StronglySorted Qle l -> Forall (fun y => (y <= x)%Q) l ->
  StronglySorted Qle (l ++ [x]).
Proof.
  induction 1 as [| a l Hs IH Ha]; intros Hx; simpl.
  - repeat constructor.
  - inversion Hx as [| a' l' Hax Hlx]; subst.
    constructor; [apply IH; exact Hlx |].
    apply Forall_app. split; [exact Ha | repeat constructor; exact Hax].
Qed.

Lemma timed_snoc (results : list DetectionResult) (k : nat) (r : DetectionResult) :
  (forall i j, (i <= j)%nat -> (now i <= now j)%Q) ->
  timed now (results, k) ->
  detection_time r = (now k - now 0%nat)%Q ->
  timed now (results ++ [r], S k).
Proof.
  intros Hmono (Hk & Hall & Hs) Hr. unfold timed in *. simpl in *.
  split; [lia |]. split.
  - apply Forall_app. split.
    + eapply Forall_impl; [| exact Hall]. intros r' (j & Hj & E).
      exists j. split; [lia | exact E].
    + constructor; [| constructor]. exists k. split; [lia | exact Hr].
  - rewrite map_app. simpl. apply Qle_sorted_snoc; [exact Hs |].
    rewrite Forall_map. eapply Forall_impl; [| exact Hall].
    intros r' (j & Hj & E). rewrite E, Hr.
    apply Qplus_le_compat; [apply Hmono; lia | apply Qle_refl].
Qed.

(** X20.  The detection time of every result is measured from the one
    start of the call: with a clock that does not run backwards, the
    times of the batch are not negative and do not decrease along the
    batch, so a code found later never reports a shorter time than one
    found before it. *)
Theorem detect_codes_times_nondecreasing (img : image)
    (roi : option rectangle) (self : OpenCVDetector) :
  (forall i j, (i <= j)%nat -> (now i <= now j)%Q) ->
  let batch :=
    fst (detect_codes crop detectAndDecode detectAndDecodeMulti pyzbar_decode
                      now img roi self) in
  StronglySorted Qle (map detection_time batch) /\
  Forall (fun r => (0 <= detection_time r)%Q) batch.
Proof.
  intros Hmono. cbv zeta. rewrite detect_codes_unfold. simpl fst.
  assert (H : timed now
    (barcode_block pyzbar_decode now (region_image crop img roi) (now 0%nat)
       (qr_block detectAndDecode detectAndDecodeMulti now
                 (region_image crop img roi) (region_origin roi)
                 (now 0%nat) ([], 1%nat)))).
  { apply (pipeline_rule image detectAndDecode detectAndDecodeMulti
             pyzbar_decode now (region_image crop img roi) (region_origin roi)
             (now 0%nat) (timed now)).
    - intros results k d points r _ _ _ Hinv Hr.
      apply timed_snoc; try assumption. apply Hr.
    - intros results k b d r _ _ _ Hinv Hr.
      apply timed_snoc; try assumption. apply Hr.
    - intros results k (Hk & Hall & Hs). unfold timed. simpl in *.
      split; [lia |]. split; [| exact Hs].
      eapply Forall_impl; [| exact Hall]. intros r' (j & Hj & E).
      exists j. split; [lia | exact E].
    - unfold timed. simpl. split; [lia |]. split; constructor. }
  destruct H as (_ & Hall & Hs). split; [exact Hs |].
  eapply Forall_impl; [| exact Hall]. intros r (j & Hj & E). rewrite E.
  unfold Qminus. rewrite <- Qle_minus_iff. apply Hmono. lia.
Qed.

End Provenance.

Lemma detect_codes_times_nondecreasing_witness :
  StronglySorted Qle
    (map detection_time
       (fst (detect_codes crop_token single_finds_hello multi_finds_hello
                          pyzbar_finds_ean13 ticking_clock tt None
                          (mkDetector [])))).
Proof.
  refine (proj1 (detect_codes_times_nondecreasing unit crop_token
            single_finds_hello multi_finds_hello pyzbar_finds_ean13
            ticking_clock tt None (mkDetector []) _)).
  intros i j Hij. unfold ticking_clock. rewrite <- Zle_Qle. lia.
Defined.

Section Isolation.

Variable image : Type.
Variable crop : image -> rectangle -> image.
Variable detectAndDecode : image -> single_outcome.
Variable detectAndDecodeMulti : image -> multi_outcome.
Variable pyzbar_decode : image -> pyzbar_outcome.
Variable now : nat -> Q.

(** X21.  A back-end that fails counts as one that found nothing.  When
    the single-result decoder raises, the call returns what it returns
    when both QR decoders find nothing: the multi-result decoder is not
    consulted, and the barcodes are still reported.  When the
    multi-result decoder raises, the call returns what it returns when
    that decoder reports no success.  When pyzbar is not installed or
    raises, the call returns what it returns when pyzbar finds no
    symbol.  The history is extended in the same way. *)
Theorem failing_back_end_counts_as_finding_nothing (img : image)
    (roi : option rectangle) (self : OpenCVDetector) :
  (detectAndDecode (region_image crop img roi) = SingleRaises ->
   detect_codes crop detectAndDecode detectAndDecodeMulti pyzbar_decode
                now img roi self
   = detect_codes crop single_nothing multi_nothing pyzbar_decode
                  now img roi self) /\
  (detectAndDecodeMulti (region_image crop img roi) = MultiRaises ->
   detect_codes crop detectAndDecode detectAndDecodeMulti pyzbar_decode
                now img roi self
   = detect_codes crop detectAndDecode multi_nothing pyzbar_decode
                  now img roi self) /\
  (pyzbar_decode (region_image crop img roi) = PyzbarImportError \/
   pyzbar_decode (region_image crop img roi) = PyzbarRaises ->
   detect_codes crop detectAndDecode detectAndDecodeMulti pyzbar_decode
                now img roi self
   = detect_codes crop detectAndDecode detectAndDecodeMulti pyzbar_nothing
                  now img roi self).
Proof.
  rewrite !detect_codes_unfold. repeat split.
  - intros E. unfold qr_block, decode_single. rewrite E. reflexivity.
  - intros E. unfold qr_block, decode_multi. rewrite E. simpl.
    destruct (decode_single _ _ _ _ _ _); reflexivity.
  - intros [E | E]; unfold barcode_block; rewrite E; reflexivity.
Qed.

Lemma append_qr_extends (off : point) (t0 : Q) (d : pystr)
    (points : list fpoint) (p : progress) :
  exists ext, fst (progress_of (append_qr now off t0 d points p)) = fst p ++ ext.
Proof.
  destruct p as [results k].
  destruct (append_qr_cases now off t0 d points results k)
    as [[_ ->] | (_ & r & _ & ->)]; simpl.
  - exists []. rewrite app_nil_r. reflexivity.
  - exists [r]. reflexivity.
Qed.

Lemma multi_loop_extends (off : point) (t0 : Q)
    (items : list (pystr * list fpoint)) :
  forall p, exists ext,
    fst (progress_of (multi_loop now off t0 items p)) = fst p ++ ext.
Proof.
  induction items as [| [d points] items IH]; intros p; simpl.
  - exists []. rewrite app_nil_r. reflexivity.
  - destruct (truthy d && _); [| apply IH].
    destruct (any_data d (fst p)); [apply IH |].
    destruct (append_qr_extends off t0 d points p) as (e1 & E1).
    destruct (append_qr now off t0 d points p) as [p' | p']; simpl in E1.
    + destruct (IH p') as (e2 & E2). exists (e1 ++ e2).
      rewrite E2, E1, app_assoc. reflexivity.
    + exists e1. exact E1.
Qed.

Lemma barcode_loop_extends (t0 : Q) (barcodes : list Barcode) :
  forall p, exists ext,
    fst (progress_of (barcode_loop now t0 barcodes p)) = fst p ++ ext.
Proof.
  induction barcodes as [| b barcodes IH]; intros p; simpl.
  - exists []. rewrite app_nil_r. reflexivity.
  - destruct (bc_data b) as [d |];
      [| exists []; rewrite app_nil_r; reflexivity].
    destruct p as [results k]. destruct (bc_rect b) as [[[x y] w] h].
    destruct (any_data d results); simpl.
    + apply (IH (results, S k)).
    + match goal with |- context [barcode_loop now t0 barcodes (?rs, S k)] =>
        destruct (IH (rs, S k)) as (e & E)
      end.
      simpl in E. rewrite E, <- app_assoc. eexists. reflexivity.
Qed.

Lemma barcode_block_extends (img : image) (t0 : Q) (p : progress) :
  exists ext, fst (barcode_block pyzbar_decode now img t0 p) = fst p ++ ext.
Proof.
  unfold barcode_block.
  destruct (pyzbar_decode img);
    try (exists []; rewrite app_nil_r; reflexivity).
  apply barcode_loop_extends.
Qed.

(** Once a symbol whose bytes decode has been gone over, its payload is
    among the results. *)
Lemma barcode_loop_reports (t0 : Q) (pre : list Barcode) (b : Barcode)
    (post : list Barcode) (d : pystr) :
  Forall (fun b' => bc_data b' <> None) pre ->
  bc_data b = Some d ->
  forall p,
    In d (map data
            (fst (progress_of (barcode_loop now t0 (pre ++ b :: post) p)))).
Proof.
  intros Hpre Hd. induction Hpre as [| b' pre Hb' _ IH]; intros p; simpl.
  - rewrite Hd. destruct p as [results k].
    destruct (bc_rect b) as [[[x y] w] h].
    destruct (any_data d results) eqn:Ea; simpl.
    + destruct (barcode_loop_extends t0 post (results, S k)) as (e & ->).
      simpl. rewrite map_app. apply in_or_app. left.
      apply any_data_true_iff. exact Ea.
    + match goal with |- context [barcode_loop now t0 post (?rs, S k)] =>
        destruct (barcode_loop_extends t0 post (rs, S k)) as (e & ->)
      end.
      simpl. rewrite !map_app. apply in_or_app. left.
      apply in_or_app. right. left. reflexivity.
  - destruct (bc_data b') as [d' |]; [| congruence].
    destruct p as [results k]. destruct (bc_rect b') as [[[x y] w] h].
    destruct (any_data d' results); simpl; apply IH.
Qed.

(** X22.  Nothing that is found is lost.  A non-empty payload that the
    single-result decoder reports with a non-empty list of corners is in
    the batch, whatever the other back-ends do afterwards; and every
    symbol that pyzbar reports, up to the first one whose bytes are not
    UTF-8, has its payload in the batch. *)
Theorem detect_codes_keeps_every_reported_payload (img : image)
    (roi : option rectangle) (self : OpenCVDetector) :
  let batch :=
    fst (detect_codes crop detectAndDecode detectAndDecodeMulti pyzbar_decode
                      now img roi self) in
  (forall d p0 rest,
     detectAndDecode (region_image crop img roi)
       = SingleDecoded d (Some (p0 :: rest)) ->
     d <> [] -> p0 <> [] ->
     In d (map data batch)) /\
  (forall pre b post d,
     pyzbar_decode (region_image crop img roi)
       = PyzbarDecoded (pre ++ b :: post) ->
     Forall (fun b' => bc_data b' <> None) pre ->
     bc_data b = Some d ->
     In d (map data batch)).
Proof.
  cbv zeta. rewrite detect_codes_unfold. simpl fst. split.
  - intros d p0 rest Es Hd Hp.
    match goal with |- context [barcode_block _ _ ?i ?t ?p] =>
      destruct (barcode_block_extends i t p) as (e & ->)
    end.
    rewrite map_app. apply in_or_app. left.
    unfold qr_block, decode_single. rewrite Es.
    destruct d as [| c d]; [congruence |]. simpl truthy. cbv iota.
    destruct (append_qr_cases now (region_origin roi) (now 0%nat) (c :: d) p0
                [] 1) as [[E _] | (_ & r & Hr & ->)]; [congruence |].
    unfold decode_multi.
    destruct (detectAndDecodeMulti _) as [| success infos pts];
      [simpl; left; apply Hr |].
    destruct success; [| simpl; left; apply Hr].
    match goal with |- context [multi_loop now ?o ?t ?items ?p] =>
      destruct (multi_loop_extends o t items p) as (e2 & ->)
    end.
    simpl. left. apply Hr.
  - intros pre b post d Ep Hpre Hd. unfold barcode_block. rewrite Ep.
    apply barcode_loop_reports; assumption.
Qed.

End Isolation.

Lemma failing_back_end_counts_as_finding_nothing_witness :
  fst (detect_codes crop_token (fun _ => SingleRaises) multi_finds_hello
                    pyzbar_finds_ean13 ticking_clock tt None (mkDetector []))
  = fst (detect_codes crop_token single_nothing multi_nothing
                      pyzbar_finds_ean13 ticking_clock tt None (mkDetector [])).
Proof.
  rewrite (proj1 (failing_back_end_counts_as_finding_nothing unit crop_token
                    (fun _ => SingleRaises) multi_finds_hello pyzbar_finds_ean13
                    ticking_clock tt None (mkDetector [])) eq_refl).
  reflexivity.
Defined.

Lemma detect_codes_keeps_every_reported_payload_witness :
  In (str "4006381333931")
     (map data
        (fst (detect_codes crop_token single_finds_hello multi_finds_hello
                           pyzbar_finds_ean13 ticking_clock tt None
                           (mkDetector [])))).
Proof.
  refine (proj2 (detect_codes_keeps_every_reported_payload unit crop_token
            single_finds_hello multi_finds_hello pyzbar_finds_ean13
            ticking_clock tt None (mkDetector []))
            [] _ [] (str "4006381333931") eq_refl _ eq_refl).
  constructor.
Defined.

(** *** Statistics over the history *)

Lemma insert_sorted_perm (s : pystr) (l : list pystr) :
  Permutation (insert_sorted s l) (s :: l).
Proof.
  induction l as [| h t IH]; simpl; [reflexivity |].
  destruct (pystr_leb s h); [reflexivity |].
  rewrite IH. apply perm_swap.
Qed.

Lemma sort_strings_perm (l : list pystr) : Permutation (sort_strings l) l.
Proof.
  induction l as [| s l IH]; simpl; [reflexivity |].
  rewrite insert_sorted_perm, IH. reflexivity.
Qed.

Lemma indicator_sum_absent (a : pystr) (keys : list pystr) :
  ~ In a keys ->
  fold_right Z.add 0
    (map (fun k => if pystr_eq_dec a k then 1 else 0) keys) = 0.
Proof.
  induction keys as [| k keys IH]; simpl; intros Hn; [reflexivity |].
  rewrite IH by tauto.
  destruct (pystr_eq_dec a k) as [E | E]; [| reflexivity].
  exfalso. apply Hn. left. symmetry. exact E.
Qed.

Lemma indicator_sum (a : pystr) (keys : list pystr) :
  NoDup keys -> In a keys ->
  fold_right Z.add 0
    (map (fun k => if pystr_eq_dec a k then 1 else 0) keys) = 1.
Proof.
  induction 1 as [| k keys Hk Hnd IH]; simpl; intros Hin; [contradiction |].
  destruct (pystr_eq_dec a k) as [E | E].
  - subst k. rewrite indicator_sum_absent by exact Hk. reflexivity.
  - destruct Hin as [Hin | Hin]; [congruence |]. rewrite IH by exact Hin.
    reflexivity.
Qed.

Lemma count_sum (l keys : list pystr) :
  NoDup keys ->
  (forall x, In x l -> In x keys) ->
  fold_right Z.add 0
    (map (fun k => Z.of_nat (count_occ pystr_eq_dec l k)) keys)
  = Z.of_nat (length l).
Proof.
  intros Hnd. induction l as [| a l IH]; intros Hin.
  - simpl. clear Hnd Hin.
    induction keys as [| k keys IHk]; simpl; [reflexivity | exact IHk].
  - assert (Hsplit : forall ks,
      fold_right Z.add 0
        (map (fun k => Z.of_nat (count_occ pystr_eq_dec (a :: l) k)) ks)
      = fold_right Z.add 0
          (map (fun k => if pystr_eq_dec a k then 1 else 0) ks)
        + fold_right Z.add 0
            (map (fun k => Z.of_nat (count_occ pystr_eq_dec l k)) ks)).
    { induction ks as [| k ks IHk]; simpl; [reflexivity |].
      simpl in IHk. rewrite IHk.
      destruct (pystr_eq_dec a k); lia. }
    rewrite Hsplit, indicator_sum;
      [| exact Hnd | apply Hin; left; reflexivity].
    rewrite IH by (intros x Hx; apply Hin; right; exact Hx).
    simpl length. lia.
Qed.

Lemma np_unique_counts_spec (l : list pystr) :
  fold_right Z.add 0 (map snd (np_unique_counts l)) = Z.of_nat (length l) /\
  NoDup (map fst (np_unique_counts l)) /\
  (forall k n, In (k, n) (np_unique_counts l) <->
               In k l /\ n = Z.of_nat (count_occ pystr_eq_dec l k)).
Proof.
  unfold np_unique_counts.
  pose proof (sort_strings_perm (nodup pystr_eq_dec l)) as Hp.
  assert (Hnd : NoDup (sort_strings (nodup pystr_eq_dec l))).
  { eapply Permutation_NoDup; [symmetry; exact Hp | apply NoDup_nodup]. }
  assert (Hin : forall x, In x (sort_strings (nodup pystr_eq_dec l)) <-> In x l).
  { intros x. split; intros H.
    - apply (nodup_In pystr_eq_dec).
      eapply Permutation_in; [exact Hp | exact H].
    - eapply Permutation_in; [symmetry; exact Hp |].
      apply (nodup_In pystr_eq_dec). exact H. }
  split; [| split].
  - rewrite map_map. simpl. apply count_sum; [exact Hnd |].
    intros x Hx. apply Hin. exact Hx.
  - rewrite map_map. simpl. rewrite map_id. exact Hnd.
  - intros k n. rewrite in_map_iff. split.
    + intros (k' & E & Hk'). inversion E; subst. split; [| reflexivity].
      apply Hin. exact Hk'.
    + intros [Hk ->]. exists k. split; [reflexivity |]. apply Hin. exact Hk.
Qed.

Section StatisticsFacts.

Variable np_mean : list Q -> Q.

(** X23.  The statistics always hold the total, which is the length of
    the history.  For an empty history they hold nothing else, so every
    other key is missing.  Otherwise the per-type counts have one entry
    for each type that occurs, once, with the number of results of that
    type, and the counts add up to the total. *)
Theorem statistics_counts_add_up (self : OpenCVDetector) :
  lookup "total_detections" (get_detection_statistics np_mean self)
    = Some (StatInt (Z.of_nat (length (detection_history self)))) /\
  (detection_history self = [] ->
   forall k, k <> "total_detections"%string ->
             lookup k (get_detection_statistics np_mean self) = None) /\
  (detection_history self <> [] ->
   exists counts,
     lookup "code_types" (get_detection_statistics np_mean self)
       = Some (StatCounts counts) /\
     fold_right Z.add 0 (map snd counts)
       = Z.of_nat (length (detection_history self)) /\
     NoDup (map fst counts) /\
     (forall k n,
        In (k, n) counts <->
        In k (map type (detection_history self)) /\
        n = Z.of_nat (count_occ pystr_eq_dec
                        (map type (detection_history self)) k))).
Proof.
  unfold get_detection_statistics.
  destruct (detection_history self) as [| r h] eqn:Eh.
  - split; [reflexivity |]. split; [| congruence].
    intros _ k Hk. simpl.
    destruct (String.eqb k "total_detections") eqn:E; [| reflexivity].
    apply String.eqb_eq in E. congruence.
  - split; [reflexivity |]. split; [discriminate |].
    intros _. eexists. split; [reflexivity |].
    destruct (np_unique_counts_spec (map type (r :: h))) as (H1 & H2 & H3).
    rewrite length_map in H1.
    split; [exact H1 |]. split; [exact H2 | exact H3].
Qed.

End StatisticsFacts.

Lemma statistics_counts_add_up_witness :
  lookup "average_confidence"
    (get_detection_statistics rational_mean (mkDetector [])) = None.
Proof.
  apply (proj1 (proj2 (statistics_counts_add_up rational_mean (mkDetector [])))).
  - reflexivity.
  - discriminate.
Defined.

Section ConfidenceOfBatch.

Variable image : Type.
Variable crop : image -> rectangle -> image.
Variable detectAndDecode : image -> single_outcome.
Variable detectAndDecodeMulti : image -> multi_outcome.
Variable pyzbar_decode : image -> pyzbar_outcome.
Variable now : nat -> Q.

Lemma detect_codes_confidence (img : image) (roi : option rectangle)
    (self : OpenCVDetector) :
  Forall (fun r => confidence r = 9 # 10)
    (fst (detect_codes crop detectAndDecode detectAndDecodeMulti pyzbar_decode
                       now img roi self)).
Proof.
  rewrite detect_codes_unfold. simpl fst.
  apply (pipeline_rule image detectAndDecode detectAndDecodeMulti
           pyzbar_decode now (region_image crop img roi) (region_origin roi)
           (now 0%nat)
           (fun p => Forall (fun r => confidence r = 9 # 10) (fst p))).
  - intros results k d points r _ _ _ Hinv Hr. simpl in *.
    apply Forall_app. split; [exact Hinv |]. repeat constructor. apply Hr.
  - intros results k b d r _ _ _ Hinv Hr. simpl in *.
    apply Forall_app. split; [exact Hinv |]. repeat constructor. apply Hr.
  - intros results k Hinv. exact Hinv.
  - constructor.
Qed.

End ConfidenceOfBatch.

Lemma reachable_history_confidence (self : OpenCVDetector) :
  detector_reachable self ->
  Forall (fun r => confidence r = 9 # 10) (detection_history self).
Proof.
  induction 1 as [| image crop dAD dADM pyz now img roi self Hr IH | self Hr IH].
  - constructor.
  - rewrite detect_codes_unfold. simpl. apply Forall_app. split; [exact IH |].
    pose proof (detect_codes_confidence image crop dAD dADM pyz now img roi self)
      as Hc.
    rewrite detect_codes_unfold in Hc. exact Hc.
  - constructor.
Qed.

(** X24.  The confidence is a constant, not a measurement: in every
    detector that calls of [detect_codes], with whatever back-ends, and of
    [clear_history] produce from a new one, every result of the history
    carries the confidence 9/10, so the confidences that the statistics
    average are all the same value. *)
Theorem history_confidence_is_the_constant (self : OpenCVDetector) :
  detector_reachable self ->
  Forall (fun r => confidence r = 9 # 10) (detection_history self) /\
  map confidence (detection_history self)
  = repeat (9 # 10) (length (detection_history self)).
Proof.
  intros Hr. pose proof (reachable_history_confidence self Hr) as Hc.
  split; [exact Hc |].
  induction Hc as [| r h Hr' _ IH]; simpl; [reflexivity |].
  rewrite Hr', IH. reflexivity.
Qed.

Lemma history_confidence_is_the_constant_witness :
  map confidence
    (detection_history
       (snd (detect_codes crop_token single_finds_hello multi_finds_hello
                          pyzbar_finds_ean13 ticking_clock tt None
                          (snd (detect_codes crop_token single_finds_hello
                                  multi_finds_hello pyzbar_finds_hello
                                  ticking_clock tt None (mkDetector []))))))
  = repeat (9 # 10) 3.
Proof.
  refine (proj2 (history_confidence_is_the_constant _ _)).
  apply reach_detect_codes. apply reach_detect_codes. apply reach_new_detector.
Defined.

Lemma q_max_upper (a b : Q) : (a <= q_max a b)%Q /\ (b <= q_max a b)%Q.
Proof.
  unfold q_max. destruct (Qle_bool a b) eqn:E.
  - apply Qle_bool_iff in E. split; [exact E | apply Qle_refl].
  - split; [apply Qle_refl |]. apply Qlt_le_weak, Qnot_le_lt.
    intros H. apply Qle_bool_iff in H. congruence.
Qed.

Lemma q_min_lower (a b : Q) : (q_min a b <= a)%Q /\ (q_min a b <= b)%Q.
Proof.
  unfold q_min. destruct (Qle_bool a b) eqn:E.
  - apply Qle_bool_iff in E. split; [apply Qle_refl | exact E].
  - split; [| apply Qle_refl]. apply Qlt_le_weak, Qnot_le_lt.
    intros H. apply Qle_bool_iff in H. congruence.
Qed.

Lemma fold_q_max_bounds (l : list Q) :
  forall x,
    (x <= fold_left q_max l x)%Q /\
    Forall (fun y => (y <= fold_left q_max l x)%Q) l /\
    In (fold_left q_max l x) (x :: l).
Proof.
  induction l as [| a l IH]; intros x; simpl.
  - split; [apply Qle_refl |]. split; [constructor | left; reflexivity].
  - destruct (IH (q_max x a)) as (H1 & H2 & H3).
    destruct (q_max_upper x a) as [Hx Ha].
    split; [eapply Qle_trans; eassumption |].
    split; [constructor; [eapply Qle_trans; eassumption | exact H2] |].
    destruct H3 as [H3 | H3]; [| right; right; exact H3].
    rewrite <- H3. unfold q_max. destruct (Qle_bool x a); tauto.
Qed.

Lemma fold_q_min_bounds (l : list Q) :
  forall x,
    (fold_left q_min l x <= x)%Q /\
    Forall (fun y => (fold_left q_min l x <= y)%Q) l /\
    In (fold_left q_min l x) (x :: l).
Proof.
  induction l as [| a l IH]; intros x; simpl.
  - split; [apply Qle_refl |]. split; [constructor | left; reflexivity].
  - destruct (IH (q_min x a)) as (H1 & H2 & H3).
    destruct (q_min_lower x a) as [Hx Ha].
    split; [eapply Qle_trans; eassumption |].
    split; [constructor; [eapply Qle_trans; eassumption | exact H2] |].
    destruct H3 as [H3 | H3]; [| right; right; exact H3].
    rewrite <- H3. unfold q_min. destruct (Qle_bool x a); tauto.
Qed.

Lemma np_min_max_bounds (l : list Q) :
  l <> [] ->
  Forall (fun y => (np_min l <= y)%Q /\ (y <= np_max l)%Q) l /\
  In (np_min l) l /\ In (np_max l) l.
Proof.
  destruct l as [| x l]; [congruence |]. intros _.
  unfold np_min, np_max. cbn [hd tl].
  destruct (fold_q_max_bounds l x) as (Hx1 & Hl1 & Hin1).
  destruct (fold_q_min_bounds l x) as (Hx2 & Hl2 & Hin2).
  split; [| split; assumption].
  constructor; [split; assumption |].
  rewrite Forall_forall in *. intros y Hy. split; auto.
Qed.

Section TimeStatistics.

Variable np_mean : list Q -> Q.

(** X25.  For a non-empty history the minimum and the maximum of the
    time statistics are detection times of results in the history, every
    detection time of the history lies between them, and the minimum is
    at most the maximum.  The average is what [np.mean] makes of the
    detection times in the order of the history; it is computed in
    float64 and nothing is said of where it lies. *)
Theorem time_statistics_are_ordered (self : OpenCVDetector) :
  detection_history self <> [] ->
  exists lo hi,
    lookup "min_detection_time" (get_detection_statistics np_mean self)
      = Some (StatFloat lo) /\
    lookup "max_detection_time" (get_detection_statistics np_mean self)
      = Some (StatFloat hi) /\
    lookup "average_detection_time" (get_detection_statistics np_mean self)
      = Some (StatFloat
                (np_mean (map detection_time (detection_history self)))) /\
    (lo <= hi)%Q /\
    In lo (map detection_time (detection_history self)) /\
    In hi (map detection_time (detection_history self)) /\
    Forall (fun r => (lo <= detection_time r)%Q /\ (detection_time r <= hi)%Q)
           (detection_history self).
Proof.
  intros Hne. unfold get_detection_statistics.
  destruct (detection_history self) as [| r h] eqn:Eh; [congruence |].
  destruct (np_min_max_bounds (map detection_time (r :: h)))
    as (Hall & Hlo & Hhi); [discriminate |].
  eexists. eexists.
  split; [reflexivity |]. split; [reflexivity |]. split; [reflexivity |].
  split; [| split; [exact Hlo | split; [exact Hhi |]]].
  - inversion Hall as [| y l [H1 H2] _]. eapply Qle_trans; eassumption.
  - rewrite Forall_forall in *. intros r' Hr'.
    apply Hall. apply in_map. exact Hr'.
Qed.

End TimeStatistics.

Lemma time_statistics_are_ordered_witness :
  exists lo hi,
    lookup "min_detection_time"
      (get_detection_statistics rational_mean
         (snd (detect_codes crop_token single_finds_hello multi_finds_hello
                            pyzbar_finds_ean13 ticking_clock tt None
                            (mkDetector []))))
      = Some (StatFloat lo) /\
    lookup "max_detection_time"
      (get_detection_statistics rational_mean
         (snd (detect_codes crop_token single_finds_hello multi_finds_hello
                            pyzbar_finds_ean13 ticking_clock tt None
                            (mkDetector []))))
      = Some (StatFloat hi) /\
    (lo <= hi)%Q.
Proof.
  destruct (time_statistics_are_ordered rational_mean
              (snd (detect_codes crop_token single_finds_hello multi_finds_hello
                                 pyzbar_finds_ean13 ticking_clock tt None
                                 (mkDetector []))))
    as (lo & hi & H1 & H2 & _ & H4 & _).
  - discriminate.
  - exists lo, hi. repeat split; assumption.
Defined.

Section History.

Variable image : Type.
Variable crop : image -> rectangle -> image.
Variable detectAndDecode : image -> single_outcome.
Variable detectAndDecodeMulti : image -> multi_outcome.
Variable pyzbar_decode : image -> pyzbar_outcome.
Variable now : nat -> Q.

(** X26.  The batch of a call does not depend on the detector's history,
    and the history is only ever extended by the batch.  Payloads are
    unique within one batch but not across calls: two calls on the same
    frame put every result into the history twice, so that with a
    non-empty batch the payloads of the history are no longer distinct.
    [clear_history] empties it. *)
Theorem history_accumulates_across_calls (img : image)
    (roi : option rectangle) (self other : OpenCVDetector) :
  let call := detect_codes crop detectAndDecode detectAndDecodeMulti
                           pyzbar_decode now img roi in
  fst (call self) = fst (call other) /\
  detection_history (snd (call self))
    = detection_history self ++ fst (call self) /\
  detection_history (snd (call (snd (call self))))
    = detection_history self ++ fst (call self) ++ fst (call self) /\
  (fst (call self) <> [] ->
   ~ NoDup (map data (detection_history (snd (call (snd (call self))))))) /\
  detection_history (clear_history (snd (call self))) = [].
Proof.
  cbv zeta. rewrite !detect_codes_unfold. simpl.
  set (batch := fst (barcode_block _ _ _ _ _)).
  repeat split.
  - rewrite <- app_assoc. reflexivity.
  - intros Hne Hnd. rewrite <- app_assoc, map_app in Hnd.
    apply NoDup_app_remove_l in Hnd. rewrite map_app in Hnd.
    destruct batch as [| r batch]; [congruence |].
    simpl in Hnd. inversion Hnd as [| ? ? Hnotin _]; subst.
    apply Hnotin. apply in_or_app. right. left. reflexivity.
Qed.

End History.

Lemma history_accumulates_across_calls_witness :
  ~ NoDup
      (map data
         (detection_history
            (snd (detect_codes crop_token single_finds_hello multi_finds_hello
                    pyzbar_finds_hello ticking_clock tt None
                    (snd (detect_codes crop_token single_finds_hello
                            multi_finds_hello pyzbar_finds_hello ticking_clock
                            tt None (mkDetector []))))))).
Proof.
  apply (proj1 (proj2 (proj2 (proj2
           (history_accumulates_across_calls unit crop_token single_finds_hello
              multi_finds_hello pyzbar_finds_hello ticking_clock tt None
              (mkDetector []) (mkDetector [])))))).
  discriminate.
Defined.

(** *** Annotation *)

(** X27.  The payload shown in a label is never longer than 80
    characters: a payload of up to 80 characters is shown whole, and a
    longer one is cut to its first 77 characters followed by three
    dots. *)
Theorem displayed_payload_is_bounded (d : pystr) :
  (length (data_display d) <= 80)%nat /\
  ((length d <= 80)%nat -> data_display d = d) /\
  ((80 < length d)%nat ->
   length (data_display d) = 80%nat /\
   firstn 77 (data_display d) = firstn 77 d /\
   skipn 77 (data_display d) = str "...").
Proof.
  unfold data_display.
  destruct (length d <=? 80)%nat eqn:E.
  - apply Nat.leb_le in E. repeat split; try assumption; lia.
  - apply Nat.leb_gt in E.
    assert (Hf : length (firstn 77 d) = 77%nat)
      by (rewrite length_firstn; lia).
    split; [rewrite length_app, Hf; simpl; lia |].
    split; [lia |]. intros _.
    split; [rewrite length_app, Hf; reflexivity |]. split.
    + rewrite firstn_app, Hf, Nat.sub_diag, firstn_O, app_nil_r, firstn_firstn.
      reflexivity.
    + rewrite skipn_app, Hf, Nat.sub_diag.
      rewrite skipn_all2 by lia. reflexivity.
Qed.

Section Layout.

Variable text_width : pystr -> Z.
Variable format_percent : Q -> pystr.

Lemma texts_drawn_app (a b : list drawing) :
  texts_drawn (a ++ b) = texts_drawn a ++ texts_drawn b.
Proof.
  induction a as [| d a IH]; simpl; [reflexivity |].
  destruct d; simpl; rewrite IH; reflexivity.
Qed.

(** X28.  Each result is annotated by eight drawing calls, and its label
    block never overlaps the code's rectangle: for a rectangle at height
    [y] that is [h] high, the block, 110 high, ends exactly at [y] when
    there is room for it above (and then starts below the top edge of
    the image), and otherwise starts exactly at [y + h]; the four label
    lines are written 25, 50, 75 and 100 below the top of the block,
    inside it, the payload last. *)
Theorem label_block_clear_of_rectangle (results : list DetectionResult) :
  length (draw_detections text_width format_percent results)
    = (8 * length results)%nat /\
  (forall r x y w h,
     In r results -> rect r = (x, y, w, h) ->
     let top := label_top 4 y h in
     ((110 < y /\ top = y - 110 /\ 0 < top /\ top + total_height 4 = y) \/
      (y <= 110 /\ top = y + h)) /\
     texts_drawn (draw_one text_width format_percent r)
     = [ (str "Type: " ++ type r, top + 25);
         (str "Confidence: " ++ format_percent (confidence r), top + 50);
         (str "Content:", top + 75);
         (data_display (data r), top + 100) ]).
Proof.
  split.
  - unfold draw_detections. induction results as [| r results IH];
      [reflexivity |].
    simpl flat_map. rewrite length_app, IH.
    assert (H8 : length (draw_one text_width format_percent r) = 8%nat).
    { unfold draw_one. destruct (rect r) as [[[x y] w] h]. reflexivity. }
    rewrite H8. simpl length. lia.
  - intros r x y w h _ Hr. cbv zeta. split.
    + unfold label_top, total_height, line_height.
      destruct (0 <? y - (Z.of_nat 4 * 25 + 10)) eqn:E.
      * apply Z.ltb_lt in E. left. lia.
      * apply Z.ltb_ge in E. right. lia.
    + unfold draw_one. rewrite Hr. simpl.
      unfold line_height. rewrite Z.add_0_r, <- !Z.add_assoc. reflexivity.
Qed.

End Layout.

Lemma label_block_clear_of_rectangle_witness :
  texts_drawn
    (draw_one (fun s => Z.of_nat (length s)) (fun _ => str "90.0%")
       (mkResult (str "HELLO") (str "QRCODE") (10, 20, 30, 40) [] (9 # 10) 0))
  = [ (str "Type: QRCODE", 85); (str "Confidence: 90.0%", 110);
      (str "Content:", 135); (str "HELLO", 160) ].
Proof.
  pose proof (proj2 (label_block_clear_of_rectangle
                       (fun s => Z.of_nat (length s)) (fun _ => str "90.0%")
                       [mkResult (str "HELLO") (str "QRCODE") (10, 20, 30, 40)
                                 [] (9 # 10) 0])
                    _ 10 20 30 40 (or_introl eq_refl) eq_refl) as H.
  exact (proj2 H).
Defined.

End DetectorFacts.

(** ** ResultExporter *)

Module ExporterFacts.
Import Detector Exporter DetectorFacts.

Lemma any_entry_spec (d : pystr) (history : list entry) :
  Forall (fun e => lookup "data" e <> None) history ->
  exists b, any_entry d history = Some b /\
            (b = true <-> In d (map get_data history)).
Proof.
  induction 1 as [| e history He _ IH]; simpl.
  - exists false. split; [reflexivity |]. split; [discriminate | tauto].
  - unfold get_data at 1. destruct (lookup "data" e) as [d' |]; [| congruence].
    destruct (pystr_eqb d' d) eqn:E.
    + exists true. split; [reflexivity |]. split; [| reflexivity].
      intros _. left. apply pystr_eqb_eq. exact E.
    + destruct IH as (b & Hb & Hiff). exists b. split; [exact Hb |].
      rewrite Hiff. split; [tauto |].
      intros [H | H]; [| exact H].
      apply pystr_eqb_eq in H. congruence.
Qed.

Lemma add_results_spec (results : list DetectionResult) :
  forall self : ResultExporter,
    well_formed (results_history self) ->
    exists self',
      add_results results self = Done self' /\
      well_formed (results_history self') /\
      (exists ext, results_history self' = results_history self ++ ext /\
                   (length ext <= length results)%nat) /\
      (forall d, In d (payloads self') <->
                 In d (payloads self) \/ In d (map data results)).
Proof.
  induction results as [| r results IH]; intros self [Hd Hn].
  - exists self. split; [reflexivity |]. split; [split; assumption |].
    split; [exists []; rewrite app_nil_r; split; [reflexivity | simpl; lia] |].
    intros d. simpl. tauto.
  - simpl add_results.
    destruct (any_entry_spec (data r) (results_history self) Hd)
      as (b & -> & Hb).
    destruct b.
    + destruct (IH self (conj Hd Hn)) as (self' & E & Hwf & (ext & He & Hl) & Hin).
      exists self'. split; [exact E |]. split; [exact Hwf |].
      split; [exists ext; split; [exact He | simpl; lia] |].
      intros d. rewrite Hin. simpl. split; [tauto |].
      intros [H | [H | H]]; try tauto. subst d. left.
      apply Hb. reflexivity.
    + set (self1 := mkExporter
                      (results_history self ++ [[("data"%string, data r)]])).
      assert (Hwf1 : well_formed (results_history self1)).
      { unfold self1. simpl. split.
        - apply Forall_app. split; [exact Hd |].
          constructor; [| constructor]. simpl. discriminate.
        - rewrite map_app. simpl. apply NoDup_app; [exact Hn | | ].
          + repeat constructor. intros [].
          + intros a Ha [<- | []].
            assert (Hf : false = true) by (apply Hb; exact Ha).
            discriminate Hf. }
      destruct (IH self1 Hwf1) as (self' & E & Hwf & (ext & He & Hl) & Hin).
      exists self'. split; [exact E |]. split; [exact Hwf |]. split.
      * exists ([("data"%string, data r)] :: ext). split; [| simpl; lia].
        rewrite He. unfold self1. simpl. rewrite <- app_assoc. reflexivity.
      * intros d. rewrite Hin. unfold payloads, self1. simpl.
        rewrite map_app, in_app_iff. simpl. tauto.
Qed.

Lemma add_results_known (results : list DetectionResult) (self : ResultExporter) :
  well_formed (results_history self) ->
  Forall (fun r => In (data r) (payloads self)) results ->
  add_results results self = Done self.
Proof.
  intros [Hd Hn]. induction 1 as [| r results Hr _ IH]; simpl.
  - reflexivity.
  - destruct (any_entry_spec (data r) (results_history self) Hd)
      as (b & -> & Hb).
    destruct b; [exact IH |].
    assert (Hf : false = true) by (apply Hb; exact Hr). discriminate Hf.
Qed.

Lemma reachable_well_formed (self : ResultExporter) :
  reachable self -> well_formed (results_history self).
Proof.
  induction 1 as [| results self self' _ IH E | self _ IH].
  - split; constructor.
  - destruct (add_results_spec results self IH) as (s & E' & Hwf & _).
    rewrite E in E'. inversion E'. subst. exact Hwf.
  - split; constructor.
Qed.

(** X29.  For every exporter that [add_results] and [clear_history]
    produce from a new one, [add_results] returns without raising; the
    stored payloads stay pairwise distinct, whatever duplicates the batch
    holds; the history from before is kept in place and at most one entry
    per result is added behind it; the payloads stored afterwards are
    those stored before and those of the batch; and adding the same batch
    again changes nothing. *)
Theorem add_results_keeps_payloads_distinct
    (results : list DetectionResult) (self : ResultExporter) :
  reachable self ->
  exists self',
    add_results results self = Done self' /\
    NoDup (payloads self') /\
    (exists ext, results_history self' = results_history self ++ ext /\
                 (length ext <= length results)%nat) /\
    (forall d, In d (payloads self') <->
               In d (payloads self) \/ In d (map data results)) /\
    add_results results self' = Done self'.
Proof.
  intros Hr. pose proof (reachable_well_formed self Hr) as Hwf.
  destruct (add_results_spec results self Hwf)
    as (self' & E & Hwf' & Hext & Hin).
  exists self'. split; [exact E |]. split; [apply Hwf' |].
  split; [exact Hext |]. split; [exact Hin |].
  apply add_results_known; [exact Hwf' |].
  rewrite Forall_forall. intros r Hr'. apply Hin. right.
  apply in_map. exact Hr'.
Qed.

Lemma add_results_keeps_payloads_distinct_witness :
  exists self',
    add_results
      [mkResult (str "A") (str "QRCODE") (0, 0, 1, 1) [] (9 # 10) 0;
       mkResult (str "B") (str "EAN13") (0, 0, 1, 1) [] (9 # 10) 0;
       mkResult (str "A") (str "QRCODE") (5, 5, 1, 1) [] (9 # 10) 0]
      init = Done self' /\
    NoDup (payloads self').
Proof.
  destruct (add_results_keeps_payloads_distinct
              [mkResult (str "A") (str "QRCODE") (0, 0, 1, 1) [] (9 # 10) 0;
               mkResult (str "B") (str "EAN13") (0, 0, 1, 1) [] (9 # 10) 0;
               mkResult (str "A") (str "QRCODE") (5, 5, 1, 1) [] (9 # 10) 0]
              init reach_new)
    as (self' & E & Hn & _).
  exists self'. split; assumption.
Defined.

Lemma sequence_app (a b : list (option write)) :
  sequence (a ++ b)
  = match sequence a, sequence b with
    | Some x, Some y => Some (x ++ y)
    | _, _ => None
    end.
Proof.
  induction a as [| [w |] a IH]; simpl.
  - destruct (sequence b); reflexivity.
  - rewrite IH. destruct (sequence a), (sequence b); reflexivity.
  - reflexivity.
Qed.

Lemma str_cell_writable (row col : Z) (value : pystr) :
  str_cell row col value
  = if writable value
    then Some (row, col, CellStr (firstn max_cell_length value))
    else None.
Proof.
  unfold str_cell, check_string. destruct (writable value); reflexivity.
Qed.

Lemma column_values_cons (c row col : Z) (v : cell) (ws : list write) :
  column_values c ((row, col, v) :: ws)
  = if (col =? c) && (1 <? row)
    then v :: column_values c ws
    else column_values c ws.
Proof.
  unfold column_values. cbn [filter fst snd].
  destruct ((col =? c) && (1 <? row)); reflexivity.
Qed.

(** The data rows: they are written when every payload can be, and then
    hold the serial numbers beside the cell texts. *)
Lemma data_writes_sequence (items : list entry) :
  forall row, 1 < row ->
    (forallb (fun item => writable (get_data item)) items = false ->
     sequence (data_writes row items) = None) /\
    (forallb (fun item => writable (get_data item)) items = true ->
     exists ws,
       sequence (data_writes row items) = Some ws /\
       column_values 1 ws
       = map (fun k => CellInt (row - 1 + Z.of_nat k)) (seq 0 (length items)) /\
       column_values 2 ws = map (fun item => CellStr (cell_text item)) items).
Proof.
  induction items as [| item items IH]; intros row Hrow.
  - split; [discriminate |]. intros _. exists []. repeat split.
  - destruct (IH (row + 1)) as [IHf IHt]; [lia |].
    cbn [forallb data_writes sequence].
    rewrite str_cell_writable.
    destruct (writable (get_data item)); cbn [andb].
    + split.
      * intros Hf. rewrite (IHf Hf). reflexivity.
      * intros Ht. destruct (IHt Ht) as (ws & -> & H1 & H2).
        eexists. split; [reflexivity |].
        rewrite !column_values_cons.
        replace (1 <? row) with true by (symmetry; apply Z.ltb_lt; exact Hrow).
        cbn [Z.eqb Pos.eqb andb length seq map]. rewrite H1, H2.
        split; [| reflexivity].
        rewrite <- seq_shift, map_map.
        f_equal; [f_equal; lia |].
        apply map_ext. intros k. f_equal. lia.
    + split; [reflexivity | discriminate].
Qed.

Lemma build_workbook_spec (now : pystr) (data : list entry) :
  (forallb (fun item => writable (get_data item)) data && writable now = false ->
   build_workbook now data = None) /\
  (forallb (fun item => writable (get_data item)) data && writable now = true ->
   exists sheet summary,
     build_workbook now data = Some [sheet; summary] /\
     column_values 1 (writes sheet)
       = map (fun k => CellInt (Z.of_nat k)) (seq 1 (length data)) /\
     column_values 2 (writes sheet)
       = map (fun item => CellStr (cell_text item)) data /\
     In (2, 2, CellInt (Z.of_nat (length data))) (writes summary)).
Proof.
  unfold build_workbook. rewrite sequence_app.
  assert (Hh : sequence (header_writes 1 [str "S.No."; str "Content"])
               = Some [(1, 1, CellStr (str "S.No."));
                       (1, 2, CellStr (str "Content"))])
    by (vm_compute; reflexivity).
  rewrite Hh.
  assert (Hs : forall total,
             sequence [ str_cell 1 1 (str "Metric"); str_cell 1 2 (str "Value");
                        str_cell 2 1 (str "Total Detections");
                        Some (2, 2, total);
                        str_cell 3 1 (str "Date/Time"); str_cell 3 2 now ]
             = if writable now
               then Some [ (1, 1, CellStr (str "Metric"));
                           (1, 2, CellStr (str "Value"));
                           (2, 1, CellStr (str "Total Detections"));
                           (2, 2, total);
                           (3, 1, CellStr (str "Date/Time"));
                           (3, 2, CellStr (firstn max_cell_length now)) ]
               else None).
  { intros total.
    assert (E1 : str_cell 1 1 (str "Metric") = Some (1, 1, CellStr (str "Metric")))
      by (vm_compute; reflexivity).
    assert (E2 : str_cell 1 2 (str "Value") = Some (1, 2, CellStr (str "Value")))
      by (vm_compute; reflexivity).
    assert (E3 : str_cell 2 1 (str "Total Detections")
                 = Some (2, 1, CellStr (str "Total Detections")))
      by (vm_compute; reflexivity).
    assert (E4 : str_cell 3 1 (str "Date/Time")
                 = Some (3, 1, CellStr (str "Date/Time")))
      by (vm_compute; reflexivity).
    rewrite E1, E2, E3, E4, str_cell_writable. cbn [sequence].
    destruct (writable now); reflexivity. }
  rewrite Hs.
  destruct (data_writes_sequence data 2) as [Hf Ht]; [lia |].
  destruct (forallb (fun item => writable (get_data item)) data); simpl andb.
  - destruct (Ht eq_refl) as (ws & -> & H1 & H2).
    destruct (writable now).
    + split; [discriminate |]. intros _.
      eexists. eexists. split; [reflexivity |]. cbn [writes].
      assert (Hc : forall c,
                 column_values c
                   ([(1, 1, CellStr (str "S.No.")); (1, 2, CellStr (str "Content"))]
                    ++ ws)
                 = column_values c ws).
      { intros c. cbn [app]. rewrite !column_values_cons.
        cbn [Z.ltb Z.compare Pos.compare Pos.compare_cont].
        rewrite !andb_false_r. reflexivity. }
      rewrite !Hc, H1, H2.
      split; [| split; [reflexivity | right; right; right; left; reflexivity]].
      rewrite <- (seq_shift (length data) 0), map_map.
      apply map_ext. intros k. f_equal. lia.
    + split; [reflexivity | discriminate].
  - rewrite (Hf eq_refl). split; [reflexivity | discriminate].
Qed.

Lemma CellStr_NoDup (l : list pystr) :
  NoDup l -> NoDup (map (fun d => CellStr d) l).
Proof.
  induction 1 as [| d l Hd Hl IH]; simpl; constructor; [| exact IH].
  intros Hin. apply in_map_iff in Hin. destruct Hin as (d' & E & Hd').
  inversion E. subst. contradiction.
Qed.

Lemma cell_text_short (items : list entry) :
  Forall (fun item => (length (get_data item) <= max_cell_length)%nat) items ->
  map (fun item => CellStr (cell_text item)) items
  = map (fun item => CellStr (get_data item)) items.
Proof.
  induction 1 as [| item items Hi _ IH]; cbn [map]; [reflexivity |].
  rewrite IH. unfold cell_text. rewrite firstn_all2 by exact Hi. reflexivity.
Qed.

(** X30.  [export_to_excel] returns [True] exactly when [openpyxl] can
    be imported, there is at least one entry to export, the directory can
    be made, no text written to a cell holds a control character that
    openpyxl refuses, and the file can be saved; in every other case,
    an empty history included, it returns [False] and nothing is saved.
    The workbook saved has two sheets: in the first, below the header,
    the serial numbers 1 to n in order beside the payloads in the order of
    the entries, each cut to 32767 characters, and in the second the
    total n.  Payloads of at most 32767 characters are listed as they
    are, and when they come from the history of an exporter produced from
    a new one they are pairwise distinct. *)
Theorem export_lists_entries_in_order (env : environment)
    (results : option (list entry)) (self : ResultExporter) :
  let data_to_export :=
    match results with Some rs => rs | None => results_history self end in
  (fst (export_to_excel env results self) = true <->
   openpyxl_imports env = true /\ data_to_export <> [] /\
   makedirs_succeeds env = true /\
   forallb (fun item => writable (get_data item)) data_to_export = true /\
   writable (now_text env) = true /\
   save_succeeds env = true) /\
  (fst (export_to_excel env results self) = false ->
   snd (export_to_excel env results self) = None) /\
  (fst (export_to_excel env results self) = true ->
   exists sheet summary,
     snd (export_to_excel env results self) = Some [sheet; summary] /\
     column_values 1 (writes sheet)
       = map (fun k => CellInt (Z.of_nat k)) (seq 1 (length data_to_export)) /\
     column_values 2 (writes sheet)
       = map (fun item => CellStr (cell_text item)) data_to_export /\
     In (2, 2, CellInt (Z.of_nat (length data_to_export))) (writes summary) /\
     (Forall (fun item => (length (get_data item) <= max_cell_length)%nat)
             data_to_export ->
      column_values 2 (writes sheet)
        = map (fun item => CellStr (get_data item)) data_to_export /\
      (results = None -> reachable self ->
       NoDup (column_values 2 (writes sheet))))).
Proof.
  cbv zeta. unfold export_to_excel.
  set (data := match results with Some rs => rs | None => results_history self end).
  destruct (openpyxl_imports env); cbn [negb fst snd].
  2:{ split; [split; [discriminate | intros [H _]; discriminate H] |].
      split; [reflexivity | discriminate]. }
  destruct (build_workbook_spec (now_text env) data) as [Hnone Hsome].
  destruct data as [| item items] eqn:Ed; cbn [negb fst snd].
  { split; [split; [discriminate | intros (_ & H & _); congruence] |].
    split; [reflexivity | discriminate]. }
  destruct (makedirs_succeeds env); cbn [negb fst snd].
  2:{ split; [split; [discriminate | intros (_ & _ & H & _); discriminate H] |].
      split; [reflexivity | discriminate]. }
  destruct (forallb (fun item0 => writable (get_data item0)) (item :: items)
            && writable (now_text env)) eqn:Ew.
  2:{ rewrite (Hnone eq_refl). cbn [fst snd].
      split; [split; [discriminate |] | split; [reflexivity | discriminate]].
      intros (_ & _ & _ & H1 & H2 & _). rewrite H1, H2 in Ew. discriminate Ew. }
  destruct (Hsome eq_refl) as (sheet & summary & -> & Hc1 & Hc2 & Hsum).
  apply andb_true_iff in Ew. destruct Ew as [Ew1 Ew2].
  destruct (save_succeeds env); cbn [negb fst snd].
  2:{ split; [split; [discriminate |] | split; [reflexivity | discriminate]].
      intros (_ & _ & _ & _ & _ & H). discriminate H. }
  split; [split; [intros _; repeat split; try assumption; discriminate
                 | reflexivity] |].
  split; [discriminate |]. intros _.
  exists sheet, summary.
  split; [reflexivity |]. split; [exact Hc1 |]. split; [exact Hc2 |].
  split; [exact Hsum |].
  intros Hshort. rewrite Hc2, (cell_text_short _ Hshort).
  split; [reflexivity |].
  intros Hres Hr. subst results. unfold data in Ed.
  pose proof (proj2 (reachable_well_formed self Hr)) as Hn.
  rewrite Ed in Hn.
  rewrite <- (map_map get_data (fun d => CellStr d)).
  apply CellStr_NoDup. exact Hn.
Qed.

Lemma export_lists_entries_in_order_witness :
  fst (export_to_excel fine_environment
         (Some [[("data"%string, str "HELLO")]; [("data"%string, [7%N])]])
         init) = false /\
  snd (export_to_excel fine_environment
         (Some [[("data"%string, str "HELLO")]; [("data"%string, [7%N])]])
         init) = None.
Proof.
  pose proof (export_lists_entries_in_order fine_environment
                (Some [[("data"%string, str "HELLO")]; [("data"%string, [7%N])]])
                init) as H.
  cbv zeta in H. destruct H as (Hiff & Hfalse & _).
  assert (Hf : fst (export_to_excel fine_environment
                      (Some [[("data"%string, str "HELLO")];
                             [("data"%string, [7%N])]]) init) = false).
  { destruct (fst (export_to_excel _ _ _)) eqn:E; [| reflexivity].
    destruct (proj1 Hiff eq_refl) as (_ & _ & _ & Hw & _).
    vm_compute in Hw. discriminate Hw. }
  split; [exact Hf | exact (Hfalse Hf)].
Defined.

End ExporterFacts.
